(** * Speed measurement and form submission: a shallow embedding

    The development embeds the scheduler script
    [submit_speed_and_send_official_autorun_v2.py] (module [Official]), its
    sibling [submit_speed_and_send_autorun.py] (module [Experimental]), the
    one-shot script [submit_speed_and_send_official.py] (module [OneShot])
    and the conversion and the submission with retries of
    [submit_speed_to_form.py] (module [FirstGen]), and states the
    properties of the written specification, and further properties of the
    code, over them.

    Python's side effects are threaded through an explicit [World]: the
    wall clock, the CSV log file and the list of observable events.  What
    the outside answers (the speedtest probe, the [speedtest] executable,
    the form endpoint, how long each call really takes) is an [Env] of
    oracles indexed by the number of the interaction.

    Conventions of the model:
    - a function of the script is a computation in the monad [M], which
      returns a value or raises; a [for] loop is a [Fixpoint] over what is
      left to iterate, and [while True] is iterated a given number of
      rounds;
    - time passes only in the interactions with the outside ([time.sleep],
      the probe, the executable, the POST); the clock never goes back;
    - floats are exact rationals; a string is the UTF-8 encoding of the
      text, and slices count characters;
    - of the [print] statements only the first one of [run_once] is kept,
      as the event [EvRun]; writing the log file never fails. *)

From Stdlib Require Import ZArith QArith Qround String Ascii List Lia Lqa.
From stdpp Require Import base option list gmap strings pretty.

Set Warnings "-register-all".
Local Open Scope Z_scope.
Local Open Scope string_scope.

(** ** Python values, exceptions and results *)

(** What [json.loads] produces.  Numbers are exact rationals: the float
    arithmetic of the script is modelled with exact arithmetic. *)
Inductive json : Type :=
| JNull
| JBool (b : bool)
| JNum (q : Q)
| JStr (s : string)
| JArr (l : list json)
| JObj (l : list (string * json)).

(** [Exception cls msg] is an instance of a subclass of [Exception] whose
    class is named [cls] and whose [str(e)] is [msg]; [SystemExit] derives
    from [BaseException] only, so [except Exception] lets it through. *)
Inductive exn : Type :=
| Exception (cls msg : string)
| SystemExit (msg : string).

Inductive result (A : Type) : Type :=
| Ok (a : A)
| Raise (e : exn).
Arguments Ok {A} a.
Arguments Raise {A} e.

Definition is_ok {A} (r : result A) : bool :=
  match r with Ok _ => true | Raise _ => false end.

(** ** The outside world *)

(** The raw figures of a finished in-process probe: [s.download()] and
    [s.upload()] in bit/s, [s.results.ping] in ms, the [host] entry of the
    best server and the [ip] entry of the client, when present. *)
Record raw_probe : Type := RawProbe {
  raw_download : Q;
  raw_upload : Q;
  raw_ping : Q;
  best_host : option string;
  client_ip : option string
}.

Inductive probe_outcome : Type :=
| ProbeOk (r : raw_probe)
| ProbeRaise (cls msg : string).

(** Outcome of [subprocess.run([exe, "--json"], ...)]: the executable is
    missing, the call raises something else (a timeout), or it finishes
    with a return code and a standard output. *)
Inductive stdout : Type :=
| OutEmpty
| OutGarbage (msg : string)
| OutJson (data : json).

Inductive cli_outcome : Type :=
| CliNotFound
| CliRaise (cls msg : string)
| CliExit (returncode : Z) (out : stdout).

Inductive http_outcome : Type :=
| HttpResponse (status_code : Z) (text : string)
| HttpRaise (cls msg : string).

(** Library functions of Python whose exact output is not part of the
    script: the text of a float, of another parsed value and of a
    dictionary (or [None]), [strftime("%Y-%m-%d %H:%M:%S")] of a clock
    value, [float] on a string, [str.strip]. *)
Record PyLib : Type := {
  str_float : Q → string;
  str_json : json → string;
  strftime : Z → string;
  str_dict : option (gmap string string) → string;
  float_of_str : string → option Q;
  strip : string → string
}.

(** The [n]-th interaction with the outside (numbered from 0 in program
    order) takes [elapsed n] microseconds on top of any requested sleep;
    the time a suspended host spends asleep is part of it. *)
Record Env : Type := {
  speedtest_installed : bool;
  speedtest_probe : nat → probe_outcome;
  subprocess_run : nat → string → cli_outcome;
  requests_post : nat → gmap string string → http_outcome;
  elapsed : nat → N
}.


(** A cell of a CSV row as handed to [csv.writer.writerow]. *)
Inductive cell : Type :=
| CStr (s : string)
| CFloat (q : Q)
| CVal (v : json)
| CNone.

(** What the script does to the outside, in program order. *)
Inductive event : Type :=
| EvRun (label : string)
| EvProbe (attempt : Z)
| EvCli (exe : string)
| EvSleep (seconds : Z)
| EvPost (payload : gmap string string) (answer : http_outcome)
| EvHeader
| EvAppend (row : list cell).

(** [clock] is the local wall clock in microseconds (the resolution of
    [datetime]) counted from midnight of day 0; [log_file] is [None] until
    the CSV file exists; [trace] lists the events, oldest first, each with
    the clock at which it started. *)
Record World : Type := {
  clock : Z;
  ticks : nat;
  log_file : option (list (list cell));
  trace : list (Z * event)
}.

(** ** The state-and-exception monad of the script *)

Definition M (A : Type) : Type := World → result A * World.

Definition ret {A} (a : A) : M A := λ w, (Ok a, w).

Definition raise {A} (e : exn) : M A := λ w, (Raise e, w).

Definition bind {A B} (c : M A) (k : A → M B) : M B :=
  λ w, match c w with
       | (Ok a, w') => k a w'
       | (Raise e, w') => (Raise e, w')
       end.

(** [try: c except Exception as e: h e] *)
Definition try_except {A} (c : M A) (h : string → string → M A) : M A :=
  λ w, match c w with
       | (Raise (Exception cls msg), w') => h cls msg w'
       | other => other
       end.

Declare Scope py_scope.
Delimit Scope py_scope with py.
Notation "x <- c1 ;; c2" := (bind c1 (λ x, c2))
  (at level 100, c1 at next level, right associativity) : py_scope.
Notation "'let*' p := c1 'in' c2" := (bind c1 (λ p, c2))
  (at level 10, p pattern, c1 at level 100, c2 at level 200) : py_scope.
Notation "c1 ;; c2" := (bind c1 (λ _, c2))
  (at level 100, right associativity) : py_scope.
Local Open Scope py_scope.

Definition lift {A} (r : result A) : M A := λ w, (r, w).

Definition emit (ev : event) : M unit :=
  λ w, (Ok (), {| clock := clock w; ticks := ticks w;
                  log_file := log_file w;
                  trace := trace w ++ [(clock w, ev)] |}).

(** One interaction with the outside: it gets the next number and the
    clock moves on by the requested time [us] and by what the environment
    adds. *)
Definition interact (env : Env) (us : Z) : M nat :=
  λ w, (Ok (ticks w),
        {| clock := clock w + us + Z.of_N (elapsed env (ticks w));
           ticks := S (ticks w);
           log_file := log_file w;
           trace := trace w |}).

Definition MICRO : Z := 1000000.
Definition DAY : Z := 86400 * MICRO.

(** [datetime.now()] and [date.today()]: statements that only read the
    clock take no time. *)
Definition datetime_now : M Z := λ w, (Ok (clock w), w).
Definition date_today : M Z := λ w, (Ok (clock w `div` DAY), w).

(** [time.sleep(seconds)] *)
Definition time_sleep (env : Env) (seconds : Z) : M unit :=
  if (seconds <? 0)%Z
  then raise (Exception "ValueError" "sleep length must be non-negative")
  else
    emit (EvSleep seconds) ;;
    _ <- interact env (seconds * MICRO) ;;
    ret ().

(** [datetime.combine(today, datetime.min.time()).replace(hour=h, minute=m)] *)
Definition combine (today h m : Z) : Z :=
  today * DAY + (h * 3600 + m * 60) * MICRO.

(** [int(delta.total_seconds())]: truncation towards zero. *)
Definition int_total_seconds (delta : Z) : Z := delta `quot` MICRO.

(** [sub in s] on strings *)
Definition str_in (sub s : string) : bool :=
  match index 0 sub s with Some _ => true | None => false end.

(** The text of a list of strings inside an f-string, for strings that
    need no escaping, as those of the lists of the scripts are. *)
Definition str_list (l : list string) : string :=
  "[" ++ String.concat ", " (map (λ s, "'" ++ s ++ "'") l) ++ "]".

(** [x in l] on a list of strings *)
Definition list_in (x : string) (l : list string) : bool :=
  bool_decide (x ∈ l).

(** [round(x, 2)]: to the nearest multiple of 1/100, ties to the even
    one.  The operand is the exact rational; the scripts round the binary
    float nearest to it, which makes a difference only for an operand
    within a unit in the last place of a tie. *)
Definition round_half_even (x : Q) : Z :=
  let n := Qfloor x in
  match Qcompare (x - inject_Z n) (1 # 2) with
  | Lt => n
  | Gt => n + 1
  | Eq => if Z.even n then n else n + 1
  end.

Definition round2 (x : Q) : Q := Qred (inject_Z (round_half_even (x * 100)) / 100).

(** ** Helpers on parsed JSON, as Python evaluates them *)

(** [d.get(k)] on a parsed object; [json.loads] keeps the last of several
    bindings of one key. *)
Fixpoint obj_get (k : string) (l : list (string * json)) : option json :=
  match l with
  | [] => None
  | (k', v) :: rest =>
      match obj_get k rest with
      | Some v' => Some v'
      | None => if String.eqb k k' then Some v else None
      end
  end.

(** Truth value of a Python object. *)
Definition truthy (v : json) : bool :=
  match v with
  | JNull => false
  | JBool b => b
  | JNum q => negb (Qeq_bool q 0)
  | JStr s => negb (String.eqb s "")
  | JArr l => match l with [] => false | _ => true end
  | JObj l => match l with [] => false | _ => true end
  end.

(** [v.get(k)] : only a dictionary has the method. *)
Definition get_method (v : json) (k : string) : result (option json) :=
  match v with
  | JObj l => Ok (obj_get k l)
  | _ => Raise (Exception "AttributeError" "object has no attribute 'get'")
  end.

(** [float(v)] *)
Definition py_float (py : PyLib) (v : json) : result Q :=
  match v with
  | JNum q => Ok q
  | JBool b => Ok (if b then 1 else 0)%Q
  | JStr s => match float_of_str py s with
              | Some q => Ok q
              | None => Raise (Exception "ValueError" "could not convert string to float")
              end
  | _ => Raise (Exception "TypeError" "float() argument must be a string or a real number")
  end.

(** A value used as a number in [v * 8]: an [int], a [float] or a [bool];
    on anything else the arithmetic that follows raises [TypeError]. *)
Definition py_number (v : json) : result Q :=
  match v with
  | JNum q => Ok q
  | JBool b => Ok (if b then 1 else 0)%Q
  | _ => Raise (Exception "TypeError" "unsupported operand type(s)")
  end.

(** [v is None] *)
Definition is_none (v : json) : bool :=
  match v with JNull => true | _ => false end.

(** [isinstance(v, (int, float))] *)
Definition is_number (v : json) : bool :=
  match v with JNum _ | JBool _ => true | _ => false end.

(** The text of [v] inside an f-string. *)
Definition py_str (py : PyLib) (v : json) : string :=
  match v with
  | JStr s => s
  | JNull => "None"
  | JBool true => "True"
  | JBool false => "False"
  | _ => str_json py v
  end.

Definition result_bind {A B} (r : result A) (k : A → result B) : result B :=
  match r with Ok a => k a | Raise e => Raise e end.

(** [d[k]] on a dictionary of strings *)
Definition getitem (d : gmap string string) (k : string) : result string :=
  match d !! k with
  | Some v => Ok v
  | None => Raise (Exception "KeyError" k)
  end.

(** The next interaction's number, without performing it. *)
Definition next_tick : M nat := λ w, (Ok (ticks w), w).

(** [requests.post(url, data=payload, headers=headers, timeout=30)] *)
Definition requests_post_call (env : Env) (payload : gmap string string) : M http_outcome :=
  k <- next_tick ;;
  let answer := requests_post env k payload in
  emit (EvPost payload answer) ;;
  _ <- interact env 0 ;;
  ret answer.

(** [status_code in (200, 302)] *)
Definition accepted (status_code : Z) : bool :=
  (status_code =? 200)%Z || (status_code =? 302)%Z.

(** [text[:n]]: the first [n] characters.  A string is the UTF-8 encoding
    of the text, so that a character is a byte that is not a continuation
    byte, together with the continuation bytes that follow it. *)
Definition is_continuation (a : ascii) : bool :=
  let n := N_of_ascii a in (128 <=? n)%N && (n <? 192)%N.

Fixpoint take_chars (n : nat) (s : string) : string :=
  match s with
  | EmptyString => EmptyString
  | String a rest =>
      if is_continuation a then String a (take_chars n rest)
      else match n with
           | O => EmptyString
           | S n' => String a (take_chars n' rest)
           end
  end.

(** [text[:500]] *)
Definition preview_of (text : string) : string := take_chars 500 text.

(** ** Data shared by the scripts *)

(** The user-configurable metadata.  The scripts hold them in module
    constants; they are gathered here so that the properties range over
    every configuration. *)
Record SiteIdentity : Type := {
  SCHOOL_CODE : string;
  SCHOOL_SECTOR : string;
  SCHOOL_NAME : string;
  SERVICE_PROVIDER : string;
  LINE_NUMBER : string;
  SERVICE_TYPE : string;
  DEVICE_NAME : string
}.

(** The values the scripts are shipped with; [device] is
    [os.environ.get("COMPUTERNAME") or "Device"]. *)
Definition prefilled (device : string) : SiteIdentity := {|
  SCHOOL_CODE := "1561";
  SCHOOL_SECTOR := "السيب";
  SCHOOL_NAME := "مدرسة ابو القاسم الزهراوي";
  SERVICE_PROVIDER := "عمانتل";
  LINE_NUMBER := "24424428";
  SERVICE_TYPE := "فايبر";
  DEVICE_NAME := device
|}.

(** The dictionary a measurement returns: keys [download], [upload],
    [ping], [server], [ip].  [upload] is [None] on one path of the
    command-line fallback. *)
Record Results : Type := {
  download : Q;
  upload : option Q;
  ping : Q;
  server : json;
  ip : json
}.

(** * [submit_speed_and_send_official_autorun_v2.py] *)

Module Official.

Definition SCHEDULES : list (string * Z * Z) :=
  [("07:00", 7, 0); ("13:30", 13, 30)].

Definition ENTRY_SECTOR_ID : string := "entry.1313908626".
Definition ENTRY_PROVIDER_ID : string := "entry.927675658".
Definition ENTRY_SERVICE_TYPE_ID : string := "entry.66731299".

Definition ALLOWED_SECTORS : list string :=
  ["مسقط"; "قريات"; "السيب"; "العامرات"; "بوشر"; "مطرح"].
Definition ALLOWED_PROVIDERS : list string :=
  ["عمانتل"; "أوريدو"; "أواصر"].
Definition ALLOWED_SERVICE_TYPES : list string :=
  ["فايبر"; "الجيل الخامس 5 G"].

Definition ENTRY_TEXT_IDS : gmap string string :=
  list_to_map [
    ("Q1_school_code", "entry.899161738");
    ("X_A", "entry.560537791");
    ("X_B", "entry.1862560773");
    ("X_C", "entry.181224386");
    ("X_D", "entry.556952249")
  ].

Definition mapping_of (q3 q5 q7 q8 : string) : gmap string string :=
  list_to_map [
    ("Q3_school_name", q3); ("Q5_line_number", q5);
    ("Q7_internet_speed", q7); ("Q8_notes", q8)
  ].

Definition TEXT_MAPPING_TRIES : list (gmap string string) :=
  [ mapping_of "X_A" "X_B" "X_C" "X_D";
    mapping_of "X_A" "X_B" "X_D" "X_C";
    mapping_of "X_B" "X_A" "X_C" "X_D" ].

Definition HIDDEN_CANDIDATES : list (gmap string string) :=
  [ ∅; {[ "fbzx" := "8122308104194036559" ]} ].

Definition HIDDEN_ALWAYS : gmap string string :=
  list_to_map [("fvv", "1"); ("pageHistory", "0")].

Section Measurement.
Context (py : PyLib) (env : Env).

(** The body of the [try] of one attempt is one interaction (its
    [time.sleep(0.5)] included), which either yields the raw figures or
    raises; these are the results made of the raw figures. *)
Definition probe_results (r : raw_probe) : Results := {|
  download := round2 (raw_download r / 1000000);
  upload := Some (round2 (raw_upload r / 1000000));
  ping := round2 (raw_ping r);
  server := JStr (default "unknown" (best_host r));
  ip := JStr (default "unknown" (client_ip r))
|}.

(** ["403" in msg or "ConfigRetrievalError" in msg] *)
Definition is_transient (msg : string) : bool :=
  str_in "403" msg || str_in "ConfigRetrievalError" msg.

(** The [for attempt in range(1, max_attempts + 1)] loop over the
    attempts still to make, and the [raise last_err] after it. *)
Fixpoint retry_loop (backoff : Z) (attempts : list Z)
    (last_err : option (string * string)) : M Results :=
  match attempts with
  | [] =>
      match last_err with
      | Some (cls, msg) => raise (Exception cls msg)
      | None => raise (Exception "TypeError" "exceptions must derive from BaseException")
      end
  | attempt :: rest =>
      emit (EvProbe attempt) ;;
      k <- interact env 0 ;;
      match speedtest_probe env k with
      | ProbeOk r => ret (probe_results r)
      | ProbeRaise cls msg =>
          (if is_transient msg
           then time_sleep env (backoff * attempt)
           else time_sleep env 5) ;;
          retry_loop backoff rest (Some (cls, msg))
      end
  end.

Definition measure_speed_python (max_attempts backoff : Z) : M Results :=
  if speedtest_installed env
  then retry_loop backoff (seqZ 1 max_attempts) None
  else raise (SystemExit "Missing dependency: speedtest-cli. Install via: pip install speedtest-cli").

(** The branch for the JSON of speedtest-cli (bit/s at top level). *)
Definition flat_results (data : list (string * json)) : result Results :=
  match obj_get "download" data, obj_get "upload" data, obj_get "ping" data,
        obj_get "server" data, obj_get "client" data with
  | Some d, Some u, Some p, Some srv, Some cl =>
      result_bind (py_float py d) (λ d,
      result_bind (py_float py u) (λ u,
      result_bind (py_float py p) (λ p,
      result_bind (get_method srv "host") (λ host,
      result_bind
        (match host with
         | Some h => if truthy h then Ok h
                     else result_bind (get_method srv "name") (λ name,
                          Ok (JStr (strip py (py_str py (default (JStr "") name)))))
         | None => result_bind (get_method srv "name") (λ name,
                   Ok (JStr (strip py (py_str py (default (JStr "") name)))))
         end) (λ server_host,
      result_bind (get_method cl "ip") (λ ip_addr,
      Ok {| download := round2 (d / 1000000);
            upload := Some (round2 (u / 1000000));
            ping := round2 p;
            server := if truthy server_host then server_host else JStr "unknown";
            ip := default (JStr "unknown") ip_addr |}))))))
  | _, _, _, _, _ => Raise (Exception "KeyError" "flat")
  end.

Definition has_flat_keys (data : list (string * json)) : bool :=
  forallb (λ k, bool_decide (is_Some (obj_get k data)))
          ["download"; "upload"; "ping"; "server"; "client"].

(** [(data.get(k, {}) or {}).get(field, "unknown")] *)
Definition get_or_unknown (data : list (string * json)) (k field : string) : result json :=
  let sub := default (JObj []) (obj_get k data) in
  let sub := if truthy sub then sub else JObj [] in
  result_bind (get_method sub field) (λ v, Ok (default (JStr "unknown") v)).

(** The branch for the JSON of the Ookla executable (bandwidth in
    byte/s inside sub-objects).  [Ok None] is the fall through of the
    inner [if]. *)
Definition ookla_results (data : list (string * json)) : result (option Results) :=
  result_bind (get_method (default (JObj []) (obj_get "download" data)) "bandwidth") (λ dl,
  result_bind (get_method (default (JObj []) (obj_get "upload" data)) "bandwidth") (λ ul,
  result_bind (get_method (default (JObj []) (obj_get "ping" data)) "latency") (λ ping_ms,
  let dl := default JNull dl in
  let ul := default JNull ul in
  match ping_ms with
  | Some ping_ms =>
      if truthy dl && truthy ul && negb (is_none ping_ms) then
        result_bind (py_number dl) (λ dlq,
        result_bind (if is_number ul
                     then result_bind (py_number ul) (λ ulq,
                          Ok (Some (round2 (ulq * 8 * 8 / 1000000))))
                     else Ok None) (λ upload_mbps,
        result_bind (get_or_unknown data "server" "host") (λ server_host,
        result_bind (get_or_unknown data "interface" "externalIp") (λ ip_addr,
        result_bind (py_float py ping_ms) (λ p,
        Ok (Some {| download := round2 (dlq * 8 / 1000000);
                    upload := upload_mbps;
                    ping := round2 p;
                    server := server_host;
                    ip := ip_addr |}))))))
      else Ok None
  | None => Ok None
  end))).

(** What the [try] body makes of a parsed standard output: a returned
    dictionary, a fall through to the end of the body ([Ok None]), or an
    exception.  Anything but an object raises on the first [k in data]
    or [data.get]. *)
Definition cli_results (data : json) : result (option Results) :=
  match data with
  | JObj l =>
      if has_flat_keys l then result_bind (flat_results l) (λ r, Ok (Some r))
      else
        match obj_get "type" l with
        | Some (JStr t) => if String.eqb t "result" then ookla_results l else Ok None
        | _ => Ok None
        end
  | _ => Raise (Exception "TypeError" "not a dictionary")
  end.

(** The [for exe in candidates] loop of [measure_speed_cli] and the
    [raise RuntimeError] after it.  Both [except] clauses and the
    [else] branch end the iteration and go on to the next candidate. *)
Fixpoint cli_loop (candidates : list string) : M Results :=
  match candidates with
  | [] => raise (Exception "RuntimeError" "تعذر تشغيل speedtest CLI. تأكد أن 'speedtest' في PATH أو ثبّت speedtest-cli.")
  | exe :: rest =>
      emit (EvCli exe) ;;
      k <- interact env 0 ;;
      match subprocess_run env k exe with
      | CliNotFound => cli_loop rest
      | CliRaise _ _ => cli_loop rest
      | CliExit returncode out =>
          if (returncode =? 0)%Z then
            match out with
            | OutEmpty => cli_loop rest
            | OutGarbage _ => cli_loop rest
            | OutJson data =>
                match cli_results data with
                | Ok (Some results) => ret results
                | Ok None => cli_loop rest
                | Raise _ => cli_loop rest
                end
            end
          else cli_loop rest
      end
  end.

Definition measure_speed_cli : M Results :=
  cli_loop ["speedtest"; "speedtest.exe"].

Definition measure_speed : M Results :=
  try_except (measure_speed_python 3 20) (λ _ _, measure_speed_cli).
End Measurement.

(** ** Logging *)

Definition LOG_HEADER : list cell :=
  map CStr [
    "timestamp"; "download_mbps"; "upload_mbps"; "ping_ms";
    "server"; "ip"; "device";
    "school_code"; "sector"; "school_name";
    "provider"; "line_number"; "service_type"; "schedule_label";
    "submit_status"; "used_mapping"; "used_hidden"
  ].

(** [ensure_log_header(LOG_FILE)]: the file is written, with the header
    only, when it does not exist. *)
Definition ensure_log_header : M unit :=
  λ w, match log_file w with
       | Some _ => (Ok (), w)
       | None => (Ok (), {| clock := clock w; ticks := ticks w;
                            log_file := Some [LOG_HEADER];
                            trace := trace w ++ [(clock w, EvHeader)] |})
       end.

(** [append_log(LOG_FILE, row)]: mode ["a"] creates a missing file. *)
Definition append_log (row : list cell) : M unit :=
  λ w, (Ok (), {| clock := clock w; ticks := ticks w;
                  log_file := Some (default [] (log_file w) ++ [row])%list;
                  trace := trace w ++ [(clock w, EvAppend row)] |}).

(** ** Submission *)

Section Submission.
Context (py : PyLib) (env : Env) (id : SiteIdentity).

Definition str_upload (u : option Q) : string :=
  match u with Some q => str_float py q | None => "None" end.

Definition notes_text_of (results : Results) (ts : string) : string :=
  "تنزيل: " ++ str_float py (download results) ++ " Mbps | " ++
  "رفع: " ++ str_upload (upload results) ++ " Mbps | " ++
  "Ping: " ++ str_float py (ping results) ++ " ms | " ++
  "السيرفر: " ++ py_str py (server results) ++ " | " ++
  "IP: " ++ py_str py (ip results) ++ " | " ++
  "الجهاز: " ++ DEVICE_NAME id ++ " | " ++
  "التاريخ/الوقت: " ++ ts.

Definition build_payload_base (results : Results) (ts : string)
    : result (gmap string string * string) :=
  if negb (list_in (SCHOOL_SECTOR id) ALLOWED_SECTORS) then
    Raise (Exception "ValueError"
             ("Invalid sector '" ++ SCHOOL_SECTOR id ++ "'. Allowed: " ++ str_list ALLOWED_SECTORS))
  else if negb (list_in (SERVICE_PROVIDER id) ALLOWED_PROVIDERS) then
    Raise (Exception "ValueError"
             ("Invalid provider '" ++ SERVICE_PROVIDER id ++ "'. Allowed: " ++ str_list ALLOWED_PROVIDERS))
  else if negb (list_in (SERVICE_TYPE id) ALLOWED_SERVICE_TYPES) then
    Raise (Exception "ValueError"
             ("Invalid service type '" ++ SERVICE_TYPE id ++ "'. Allowed: " ++ str_list ALLOWED_SERVICE_TYPES))
  else
    result_bind (getitem ENTRY_TEXT_IDS "Q1_school_code") (λ q1_id,
    Ok (<[ENTRY_SERVICE_TYPE_ID := SERVICE_TYPE id]>
        (<[ENTRY_PROVIDER_ID := SERVICE_PROVIDER id]>
        (<[ENTRY_SECTOR_ID := SCHOOL_SECTOR id]>
        (<[q1_id := SCHOOL_CODE id]> ∅))),
        notes_text_of results ts)).

(** [d.update(other)]: the entries of [other] win. *)
Definition dict_update (d other : gmap string string) : gmap string string :=
  other ∪ d.

(** [ENTRY_TEXT_IDS[mapping[question]]] *)
Definition text_id (mapping : gmap string string) (question : string) : result string :=
  result_bind (getitem mapping question) (getitem ENTRY_TEXT_IDS).

(** The payload of one attempt: the part of [try_submit_with_mapping]
    that precedes the POST. *)
Definition payload_of (mapping hidden_extra : gmap string string)
    (results : Results) (ts : string) : result (gmap string string) :=
  result_bind (build_payload_base results ts) (λ '(base, notes_text),
  result_bind (text_id mapping "Q3_school_name") (λ q3_id,
  result_bind (text_id mapping "Q5_line_number") (λ q5_id,
  result_bind (text_id mapping "Q7_internet_speed") (λ q7_id,
  result_bind (text_id mapping "Q8_notes") (λ q8_id,
  let payload := base in
  let payload := <[q3_id := SCHOOL_NAME id]> payload in
  let payload := <[q5_id := LINE_NUMBER id]> payload in
  let payload := <[q7_id := str_float py (download results) ++ " Mbps"]> payload in
  let payload := <[q8_id := notes_text]> payload in
  let payload := dict_update payload HIDDEN_ALWAYS in
  let payload := dict_update payload hidden_extra in
  Ok payload))))).

Definition try_submit_with_mapping (mapping hidden_extra : gmap string string)
    (results : Results) (ts : string) : M (bool * Z * string) :=
  payload <- lift (payload_of mapping hidden_extra results ts) ;;
  r <- requests_post_call env payload ;;
  match r with
  | HttpResponse status_code text =>
      ret (accepted status_code, status_code, preview_of text)
  | HttpRaise cls msg => raise (Exception cls msg)
  end.

(** What [submit_official] returns:
    [(ok, code, preview, used_mapping, used_hidden)]. *)
Definition submit_result : Type :=
  bool * option Z * string * option (gmap string string) * option (gmap string string).

(** The inner [for hidden in HIDDEN_CANDIDATES] loop over the candidates
    still to try: [inl] is the [return True, ...] inside it, [inr] the
    [last_status] with which the outer loop goes on. *)
Fixpoint hidden_loop (mapping : gmap string string) (hiddens : list (gmap string string))
    (results : Results) (ts : string) (last_status : bool * option Z * string)
    : M (submit_result + bool * option Z * string) :=
  match hiddens with
  | [] => ret (inr last_status)
  | hidden :: rest =>
      let* (ok, code, preview) := try_submit_with_mapping mapping hidden results ts in
      if ok : bool
      then ret (inl (true, Some code, preview, Some mapping, Some hidden))
      else hidden_loop mapping rest results ts (ok, Some code, preview)
  end.

(** The outer [for mapping in TEXT_MAPPING_TRIES] loop and the
    [return False, ...] after it. *)
Fixpoint mapping_loop (mappings hiddens : list (gmap string string))
    (results : Results) (ts : string) (last_status : bool * option Z * string)
    : M submit_result :=
  match mappings with
  | [] => ret (false, last_status.1.2, last_status.2, None, None)
  | mapping :: rest =>
      r <- hidden_loop mapping hiddens results ts last_status ;;
      match r with
      | inl returned => ret returned
      | inr last_status => mapping_loop rest hiddens results ts last_status
      end
  end.

Definition submit_official (results : Results) (ts : string) : M submit_result :=
  mapping_loop TEXT_MAPPING_TRIES HIDDEN_CANDIDATES results ts (false, None, "").
End Submission.

(** ** One run *)

Section Scheduler.
Context (py : PyLib) (env : Env) (id : SiteIdentity).

(** ["SUCCESS" if ok else f"FAIL({code})"] *)
Definition status_txt (ok : bool) (code : option Z) : string :=
  if ok then "SUCCESS"
  else "FAIL(" ++ match code with Some c => pretty c | None => "None" end ++ ")".

Definition log_row (ts : string) (results : Results) (schedule_label : string)
    (ok : bool) (code : option Z)
    (used_mapping used_hidden : option (gmap string string)) : list cell :=
  [ CStr ts; CFloat (download results);
    match upload results with Some u => CFloat u | None => CNone end;
    CFloat (ping results); CVal (server results); CVal (ip results);
    CStr (DEVICE_NAME id);
    CStr (SCHOOL_CODE id); CStr (SCHOOL_SECTOR id); CStr (SCHOOL_NAME id);
    CStr (SERVICE_PROVIDER id); CStr (LINE_NUMBER id); CStr (SERVICE_TYPE id);
    CStr schedule_label; CStr (status_txt ok code);
    CStr (str_dict py used_mapping); CStr (str_dict py used_hidden) ].

(** [EvRun] stands for the first [print] of [run_once]. *)
Definition run_once (schedule_label : string) : M unit :=
  emit (EvRun schedule_label) ;;
  results <- measure_speed py env ;;
  now <- datetime_now ;;
  let ts := strftime py now in
  ensure_log_header ;;
  let* (ok, code, preview, used_mapping, used_hidden) :=
    submit_official py env id results ts in
  append_log (log_row ts results schedule_label ok code used_mapping used_hidden).

(** ** The scheduler *)

Definition next_dt_for (hour minute today : Z) : M Z :=
  let candidate := combine today hour minute in
  now <- datetime_now ;;
  ret (if (candidate <=? now)%Z then candidate + DAY else candidate).

(** [last_run] maps a label to the day of its last run; a label bound
    to [None] in the script has no entry here. *)
Fixpoint catch_up (slots : list (string * Z * Z)) (now : Z)
    (last_run : gmap string Z) (ran_any : bool) : M (gmap string Z * bool) :=
  match slots with
  | [] => ret (last_run, ran_any)
  | (label, h, m) :: rest =>
      today <- date_today ;;
      let sched_today := combine today h m in
      today <- date_today ;;
      if (sched_today <=? now)%Z && negb (bool_decide (last_run !! label = Some today)) then
        run_once label ;;
        today <- date_today ;;
        catch_up rest now (<[label := today]> last_run) true
      else catch_up rest now last_run ran_any
  end.

(** The second [for] of the loop body, which fills [upcoming]. *)
Fixpoint collect_upcoming (slots : list (string * Z * Z))
    (last_run : gmap string Z) : M (list (Z * string)) :=
  match slots with
  | [] => ret []
  | (label, h, m) :: rest =>
      today <- date_today ;;
      let sched_today := combine today h m in
      today <- date_today ;;
      sched <-
        (if bool_decide (last_run !! label = Some today) then
           today <- date_today ;;
           next_dt_for h m today
         else
           today <- date_today ;;
           sched <- next_dt_for h m today ;;
           now <- datetime_now ;;
           ret (if (now <? sched_today)%Z then sched_today else sched)) ;;
      upcoming <- collect_upcoming rest last_run ;;
      ret ((sched, label) :: upcoming)
  end.

(** [min(upcoming, key=lambda x: x[0])]: the first of the earliest. *)
Fixpoint min_by_time (upcoming : list (Z * string)) : option (Z * string) :=
  match upcoming with
  | [] => None
  | x :: rest =>
      match min_by_time rest with
      | Some y => if (y.1 <? x.1)%Z then Some y else Some x
      | None => Some x
      end
  end.

(** The [while wait_seconds > 0] loop.  The clock never goes back, so
    [wait_seconds] falls by at least one with every nap and
    [Z.to_nat wait_seconds] rounds are enough; [fuel] is that bound. *)
Fixpoint sleep_chunks (fuel : nat) (next_time wait_seconds : Z) : M unit :=
  if (0 <? wait_seconds)%Z then
    match fuel with
    | O => ret ()
    | S fuel =>
        let nap := Z.min wait_seconds 300 in
        time_sleep env nap ;;
        now <- datetime_now ;;
        sleep_chunks fuel next_time (int_total_seconds (next_time - now))
    end
  else ret ().

(** One round of [while True]. *)
Definition loop_iteration (last_run : gmap string Z) : M (gmap string Z) :=
  now <- datetime_now ;;
  let* (last_run, ran_any) := catch_up SCHEDULES now last_run false in
  if ran_any : bool then
    time_sleep env 30 ;;
    ret last_run
  else
    upcoming <- collect_upcoming SCHEDULES last_run ;;
    match min_by_time upcoming with
    | None => raise (Exception "ValueError" "min() arg is an empty sequence")
    | Some (next_time, next_label) =>
        now <- datetime_now ;;
        let wait_seconds := Z.max 5 (int_total_seconds (next_time - now)) in
        sleep_chunks (Z.to_nat wait_seconds) next_time wait_seconds ;;
        run_once next_label ;;
        today <- date_today ;;
        ret (<[next_label := today]> last_run)
    end.

(** [rounds] rounds of [while True], from a given [last_run].  [Ok] is a
    scheduler that is still running, [Raise] one that an exception has
    ended. *)
Fixpoint loop_from (rounds : nat) (last_run : gmap string Z) : M (gmap string Z) :=
  match rounds with
  | O => ret last_run
  | S rounds =>
      last_run <- loop_iteration last_run ;;
      loop_from rounds last_run
  end.

Definition loop_scheduler (rounds : nat) : M (gmap string Z) :=
  loop_from rounds ∅.
End Scheduler.

End Official.

(** * [submit_speed_and_send_autorun.py] *)

Module Experimental.

Definition ENTRY_IDS : gmap string string :=
  list_to_map [
    ("school_code", "entry.413551861");
    ("sector", "entry.2132382965");
    ("school_name", "entry.256332732");
    ("provider", "entry.1818381540");
    ("line_number", "entry.1211366125");
    ("service_type", "entry.230321102");
    ("internet_speed", "entry.1693223006");
    ("notes", "entry.1576525453")
  ].

Definition HIDDEN_BASE : gmap string string :=
  list_to_map [("fvv", "1"); ("pageHistory", "0"); ("fbzx", "-7716787293459453204")].

Definition ALLOWED_SECTORS : list string :=
  ["مسقط"; "قريات"; "السيب"; "العامرات"; "بوشر"; "مطرح"].
Definition ALLOWED_PROVIDERS : list string :=
  ["عمانتل"; "أوريدو"; "أواصر"].
Definition ALLOWED_SERVICE_TYPES : list string :=
  ["فايبر"; "الجيل الخامس G 5"].

Section Submission.
Context (py : PyLib) (env : Env) (id : SiteIdentity).

Definition notes_text_of (results : Results) (timestamp : string) : string :=
  "تنزيل: " ++ str_float py (download results) ++ " Mbps | " ++
  "رفع: " ++ match upload results with Some q => str_float py q | None => "None" end ++ " Mbps | " ++
  "Ping: " ++ str_float py (ping results) ++ " ms | " ++
  "السيرفر: " ++ py_str py (server results) ++ " | " ++
  "IP: " ++ py_str py (ip results) ++ " | " ++
  "الجهاز: " ++ DEVICE_NAME id ++ " | " ++
  "التاريخ/الوقت: " ++ timestamp.

Definition build_payload (results : Results) (timestamp : string)
    : result (gmap string string) :=
  if negb (list_in (SCHOOL_SECTOR id) ALLOWED_SECTORS) then
    Raise (Exception "ValueError"
             ("Invalid sector '" ++ SCHOOL_SECTOR id ++ "'. Allowed: " ++ str_list ALLOWED_SECTORS))
  else if negb (list_in (SERVICE_PROVIDER id) ALLOWED_PROVIDERS) then
    Raise (Exception "ValueError"
             ("Invalid provider '" ++ SERVICE_PROVIDER id ++ "'. Allowed: " ++ str_list ALLOWED_PROVIDERS))
  else if negb (list_in (SERVICE_TYPE id) ALLOWED_SERVICE_TYPES) then
    Raise (Exception "ValueError"
             ("Invalid service type '" ++ SERVICE_TYPE id ++ "'. Allowed: " ++ str_list ALLOWED_SERVICE_TYPES))
  else
    result_bind (getitem ENTRY_IDS "school_code") (λ k1,
    result_bind (getitem ENTRY_IDS "sector") (λ k2,
    result_bind (getitem ENTRY_IDS "school_name") (λ k3,
    result_bind (getitem ENTRY_IDS "provider") (λ k4,
    result_bind (getitem ENTRY_IDS "line_number") (λ k5,
    result_bind (getitem ENTRY_IDS "service_type") (λ k6,
    result_bind (getitem ENTRY_IDS "internet_speed") (λ k7,
    result_bind (getitem ENTRY_IDS "notes") (λ k8,
    let payload : gmap string string :=
      <[k8 := notes_text_of results timestamp]>
      (<[k7 := str_float py (download results) ++ " Mbps"]>
      (<[k6 := SERVICE_TYPE id]>
      (<[k5 := LINE_NUMBER id]>
      (<[k4 := SERVICE_PROVIDER id]>
      (<[k3 := SCHOOL_NAME id]>
      (<[k2 := SCHOOL_SECTOR id]>
      (<[k1 := SCHOOL_CODE id]> ∅))))))) in
    Ok (HIDDEN_BASE ∪ payload))))))))).

(** The [for variant in variants] loop of [submit_form] over the
    variants still to send, and the [return False, ...] after it. *)
Fixpoint variants_loop (variants : list (gmap string string))
    (last_code : option Z) (last_preview : string) : M (bool * option Z * string) :=
  match variants with
  | [] => ret (false, last_code, last_preview)
  | variant :: rest =>
      r <- requests_post_call env variant ;;
      match r with
      | HttpResponse status_code text =>
          if accepted status_code
          then ret (true, Some status_code, preview_of text)
          else variants_loop rest (Some status_code) (preview_of text)
      | HttpRaise _ msg => variants_loop rest last_code msg
      end
  end.

Definition submit_form (payload : gmap string string) : M (bool * option Z * string) :=
  variants_loop [payload; delete "fbzx" payload] None "".
End Submission.

(** ** Measurement, logging and one run *)

Section Measurement.
Context (env : Env).

(** [measure_speed]: one probe, with neither a retry nor a fallback.  The
    figures are made of the raw ones as in [Official.probe_results]. *)
Definition measure_speed : M Results :=
  if speedtest_installed env then
    emit (EvProbe 1) ;;
    k <- interact env 0 ;;
    match speedtest_probe env k with
    | ProbeOk r => ret (Official.probe_results r)
    | ProbeRaise cls msg => raise (Exception cls msg)
    end
  else raise (SystemExit "Missing dependency: speedtest-cli. Install via: pip install speedtest-cli").
End Measurement.

Definition LOG_HEADER : list cell :=
  map CStr [
    "timestamp"; "download_mbps"; "upload_mbps"; "ping_ms";
    "server"; "ip"; "device";
    "school_code"; "sector"; "school_name";
    "provider"; "line_number"; "service_type"; "schedule_label"; "submit_status"
  ].

Definition ensure_log_header : M unit :=
  λ w, match log_file w with
       | Some _ => (Ok (), w)
       | None => (Ok (), {| clock := clock w; ticks := ticks w;
                            log_file := Some [LOG_HEADER];
                            trace := trace w ++ [(clock w, EvHeader)] |})
       end.

Definition append_log (row : list cell) : M unit :=
  λ w, (Ok (), {| clock := clock w; ticks := ticks w;
                  log_file := Some (default [] (log_file w) ++ [row])%list;
                  trace := trace w ++ [(clock w, EvAppend row)] |}).

Section Scheduler.
Context (py : PyLib) (env : Env) (id : SiteIdentity).

Definition log_row (ts : string) (results : Results) (schedule_label : string)
    (ok : bool) (code : option Z) : list cell :=
  [ CStr ts; CFloat (download results);
    match upload results with Some u => CFloat u | None => CNone end;
    CFloat (ping results); CVal (server results); CVal (ip results);
    CStr (DEVICE_NAME id);
    CStr (SCHOOL_CODE id); CStr (SCHOOL_SECTOR id); CStr (SCHOOL_NAME id);
    CStr (SERVICE_PROVIDER id); CStr (LINE_NUMBER id); CStr (SERVICE_TYPE id);
    CStr schedule_label; CStr (Official.status_txt ok code) ].

Definition run_once (schedule_label : string) : M unit :=
  emit (EvRun schedule_label) ;;
  results <- measure_speed env ;;
  now <- datetime_now ;;
  let ts := strftime py now in
  ensure_log_header ;;
  payload <- lift (build_payload py id results ts) ;;
  let* (ok, code, preview) := submit_form env payload in
  append_log (log_row ts results schedule_label ok code).

(** [next_dt_for] and [loop_scheduler] have the text of their namesakes
    of [Official]; what does not call [run_once] is taken from there. *)
Fixpoint catch_up (slots : list (string * Z * Z)) (now : Z)
    (last_run : gmap string Z) (ran_any : bool) : M (gmap string Z * bool) :=
  match slots with
  | [] => ret (last_run, ran_any)
  | (label, h, m) :: rest =>
      today <- date_today ;;
      let sched_today := combine today h m in
      today <- date_today ;;
      if (sched_today <=? now)%Z && negb (bool_decide (last_run !! label = Some today)) then
        run_once label ;;
        today <- date_today ;;
        catch_up rest now (<[label := today]> last_run) true
      else catch_up rest now last_run ran_any
  end.

Definition loop_iteration (last_run : gmap string Z) : M (gmap string Z) :=
  now <- datetime_now ;;
  let* (last_run, ran_any) := catch_up Official.SCHEDULES now last_run false in
  if ran_any : bool then
    time_sleep env 30 ;;
    ret last_run
  else
    upcoming <- Official.collect_upcoming Official.SCHEDULES last_run ;;
    match Official.min_by_time upcoming with
    | None => raise (Exception "ValueError" "min() arg is an empty sequence")
    | Some (next_time, next_label) =>
        now <- datetime_now ;;
        let wait_seconds := Z.max 5 (int_total_seconds (next_time - now)) in
        Official.sleep_chunks env (Z.to_nat wait_seconds) next_time wait_seconds ;;
        run_once next_label ;;
        today <- date_today ;;
        ret (<[next_label := today]> last_run)
    end.

Fixpoint loop_from (rounds : nat) (last_run : gmap string Z) : M (gmap string Z) :=
  match rounds with
  | O => ret last_run
  | S rounds =>
      last_run <- loop_iteration last_run ;;
      loop_from rounds last_run
  end.

Definition loop_scheduler (rounds : nat) : M (gmap string Z) :=
  loop_from rounds ∅.
End Scheduler.

End Experimental.

(** * [submit_speed_and_send_official.py]: the one-shot script *)

(** Its constants, [measure_speed] and [build_payload_base] have the text
    of [Official]'s constants, of [Experimental.measure_speed] and of
    [Official.build_payload_base], which stand for them here. *)
Module OneShot.

(** Defined by the script and used nowhere in it. *)
Definition HIDDEN_BASE : gmap string string :=
  list_to_map [("fvv", "1"); ("pageHistory", "0")].

Definition LOG_HEADER : list cell :=
  map CStr [
    "timestamp"; "download_mbps"; "upload_mbps"; "ping_ms";
    "server"; "ip"; "device";
    "school_code"; "sector"; "school_name";
    "provider"; "line_number"; "service_type"
  ].

Definition ensure_log_header : M unit :=
  λ w, match log_file w with
       | Some _ => (Ok (), w)
       | None => (Ok (), {| clock := clock w; ticks := ticks w;
                            log_file := Some [LOG_HEADER];
                            trace := trace w ++ [(clock w, EvHeader)] |})
       end.

Definition append_log (row : list cell) : M unit :=
  λ w, (Ok (), {| clock := clock w; ticks := ticks w;
                  log_file := Some (default [] (log_file w) ++ [row])%list;
                  trace := trace w ++ [(clock w, EvAppend row)] |}).

Section Submission.
Context (py : PyLib) (env : Env) (id : SiteIdentity).

(** The payload that [try_submit_with_mapping] builds before its loop. *)
Definition payload_of (mapping : gmap string string)
    (results : Results) (ts : string) : result (gmap string string) :=
  result_bind (Official.build_payload_base py id results ts) (λ '(base, notes_text),
  result_bind (Official.text_id mapping "Q3_school_name") (λ q3_id,
  result_bind (Official.text_id mapping "Q5_line_number") (λ q5_id,
  result_bind (Official.text_id mapping "Q7_internet_speed") (λ q7_id,
  result_bind (Official.text_id mapping "Q8_notes") (λ q8_id,
  let payload := base in
  let payload := <[q3_id := SCHOOL_NAME id]> payload in
  let payload := <[q5_id := LINE_NUMBER id]> payload in
  let payload := <[q7_id := str_float py (download results) ++ " Mbps"]> payload in
  let payload := <[q8_id := Official.notes_text_of py id results ts]> payload in
  Ok payload))))).

(** The [for variant in variants] loop over the variants still to send;
    [last] is the response [r] of the round before, which the [return]
    after the loop reads. *)
Fixpoint variants_loop (mapping : gmap string string)
    (variants : list (gmap string string)) (last : option (Z * string))
    : M (bool * Z * string * gmap string string) :=
  match variants with
  | [] =>
      match last with
      | Some (status_code, text) => ret (false, status_code, preview_of text, mapping)
      | None => raise (Exception "UnboundLocalError" "cannot access local variable 'r' where it is not associated with a value")
      end
  | variant :: rest =>
      r <- requests_post_call env variant ;;
      match r with
      | HttpResponse status_code text =>
          if accepted status_code
          then ret (true, status_code, preview_of text, mapping)
          else variants_loop mapping rest (Some (status_code, text))
      | HttpRaise cls msg => raise (Exception cls msg)
      end
  end.

Definition try_submit_with_mapping (mapping : gmap string string)
    (results : Results) (ts : string) : M (bool * Z * string * gmap string string) :=
  payload <- lift (payload_of mapping results ts) ;;
  variants_loop mapping [payload; <["fbzx" := "8122308104194036559"]> payload] None.

(** The [for mapping in TEXT_MAPPING_TRIES] loop of [main]. *)
Fixpoint mapping_loop (mappings : list (gmap string string))
    (results : Results) (ts : string) (last_preview : string) : M unit :=
  match mappings with
  | [] => ret ()
  | mapping :: rest =>
      let* (ok, code, preview, used) := try_submit_with_mapping mapping results ts in
      if ok : bool then ret () else mapping_loop rest results ts preview
  end.

Definition log_row (ts : string) (results : Results) : list cell :=
  [ CStr ts; CFloat (download results);
    match upload results with Some u => CFloat u | None => CNone end;
    CFloat (ping results); CVal (server results); CVal (ip results);
    CStr (DEVICE_NAME id);
    CStr (SCHOOL_CODE id); CStr (SCHOOL_SECTOR id); CStr (SCHOOL_NAME id);
    CStr (SERVICE_PROVIDER id); CStr (LINE_NUMBER id); CStr (SERVICE_TYPE id) ].

Definition main : M unit :=
  results <- Experimental.measure_speed env ;;
  now <- datetime_now ;;
  let ts := strftime py now in
  ensure_log_header ;;
  append_log (log_row ts results) ;;
  mapping_loop Official.TEXT_MAPPING_TRIES results ts "".
End Submission.

End OneShot.

(** * [submit_speed_to_form.py]: conversion and submission with retries *)

Module FirstGen.

Definition bps_to_mbps (bps : Q) : Q := round2 (bps / 1000000).

Section Submission.
(** [is_request_exception cls] is
    [issubclass(cls, requests.RequestException)]. *)
Context (env : Env) (is_request_exception : string → bool).

(** [time.sleep(seconds)] for a [float]: the nap shows in the clock, to
    the microsecond. *)
Definition sleep_float (seconds : Q) : M unit :=
  if Qle_bool 0 seconds
  then _ <- interact env (Qfloor (seconds * 1000000)) ;; ret ()
  else raise (Exception "ValueError" "sleep length must be non-negative").

(** The [for attempt in range(1, retries + 1)] loop over the attempts
    still to make, and the [return False] after it. *)
Fixpoint attempts_loop (payload : gmap string string) (backoff_sec : Q)
    (attempts : list Z) : M bool :=
  match attempts with
  | [] => ret false
  | attempt :: rest =>
      r <- requests_post_call env payload ;;
      match r with
      | HttpResponse status_code _ =>
          if (status_code =? 200)%Z then ret true
          else
            sleep_float (backoff_sec * inject_Z attempt) ;;
            attempts_loop payload backoff_sec rest
      | HttpRaise cls msg =>
          if is_request_exception cls then
            sleep_float (backoff_sec * inject_Z attempt) ;;
            attempts_loop payload backoff_sec rest
          else raise (Exception cls msg)
      end
  end.

Definition submit_to_form (payload : gmap string string) (retries : Z)
    (backoff_sec : Q) : M bool :=
  attempts_loop payload backoff_sec (seqZ 1 retries).
End Submission.

End FirstGen.

(** * Vocabulary of the properties *)

Local Open Scope list_scope.
Local Open Scope Z_scope.

(** The events of a world, without their time stamps. *)
Definition events_of (w : World) : list event := (trace w).*2.

(** One HTTP attempt of the submission engine: the combination tried, the
    payload posted for it and what the endpoint answered. *)
Record attempt : Type := Attempt {
  att_mapping : gmap string string;
  att_hidden : gmap string string;
  att_payload : gmap string string;
  att_answer : http_outcome
}.

Definition att_combo (a : attempt) : gmap string string * gmap string string :=
  (att_mapping a, att_hidden a).

Definition att_event (a : attempt) : event :=
  EvPost (att_payload a) (att_answer a).

(** The POST was answered with status 200 or 302. *)
Definition accepted_answer (r : http_outcome) : bool :=
  match r with
  | HttpResponse status_code _ => accepted status_code
  | HttpRaise _ _ => false
  end.

Definition att_accepted (a : attempt) : bool := accepted_answer (att_answer a).

(** The combinations in the order the nested loops visit them: mappings
    outside, hidden sets inside. *)
Definition ranked_combos (mappings hiddens : list (gmap string string))
    : list (gmap string string * gmap string string) :=
  m ← mappings; pair m <$> hiddens.

(** The [last_status] after the attempts [tried]: that of the last
    answered one. *)
Definition last_status_of (ls : bool * option Z * string) (tried : list attempt)
    : bool * option Z * string :=
  foldl (λ ls a, match att_answer a with
                 | HttpResponse c text => (accepted c, Some c, preview_of text)
                 | HttpRaise _ _ => ls
                 end) ls tried.

(** The engine returned [True]: the last attempt made was accepted, none
    before it was, and its combination is the one reported. *)
Definition first_acceptance (tried : list attempt) (res : Official.submit_result) : Prop :=
  ∃ pre a c text,
    tried = pre ++ [a]
    ∧ Forall (λ b, att_accepted b = false) pre
    ∧ att_answer a = HttpResponse c text ∧ accepted c = true
    ∧ res = (true, Some c, preview_of text, Some (att_mapping a), Some (att_hidden a)).

(** The engine returned [False]: every combination was tried, none was
    accepted, and the status reported is that of the last attempt. *)
Definition all_rejected (combos : list (gmap string string * gmap string string))
    (ls : bool * option Z * string) (tried : list attempt)
    (res : Official.submit_result) : Prop :=
  att_combo <$> tried = combos
  ∧ Forall (λ a, att_accepted a = false) tried
  ∧ res = (false, (last_status_of ls tried).1.2, (last_status_of ls tried).2, None, None).


(** The pause after a failed attempt of the in-process probe. *)
Definition backoff_wait (backoff attempt : Z) (msg : string) : Z :=
  if Official.is_transient msg then backoff * attempt else 5.

(** Events of a measurement and of a submission. *)
Definition is_measure_event (ev : event) : Prop :=
  match ev with EvProbe _ | EvSleep _ | EvCli _ => True | _ => False end.

Definition is_post_event (ev : event) : Prop :=
  match ev with EvPost _ _ => True | _ => False end.

Definition is_sleep_event (ev : event) : Prop :=
  match ev with EvSleep _ => True | _ => False end.

Definition is_run_event (ev : event) : Prop :=
  match ev with EvRun _ => True | _ => False end.

(** The rows appended to the log so far. *)
Definition appended (w : World) : list (list cell) :=
  omap (λ ev, match ev with EvAppend row => Some row | _ => None end) (events_of w).

(** The firings so far: the day on which [run_once] was entered and the
    label it was entered for. *)
Definition firing_of (te : Z * event) : option (Z * string) :=
  match te.2 with EvRun label => Some (te.1 `div` DAY, label) | _ => None end.

Definition firings (w : World) : list (Z * string) := omap firing_of (trace w).

(** A computation that leaves the log file alone, never sets the clock
    back and adds only events that satisfy [P]. *)
Definition tame {A} (P : event → Prop) (c : M A) : Prop :=
  ∀ w, log_file (c w).2 = log_file w
       ∧ clock w ≤ clock (c w).2
       ∧ ∃ tevs, trace (c w).2 = trace w ++ tevs ∧ Forall (λ te, P te.2) tevs.

(** The test of the catch-up loop for one slot, on a clock that shows
    [today] when the test is made and showed [now] when the round began. *)
Definition is_due (last_run : gmap string Z) (now today : Z) (slot : string * Z * Z) : bool :=
  let '(label, h, m) := slot in
  (combine today h m <=? now) && negb (bool_decide (last_run !! label = Some today)).

(** What the second loop of a round computes when the clock shows [now]. *)
Definition upcoming_at (slots : list (string * Z * Z)) (last_run : gmap string Z)
    (now : Z) : list (Z * string) :=
  (λ slot : string * Z * Z,
     let '(label, h, m) := slot in
     let today := now `div` DAY in
     let sched_today := combine today h m in
     let next := if sched_today <=? now then sched_today + DAY else sched_today in
     (if bool_decide (last_run !! label = Some today) then next
      else if now <? sched_today then sched_today else next, label)) <$> slots.

(** A computation that never sets the clock back and adds only events
    that satisfy [P]; it may write to the log file. *)
Definition orderly {A} (P : event → Prop) (c : M A) : Prop :=
  ∀ w, clock w ≤ clock (c w).2
       ∧ ∃ tevs, trace (c w).2 = trace w ++ tevs ∧ Forall (λ te, P te.2) tevs.

Definition not_a_run (ev : event) : Prop := ¬ is_run_event ev.

(** A nap of the chunked sleep: between one second and five minutes. *)
Definition is_nap (ev : event) : Prop :=
  match ev with EvSleep seconds => 0 < seconds ≤ 300 | _ => False end.

(** The three checks that open [build_payload_base]. *)
Definition valid_identity (id : SiteIdentity) : bool :=
  list_in (SCHOOL_SECTOR id) Official.ALLOWED_SECTORS
  && list_in (SERVICE_PROVIDER id) Official.ALLOWED_PROVIDERS
  && list_in (SERVICE_TYPE id) Official.ALLOWED_SERVICE_TYPES.

(** ** Vocabulary of the further properties *)

(** What [measure_speed_cli] makes of one run of an executable: the
    results it returns for it, if it returns any. *)
Definition usable (py : PyLib) (o : cli_outcome) : option Results :=
  match o with
  | CliExit returncode (OutJson data) =>
      if returncode =? 0 then
        match Official.cli_results py data with
        | Ok (Some results) => Some results
        | _ => None
        end
      else None
  | _ => None
  end.

(** The text with which a missing [speedtest] module ends the script. *)
Definition MISSING_MODULE : exn :=
  SystemExit "Missing dependency: speedtest-cli. Install via: pip install speedtest-cli".

(** The label in the [schedule_label] column of a row of the log. *)
Definition label_of_row (row : list cell) : option string :=
  match row !! 13%nat with Some (CStr label) => Some label | _ => None end.

(** What the execution has added between the worlds [w] and [w']: the
    rows [rows] at the end of the log file, which is created with the
    header first if it did not exist, and the firings [fired]. *)
Definition grown (w w' : World) (rows : list (list cell)) (fired : list (Z * string)) : Prop :=
  appended w' = appended w ++ rows
  ∧ firings w' = firings w ++ fired
  ∧ (log_file w' = log_file w ∧ rows = []
     ∨ log_file w' = Some (default [Official.LOG_HEADER] (log_file w) ++ rows)).

(** The rows account for the firings: each row has the width of the
    header, and the rows carry, in order, the labels of the firings, of
    all of them when the execution [returned] and of all but the last one
    when an exception ended it. *)
Definition accounted (returned : bool) (rows : list (list cell))
    (fired : list (Z * string)) : Prop :=
  Forall (λ row, length row = length Official.LOG_HEADER) rows
  ∧ if returned then label_of_row <$> rows = Some <$> fired.*2
    else ∃ pre f, fired = pre ++ [f] ∧ label_of_row <$> rows = Some <$> pre.*2.

(** Events that are neither a firing nor a row. *)
Definition is_quiet (ev : event) : Prop :=
  match ev with EvRun _ | EvAppend _ => False | _ => True end.

(** The labels of the slots, in the order of the list. *)
Definition slot_labels (slots : list (string * Z * Z)) : list string := slots.*1.*1.

(** The three checks that open [build_payload] of the sibling script. *)
Definition experimental_valid (id : SiteIdentity) : bool :=
  list_in (SCHOOL_SECTOR id) Experimental.ALLOWED_SECTORS
  && list_in (SERVICE_PROVIDER id) Experimental.ALLOWED_PROVIDERS
  && list_in (SERVICE_TYPE id) Experimental.ALLOWED_SERVICE_TYPES.

(** The status of the last POST that was answered. *)
Definition last_answered (answers : list http_outcome) : option Z :=
  foldl (λ code a, match a with HttpResponse c _ => Some c | HttpRaise _ _ => code end)
        None answers.

(** A POST of the one-shot script: of the payload of one of the
    [mappings], as it is or with the [fbzx] of the saved form added. *)
Definition oneshot_post (py : PyLib) (id : SiteIdentity) (results : Results) (ts : string)
    (mappings : list (gmap string string)) (ev : event) : Prop :=
  ∃ m p0 a,
    m ∈ mappings ∧ OneShot.payload_of py id m results ts = Ok p0
    ∧ (ev = EvPost p0 a ∨ ev = EvPost (<["fbzx"%string := "8122308104194036559"%string]> p0) a).

(** The POST was answered with status 200, the only answer that
    [submit_to_form] takes for a success. *)
Definition answered_200 (a : http_outcome) : bool :=
  match a with HttpResponse status_code _ => status_code =? 200 | HttpRaise _ _ => false end.

(** The microseconds of the naps that follow the failed [attempts]. *)
Definition backoff_total (backoff_sec : Q) (attempts : list Z) : Z :=
  foldr (λ attempt acc, Qfloor (backoff_sec * inject_Z attempt * 1000000) + acc) 0 attempts.

(** ** Vocabulary of the plan of a submission *)

(** The attempt that [submit_official] makes for a combination when its
    POST is the interaction number [k]: the payload of the combination and
    what the endpoint answers to it then. *)
Definition attempt_at (py : PyLib) (env : Env) (id : SiteIdentity) (results : Results)
    (ts : string) (k : nat) (combo : gmap string string * gmap string string) : attempt :=
  let payload := match Official.payload_of py id combo.1 combo.2 results ts with
                 | Ok payload => payload
                 | Raise _ => ∅
                 end in
  Attempt combo.1 combo.2 payload (requests_post env k payload).

(** The attempts for [combos], in order, one interaction each from the
    interaction number [k] on. *)
Fixpoint planned (py : PyLib) (env : Env) (id : SiteIdentity) (results : Results)
    (ts : string) (k : nat) (combos : list (gmap string string * gmap string string))
    : list attempt :=
  match combos with
  | [] => []
  | combo :: rest =>
      attempt_at py env id results ts k combo :: planned py env id results ts (S k) rest
  end.


(** The attempt ends the engine: its POST is answered with 200 or 302, or
    it raises. *)
Definition att_decisive (a : attempt) : bool :=
  match att_answer a with HttpResponse c _ => accepted c | HttpRaise _ _ => true end.

(** ** Vocabulary of the catch-up loop *)

(** The slots that the test of the catch-up loop lets through, and the
    firings of slots on the day [D]. *)
Definition due_slots (last_run : gmap string Z) (now today : Z)
    (slots : list (string * Z * Z)) : list (string * Z * Z) :=
  filter (λ slot, is_due last_run now today slot = true) slots.

Definition fired_on (D : Z) (slots : list (string * Z * Z)) : list (Z * string) :=
  (λ slot : string * Z * Z, (D, slot.1.1)) <$> slots.

(** * Concrete situations *)

(** A Python library for the concrete situations.  [show_float2] prints a
    figure that has at most two decimals the way [str] does ([100.0],
    [45.2], [45.24]); [show_time] is
    [strftime("%Y-%m-%d %H:%M:%S")], with day 0 being 1970-01-01. *)
Definition two_digits (n : Z) : string :=
  ((if (n <? 10)%Z then "0" else "") ++ pretty n)%string.

Definition show_float2 (q : Q) : string :=
  let n := round_half_even (q * 100) in
  let a := Z.abs n in
  ((if (n <? 0)%Z then "-" else "") ++ pretty (a `div` 100) ++ "." ++
   (if (a `mod` 10 =? 0)%Z then pretty ((a `mod` 100) `div` 10)
    else two_digits (a `mod` 100)))%string.

Definition civil_from_days (z : Z) : Z * Z * Z :=
  let z := z + 719468 in
  let era := z `div` 146097 in
  let doe := z - era * 146097 in
  let yoe := (doe - doe `div` 1460 + doe `div` 36524 - doe `div` 146096) `div` 365 in
  let y := yoe + era * 400 in
  let doy := doe - (365 * yoe + yoe `div` 4 - yoe `div` 100) in
  let mp := (5 * doy + 2) `div` 153 in
  let d := doy - (153 * mp + 2) `div` 5 + 1 in
  let m := if (mp <? 10)%Z then mp + 3 else mp - 9 in
  (if (m <=? 2)%Z then y + 1 else y, m, d).

Definition show_time (t : Z) : string :=
  let '(y, m, d) := civil_from_days (t `div` DAY) in
  let s := (t `mod` DAY) `div` MICRO in
  (pretty y ++ "-" ++ two_digits m ++ "-" ++ two_digits d ++ " " ++
   two_digits (s `div` 3600) ++ ":" ++ two_digits ((s `mod` 3600) `div` 60) ++ ":" ++
   two_digits (s `mod` 60))%string.

Definition plain_py : PyLib := {|
  str_float := show_float2;
  str_json := λ _, "?";
  strftime := show_time;
  str_dict := λ d, match d with None => "None" | Some _ => "{...}" end;
  float_of_str := λ _, None;
  strip := λ s, s
|}.

(** A world whose clock shows [h:m:s] on day [day]; nothing has happened
    yet and the log file does not exist. *)
Definition at_time (day h m s : Z) : World :=
  {| clock := day * DAY + ((h * 60 + m) * 60 + s) * MICRO;
     ticks := 0; log_file := None; trace := [] |}.

(** 2024-10-04 and the day after. *)
Definition day1 : Z := 20000.
Definition day2 : Z := 20001.

Definition good_probe : raw_probe :=
  RawProbe 94371840 18874368 (184 # 10) (Some "speedtest.example.om:8080") (Some "10.0.0.7").

Definition some_results : Results := Official.probe_results good_probe.

(** Everything works and takes no time. *)
Definition calm_env : Env := {|
  speedtest_installed := true;
  speedtest_probe := λ _, ProbeOk good_probe;
  subprocess_run := λ _ _, CliNotFound;
  requests_post := λ _ _, HttpResponse 200 "ok";
  elapsed := λ _, 0%N
|}.

(** The connection drops during the first POST and is back for the
    following ones. *)
Definition first_post_fails_env : Env := {|
  speedtest_installed := true;
  speedtest_probe := λ _, ProbeOk good_probe;
  subprocess_run := λ _ _, CliNotFound;
  requests_post := λ k _, if (k =? 0)%nat
                          then HttpRaise "ConnectionError" "Connection aborted."
                          else HttpResponse 200 "ok";
  elapsed := λ _, 0%N
|}.

(** The output of the Ookla executable and of speedtest-cli for one and
    the same line: 100 Mbit/s down and up, that is 12 500 000 byte/s. *)
Definition ookla_doc : json :=
  JObj [ ("type", JStr "result");
         ("ping", JObj [("latency", JNum (184 # 10))]);
         ("download", JObj [("bandwidth", JNum 12500000)]);
         ("upload", JObj [("bandwidth", JNum 12500000)]);
         ("interface", JObj [("externalIp", JStr "10.0.0.7")]);
         ("server", JObj [("host", JStr "speedtest.example.om")]) ].

Definition flat_doc : json :=
  JObj [ ("download", JNum 100000000);
         ("upload", JNum 100000000);
         ("ping", JNum (184 # 10));
         ("server", JObj [("host", JStr "speedtest.example.om")]);
         ("client", JObj [("ip", JStr "10.0.0.7")]) ].

(** The in-process probe is refused three times, and the [speedtest]
    executable prints [doc]. *)
Definition fallback_env (doc : json) : Env := {|
  speedtest_installed := true;
  speedtest_probe := λ _, ProbeRaise "ConfigRetrievalError" "HTTP Error 403: Forbidden";
  subprocess_run := λ _ exe, if String.eqb exe "speedtest"
                             then CliExit 0 (OutJson doc) else CliNotFound;
  requests_post := λ _ _, HttpResponse 200 "ok";
  elapsed := λ _, 0%N
|}.

(** No network: the in-process probe fails three times with an error that
    is not a 403, and there is no [speedtest] executable. *)
Definition no_network_env : Env := {|
  speedtest_installed := true;
  speedtest_probe := λ _, ProbeRaise "URLError" "<urlopen error [Errno 101] Network is unreachable>";
  subprocess_run := λ _ _, CliNotFound;
  requests_post := λ _ _, HttpRaise "ConnectionError" "Network is unreachable";
  elapsed := λ _, 0%N
|}.

(** Everything works, but the host is suspended during the interaction
    number [k] for [seconds] seconds. *)
Definition suspended_env (k : nat) (seconds : N) : Env := {|
  speedtest_installed := true;
  speedtest_probe := λ _, ProbeOk good_probe;
  subprocess_run := λ _ _, CliNotFound;
  requests_post := λ _ _, HttpResponse 200 "ok";
  elapsed := λ n, if (n =? k)%nat then (seconds * 1000000)%N else 0%N
|}.

(** The script is started at 12:00 of [day1].  It catches up 07:00 (probe,
    POST, and the pause of 30 seconds are the interactions 0 to 2) and goes
    to sleep for 13:30; the host is suspended during the first nap, the
    interaction 3, and wakes up 12 hours and 30 minutes late, at 00:35:30 of
    [day2]. *)
Definition suspended_over_midnight_env : Env := suspended_env 3 45000.
Definition started_at_noon : World := at_time day1 12 0 0.

(** The script is started at 06:00 of [day1] and goes to sleep for 07:00. *)
Definition started_at_six : World := at_time day1 6 0 0.

(** The host is suspended during the first nap of that morning, the
    interaction 0, and wakes up 8 hours late, at 14:05 of [day1]; the
    network is not back when it wakes up. *)
Definition resume_without_network_env : Env := {|
  speedtest_installed := true;
  speedtest_probe := λ _, ProbeRaise "URLError" "<urlopen error [Errno 101] Network is unreachable>";
  subprocess_run := λ _ _, CliNotFound;
  requests_post := λ _ _, HttpRaise "ConnectionError" "Network is unreachable";
  elapsed := λ n, if (n =? 0)%nat then (28800 * 1000000)%N else 0%N
|}.

(** The time stamps and labels of the rows of the log, header left out. *)
Definition logged_runs (w : World) : list (option cell * option cell) :=
  (λ row : list cell, (row !! 0%nat, row !! 13%nat)) <$> appended w.

(** The first attempt of the in-process probe is refused with a 403, the
    second one goes through. *)
Definition flaky_env : Env := {|
  speedtest_installed := true;
  speedtest_probe := λ k, if (k =? 0)%nat
                          then ProbeRaise "ConfigRetrievalError" "HTTP Error 403: Forbidden"
                          else ProbeOk good_probe;
  subprocess_run := λ _ _, CliNotFound;
  requests_post := λ _ _, HttpResponse 200 "ok";
  elapsed := λ _, 0%N
|}.

(** A night and a day asleep.  At 13:31 of [day1] both slots have run and
    the scheduler goes to sleep for 07:00 of [day2]; the host is suspended
    during the first nap, the interaction 0, and wakes up at 14:05 of
    [day2].  The worlds are those at the start, after the chunked sleep,
    after the run of 07:00 and after the run of 13:30. *)
Definition overnight_env : Env := suspended_env 0 88140.
Definition both_ran_on_day1 : gmap string Z :=
  <["13:30" := day1]> (<["07:00" := day1]> ∅).
Definition overnight_w0 : World := at_time day1 13 31 0.
Definition overnight_w1 : World :=
  (Official.sleep_chunks overnight_env (Z.to_nat 62940) (combine day2 7 0) 62940 overnight_w0).2.
Definition overnight_w2 : World :=
  (Official.run_once plain_py overnight_env (prefilled "PC") "07:00" overnight_w1).2.
Definition overnight_w3 : World :=
  (Official.run_once plain_py overnight_env (prefilled "PC") "13:30" overnight_w2).2.

(** An identity whose sector is not one of the form's choices. *)
Definition misconfigured : SiteIdentity := {|
  SCHOOL_CODE := "1561";
  SCHOOL_SECTOR := "صلالة";
  SCHOOL_NAME := "مدرسة ابو القاسم الزهراوي";
  SERVICE_PROVIDER := "عمانتل";
  LINE_NUMBER := "24424428";
  SERVICE_TYPE := "فايبر";
  DEVICE_NAME := "PC"
|}.

(** The script is started at 06:00 of [day1]; the host is suspended during
    the first nap and wakes up at 23:59:50 of [day1]; the probe, the
    interaction 1, then takes 20 seconds, so that the run of 07:00 ends on
    [day2]. *)
Definition late_resume_env : Env := {|
  speedtest_installed := true;
  speedtest_probe := λ _, ProbeOk good_probe;
  subprocess_run := λ _ _, CliNotFound;
  requests_post := λ _ _, HttpResponse 200 "ok";
  elapsed := λ n, if (n =? 0)%nat then (64490 * 1000000)%N
                  else if (n =? 1)%nat then (20 * 1000000)%N else 0%N
|}.

(** The first mapping tried and the payload posted for it, without hidden
    token, for the good probe. *)
Definition first_mapping : gmap string string := Official.mapping_of "X_A" "X_B" "X_C" "X_D".
Definition first_payload : gmap string string :=
  match Official.payload_of plain_py (prefilled "PC") first_mapping ∅ some_results
          "2024-10-04 07:00:30" with
  | Ok payload => payload
  | Raise _ => ∅
  end.

(** ** Further situations *)

(** The [speedtest] module is not installed. *)
Definition no_module_env : Env := {|
  speedtest_installed := false;
  speedtest_probe := λ _, ProbeRaise "ImportError" "No module named 'speedtest'";
  subprocess_run := λ _ _, CliNotFound;
  requests_post := λ _ _, HttpResponse 200 "ok";
  elapsed := λ _, 0%N
|}.

(** The probe works and the form endpoint cannot be reached. *)
Definition endpoint_down_env : Env := {|
  speedtest_installed := true;
  speedtest_probe := λ _, ProbeOk good_probe;
  subprocess_run := λ _ _, CliNotFound;
  requests_post := λ _ _, HttpRaise "ConnectionError" "Connection aborted.";
  elapsed := λ _, 0%N
|}.

(** The form endpoint answers every POST with a redirect. *)
Definition redirecting_env : Env := {|
  speedtest_installed := true;
  speedtest_probe := λ _, ProbeOk good_probe;
  subprocess_run := λ _ _, CliNotFound;
  requests_post := λ _ _, HttpResponse 302 "Moved Temporarily";
  elapsed := λ _, 0%N
|}.

(** The exceptions of [requests] that the situations raise. *)
Definition raised_by_requests (cls : string) : bool :=
  bool_decide (cls ∈ ["RequestException"; "ConnectionError"; "Timeout"]).
(** * The helpers on small inputs *)

Example str_in_403 :
  str_in "403" "HTTP Error 403: Forbidden" = true ∧ str_in "403" "timed out" = false.
Proof. by split. Qed.

Example round2_ties_to_even :
  round2 (45245 # 1000) = Qred (4524 # 100) ∧ round2 (45255 # 1000) = Qred (4526 # 100)
  ∧ round2 (94371840 / 1000000) = (9437 # 100)%Q.
Proof. by split_and!. Qed.

Example int_total_seconds_truncates :
  int_total_seconds 1999999 = 1 ∧ int_total_seconds (-1999999) = -1
  ∧ int_total_seconds 999999 = 0.
Proof. by split_and!. Qed.

Example min_by_time_first_of_ties :
  Official.min_by_time [(5, "b"%string); (3, "x"%string); (3, "y"%string)]
  = Some (3, "x"%string).
Proof. reflexivity. Qed.

Example show_time_epoch_day :
  show_time (clock (at_time day1 13 30 5)) = "2024-10-04 13:30:05"%string
  ∧ show_float2 (9437 # 100) = "94.37"%string ∧ show_float2 100 = "100.0"%string.
Proof. by split_and!; vm_compute. Qed.

Example obj_get_last_binding :
  obj_get "a" [("a"%string, JNum 1); ("b"%string, JNull); ("a"%string, JNum 2)]
  = Some (JNum 2).
Proof. reflexivity. Qed.

Example preview_counts_characters :
  take_chars 3 "سرعة الإنترنت" = "سرع"%string ∧ take_chars 3 "Mbps" = "Mbp"%string
  ∧ String.length (take_chars 3 "سرعة الإنترنت") = 6%nat.
Proof. by vm_compute. Qed.

(** * Facts on the submission engine *)

Section SubmissionFacts.
Context (py : PyLib) (env : Env) (id : SiteIdentity).
Context (results : Results) (ts : string).

Local Abbreviation payload_ok a :=
  (Official.payload_of py id (att_mapping a) (att_hidden a) results ts = Ok (att_payload a)).

Lemma events_of_emit ev w : events_of (emit ev w).2 = events_of w ++ [ev].
Proof. unfold events_of; cbn. by rewrite fmap_app. Qed.

(** One attempt either fails before the POST (no event), or posts the
    payload of its combination exactly once. *)
Lemma try_submit_with_mapping_spec m h w :
  let rw := Official.try_submit_with_mapping py env id m h results ts w in
  (∃ e, Official.payload_of py id m h results ts = Raise e ∧ rw = (Raise e, w))
  ∨ (∃ a, att_combo a = (m, h) ∧ payload_ok a
        ∧ events_of rw.2 = events_of w ++ [att_event a]
        ∧ rw.1 = match att_answer a with
                 | HttpResponse c text => Ok (accepted c, c, preview_of text)
                 | HttpRaise cls msg => Raise (Exception cls msg)
                 end).
Proof.
  unfold Official.try_submit_with_mapping, bind, lift; cbn.
  destruct (Official.payload_of py id m h results ts) as [p|e] eqn:Hp.
  - right. exists (Attempt m h p (requests_post env (ticks w) p)).
    split; [done|]. split; [done|]. unfold events_of. cbn.
    destruct (requests_post env (ticks w) p); cbn; by rewrite fmap_app.
  - left. by exists e.
Qed.

Lemma last_status_of_cons ls a c text tried :
  att_answer a = HttpResponse c text →
  last_status_of (accepted c, Some c, preview_of text) tried = last_status_of ls (a :: tried).
Proof. intros Ha. unfold last_status_of. cbn. by rewrite Ha. Qed.

Lemma hidden_loop_spec m hiddens ls w :
  let rw := Official.hidden_loop py env id m hiddens results ts ls w in
  ∃ tried,
    events_of rw.2 = events_of w ++ (att_event <$> tried)
    ∧ (att_combo <$> tried) `prefix_of` (pair m <$> hiddens)
    ∧ Forall (λ a, payload_ok a) tried
    ∧ match rw.1 with
      | Ok (inl res) => first_acceptance tried res
      | Ok (inr ls') =>
          att_combo <$> tried = pair m <$> hiddens
          ∧ Forall (λ a, att_accepted a = false) tried
          ∧ ls' = last_status_of ls tried
      | Raise _ => Forall (λ a, att_accepted a = false) tried
      end.
Proof.
  revert ls w. induction hiddens as [|h rest IH]; intros ls w; cbn.
  - exists []. cbn. rewrite app_nil_r. by split_and!.
  - unfold bind.
    destruct (try_submit_with_mapping_spec m h w) as [(e & _ & Hrw)|(a & Hc & Hp & Hev & Hr)].
    + rewrite Hrw. exists []. cbn. rewrite app_nil_r.
      split_and!; [done | apply prefix_nil | constructor | constructor].
    + destruct (Official.try_submit_with_mapping py env id m h results ts w)
        as [r0 w0]; cbn in Hev, Hr. subst r0.
      destruct (att_answer a) as [c text|cls msg] eqn:Ha.
      * destruct (accepted c) eqn:Hacc; cbn.
        -- exists [a]. cbn. split_and!; [done | | by constructor |].
           { rewrite Hc. by apply prefix_cons, prefix_nil. }
           exists [], a, c, text. injection Hc as <- <-.
           by split_and!.
        -- specialize (IH (false, Some c, preview_of text) w0).
           cbn in IH. destruct IH as (tried & Hev' & Hpre & Hpay & Hres).
           assert (Hna : att_accepted a = false)
             by (unfold att_accepted; rewrite Ha; done).
           exists (a :: tried). cbn. rewrite Hev', Hev, <- app_assoc. cbn.
           split_and!; [done | | by constructor |].
           { rewrite Hc. by apply prefix_cons. }
           destruct (Official.hidden_loop py env id m rest results ts
                       (false, Some c, preview_of text) w0).1 as [[res|ls']|e].
           ++ destruct Hres as (pre & b & c' & text' & -> & Hf & Hb & Hacc' & ->).
              exists (a :: pre), b, c', text'. split_and!; try done.
              by constructor.
           ++ destruct Hres as (Hall & Hf & ->). split_and!.
              ** by rewrite Hc, Hall.
              ** by constructor.
              ** rewrite <- Hacc. by apply last_status_of_cons.
           ++ by constructor.
      * exists [a]. cbn. split_and!; [done | | by constructor |].
        { rewrite Hc. by apply prefix_cons, prefix_nil. }
        constructor; [|constructor]. unfold att_accepted. by rewrite Ha.
Qed.

Lemma first_acceptance_app tried1 tried2 res :
  Forall (λ a, att_accepted a = false) tried1 →
  first_acceptance tried2 res → first_acceptance (tried1 ++ tried2) res.
Proof.
  intros H1 (pre & a & c & text & -> & Hf & Ha & Hacc & ->).
  exists (tried1 ++ pre), a, c, text. split_and!; try done.
  - by rewrite app_assoc.
  - by apply Forall_app.
Qed.

Lemma mapping_loop_spec mappings hiddens ls w :
  let rw := Official.mapping_loop py env id mappings hiddens results ts ls w in
  ∃ tried,
    events_of rw.2 = events_of w ++ (att_event <$> tried)
    ∧ (att_combo <$> tried) `prefix_of` ranked_combos mappings hiddens
    ∧ Forall (λ a, payload_ok a) tried
    ∧ match rw.1 with
      | Ok res =>
          first_acceptance tried res
          ∨ all_rejected (ranked_combos mappings hiddens) ls tried res
      | Raise _ => Forall (λ a, att_accepted a = false) tried
      end.
Proof.
  revert ls w. induction mappings as [|m rest IH]; intros ls w; cbn.
  - exists []. cbn. rewrite app_nil_r. split_and!; try done.
    right. by split_and!.
  - unfold bind.
    destruct (hidden_loop_spec m hiddens ls w) as (tried1 & Hev1 & Hpre1 & Hpay1 & Hres1).
    cbn in Hev1, Hres1.
    destruct (Official.hidden_loop py env id m hiddens results ts ls w)
      as [[[res|ls']|e] w1]; cbn in *.
    + exists tried1. split_and!; try done.
      * by apply prefix_app_r.
      * by left.
    + destruct Hres1 as (Hall1 & Hf1 & ->).
      destruct (IH (last_status_of ls tried1) w1) as (tried2 & Hev2 & Hpre2 & Hpay2 & Hres2).
      cbn in Hev2, Hres2.
      exists (tried1 ++ tried2). rewrite Hev2, Hev1, !fmap_app, <- app_assoc, Hall1.
      split_and!; [done | by apply prefix_app | by apply Forall_app |].
      destruct (Official.mapping_loop py env id rest hiddens results ts
                  (last_status_of ls tried1) w1).1 as [res|e].
      * destruct Hres2 as [Hfirst|(Hall2 & Hf2 & ->)].
        -- left. by apply first_acceptance_app.
        -- right. unfold all_rejected.
           rewrite fmap_app, Hall1, Hall2.
           split_and!; [done | by apply Forall_app |].
           unfold last_status_of. by rewrite foldl_app.
      * by apply Forall_app.
    + exists tried1. split_and!; try done. by apply prefix_app_r.
Qed.

End SubmissionFacts.

(** * Facts on the measurement *)

Section MeasurementFacts.
Context (py : PyLib) (env : Env).

(** One failed attempt followed by the rest of the loop. *)
Lemma retry_loop_raise backoff attempt rest last_err cls msg w :
  0 ≤ backoff → 0 ≤ attempt →
  speedtest_probe env (ticks w) = ProbeRaise cls msg →
  ∃ w',
    Official.retry_loop env backoff (attempt :: rest) last_err w
    = Official.retry_loop env backoff rest (Some (cls, msg)) w'
    ∧ ticks w' = S (S (ticks w))
    ∧ events_of w' = events_of w ++ [EvProbe attempt; EvSleep (backoff_wait backoff attempt msg)].
Proof.
  intros Hb Ha Ho. cbn. unfold bind; cbn. rewrite Ho. unfold backoff_wait, time_sleep.
  destruct (Official.is_transient msg).
  - destruct (Z.ltb_spec (backoff * attempt) 0) as [Hneg|_]; [nia|].
    cbn. eexists. split_and!; [reflexivity | done |].
    unfold events_of; cbn. by rewrite !fmap_app, <- app_assoc.
  - cbn. eexists. split_and!; [reflexivity | done |].
    unfold events_of; cbn. by rewrite !fmap_app, <- app_assoc.
Qed.

Lemma retry_loop_ok backoff attempt rest last_err r w :
  speedtest_probe env (ticks w) = ProbeOk r →
  ∃ w',
    Official.retry_loop env backoff (attempt :: rest) last_err w
    = (Ok (Official.probe_results r), w')
    ∧ events_of w' = events_of w ++ [EvProbe attempt].
Proof.
  intros Ho. cbn. unfold bind; cbn. rewrite Ho. cbn. eexists. split; [reflexivity|].
  unfold events_of; cbn. by rewrite fmap_app.
Qed.

(** The cases of the three attempts. *)
Lemma three_attempts backoff w :
  0 ≤ backoff →
  speedtest_installed env = true →
  let rw := Official.measure_speed_python env 3 backoff w in
  let outcome (i : nat) := speedtest_probe env (2 * i + ticks w) in
  match outcome 0%nat with
  | ProbeOk r =>
      rw.1 = Ok (Official.probe_results r)
      ∧ events_of rw.2 = events_of w ++ [EvProbe 1]
  | ProbeRaise _ m1 =>
      match outcome 1%nat with
      | ProbeOk r =>
          rw.1 = Ok (Official.probe_results r)
          ∧ events_of rw.2
            = events_of w ++ [EvProbe 1; EvSleep (backoff_wait backoff 1 m1); EvProbe 2]
      | ProbeRaise _ m2 =>
          match outcome 2%nat with
          | ProbeOk r =>
              rw.1 = Ok (Official.probe_results r)
              ∧ events_of rw.2
                = events_of w ++ [EvProbe 1; EvSleep (backoff_wait backoff 1 m1);
                                  EvProbe 2; EvSleep (backoff_wait backoff 2 m2);
                                  EvProbe 3]
          | ProbeRaise c3 m3 =>
              rw.1 = Raise (Exception c3 m3)
              ∧ events_of rw.2
                = events_of w ++ [EvProbe 1; EvSleep (backoff_wait backoff 1 m1);
                                  EvProbe 2; EvSleep (backoff_wait backoff 2 m2);
                                  EvProbe 3; EvSleep (backoff_wait backoff 3 m3)]
          end
      end
  end.
Proof.
  intros Hb Hinst. unfold Official.measure_speed_python. rewrite Hinst.
  change (seqZ 1 3) with [1; 2; 3]. cbn zeta.
  change (2 * 0 + ticks w)%nat with (ticks w).
  change (2 * 1 + ticks w)%nat with (S (S (ticks w))).
  change (2 * 2 + ticks w)%nat with (S (S (S (S (ticks w))))).
  destruct (speedtest_probe env (ticks w)) as [r|c1 m1] eqn:H1.
  { destruct (retry_loop_ok backoff 1 [2; 3] None r w H1) as (w1 & -> & Hev). done. }
  destruct (retry_loop_raise backoff 1 [2; 3] None c1 m1 w Hb ltac:(lia) H1) as (w1 & -> & Ht1 & Hev1).
  rewrite <- Ht1.
  destruct (speedtest_probe env (ticks w1)) as [r|c2 m2] eqn:H2.
  { destruct (retry_loop_ok backoff 2 [3] (Some (c1, m1)) r w1 H2) as (w2 & -> & Hev).
    cbn. rewrite Hev, Hev1, <- app_assoc. done. }
  destruct (retry_loop_raise backoff 2 [3] (Some (c1, m1)) c2 m2 w1 Hb ltac:(lia) H2)
    as (w2 & -> & Ht2 & Hev2).
  rewrite <- Ht2.
  destruct (speedtest_probe env (ticks w2)) as [r|c3 m3] eqn:H3.
  { destruct (retry_loop_ok backoff 3 [] (Some (c2, m2)) r w2 H3) as (w3 & -> & Hev).
    cbn. rewrite Hev, Hev2, Hev1, <- !app_assoc. done. }
  destruct (retry_loop_raise backoff 3 [] (Some (c2, m2)) c3 m3 w2 Hb ltac:(lia) H3)
    as (w3 & -> & Ht3 & Hev3).
  cbn. rewrite Hev3, Hev2, Hev1, <- !app_assoc. done.
Qed.

(** C8.  With its default budget and a backoff unit that is not negative,
    [measure_speed_python] makes at most three attempts.  A failed attempt number [n] whose message contains
    [403] or [ConfigRetrievalError] is followed by a pause of
    [backoff * n] seconds, any other failed attempt by a pause of 5
    seconds; the first attempt that succeeds gives the result, and when
    the third has failed too the error of the third is raised. *)
Theorem measure_speed_python_retries backoff w :
  0 ≤ backoff →
  speedtest_installed env = true →
  let rw := Official.measure_speed_python env 3 backoff w in
  let outcome (i : nat) := speedtest_probe env (2 * i + ticks w) in
  match outcome 0%nat with
  | ProbeOk r =>
      rw.1 = Ok (Official.probe_results r)
      ∧ events_of rw.2 = events_of w ++ [EvProbe 1]
  | ProbeRaise _ m1 =>
      match outcome 1%nat with
      | ProbeOk r =>
          rw.1 = Ok (Official.probe_results r)
          ∧ events_of rw.2
            = events_of w ++ [EvProbe 1; EvSleep (backoff_wait backoff 1 m1); EvProbe 2]
      | ProbeRaise _ m2 =>
          match outcome 2%nat with
          | ProbeOk r =>
              rw.1 = Ok (Official.probe_results r)
              ∧ events_of rw.2
                = events_of w ++ [EvProbe 1; EvSleep (backoff_wait backoff 1 m1);
                                  EvProbe 2; EvSleep (backoff_wait backoff 2 m2);
                                  EvProbe 3]
          | ProbeRaise c3 m3 =>
              rw.1 = Raise (Exception c3 m3)
              ∧ events_of rw.2
                = events_of w ++ [EvProbe 1; EvSleep (backoff_wait backoff 1 m1);
                                  EvProbe 2; EvSleep (backoff_wait backoff 2 m2);
                                  EvProbe 3; EvSleep (backoff_wait backoff 3 m3)]
          end
      end
  end.
Proof. exact (three_attempts backoff w). Qed.

Ltac no_member H :=
  repeat (apply elem_of_cons in H as [H|H]; [discriminate H|]);
  by apply elem_of_nil in H.

(** The fallback starts by running its first candidate. *)
Lemma cli_loop_events cands w :
  ∃ evs,
    events_of (Official.cli_loop py env cands w).2 = events_of w ++ evs
    ∧ ∀ exe rest, cands = exe :: rest → ∃ evs', evs = EvCli exe :: evs'.
Proof.
  revert w. induction cands as [|exe rest IH]; intros w.
  - exists []. cbn. by rewrite app_nil_r.
  - cbn. unfold bind; cbn.
    set (w1 := {| clock := _; ticks := S (ticks w); log_file := _; trace := _ |}).
    assert (Hw1 : events_of w1 = events_of w ++ [EvCli exe])
      by (unfold events_of; cbn; by rewrite fmap_app).
    assert (Hrec : ∃ evs, events_of (Official.cli_loop py env rest w1).2 = events_of w ++ evs
                          ∧ ∀ exe' rest', exe :: rest = exe' :: rest' → ∃ evs', evs = EvCli exe' :: evs').
    { destruct (IH w1) as (evs & Hev & _). exists (EvCli exe :: evs).
      rewrite Hev, Hw1, <- app_assoc. split; [done|]. intros ?? [= <- _]. by eexists. }
    assert (Hret : ∀ r, ∃ evs, events_of (ret r w1 : result Results * World).2 = events_of w ++ evs
                          ∧ ∀ exe' rest', exe :: rest = exe' :: rest' → ∃ evs', evs = EvCli exe' :: evs').
    { intros r. exists [EvCli exe]. split; [done|]. intros ?? [= <- _]. by eexists. }
    destruct (subprocess_run env (ticks w) exe) as [| |rc out]; try done.
    destruct (rc =? 0)%Z; [|done].
    destruct out as [| |data]; try done.
    destruct (Official.cli_results py data) as [[r|]|]; done.
Qed.

(** C9.  [measure_speed] runs the command-line fallback if and only if
    the in-process probe is available and its three attempts have all
    failed.  In particular, when the first attempt fails and the second
    succeeds, the result is that of the second attempt and nothing but the
    two attempts and the pause between them has happened. *)
Theorem fallback_iff_primary_exhausted w :
  let rw := Official.measure_speed py env w in
  let outcome (i : nat) := speedtest_probe env (2 * i + ticks w) in
  ∃ evs,
    events_of rw.2 = events_of w ++ evs
    ∧ ((∃ exe, EvCli exe ∈ evs)
       ↔ speedtest_installed env = true
         ∧ ∀ i, (i < 3)%nat → ∃ cls msg, outcome i = ProbeRaise cls msg)
    ∧ ∀ cls msg r,
        speedtest_installed env = true →
        outcome 0%nat = ProbeRaise cls msg → outcome 1%nat = ProbeOk r →
        rw.1 = Ok (Official.probe_results r)
        ∧ evs = [EvProbe 1; EvSleep (backoff_wait 20 1 msg); EvProbe 2].
Proof.
  cbn zeta. unfold Official.measure_speed, try_except.
  destruct (speedtest_installed env) eqn:Hinst.
  - pose proof (three_attempts 20 w ltac:(lia) Hinst) as H. cbn zeta in H.
    destruct (Official.measure_speed_python env 3 20 w) as [r0 w0]. cbn [fst snd] in H.
    destruct (speedtest_probe env (2 * 0 + ticks w)) as [r1|c1 m1] eqn:H1.
    { destruct H as [-> Hev]. eexists. split; [exact Hev|]. split; [|congruence].
      split.
      - intros [exe Hin]. no_member Hin.
      - intros [_ Hall]. destruct (Hall 0%nat) as (? & ? & ?); [lia|congruence]. }
    destruct (speedtest_probe env (2 * 1 + ticks w)) as [r2|c2 m2] eqn:H2.
    { destruct H as [-> Hev]. eexists. split; [exact Hev|]. split.
      - split.
        + intros [exe Hin]. no_member Hin.
        + intros [_ Hall]. destruct (Hall 1%nat) as (? & ? & ?); [lia|congruence].
      - intros cls msg r _ [= <- <-] [= <-]. done. }
    destruct (speedtest_probe env (2 * 2 + ticks w)) as [r3|c3 m3] eqn:H3.
    { destruct H as [-> Hev]. eexists. split; [exact Hev|]. split; [|congruence].
      split.
      - intros [exe Hin]. no_member Hin.
      - intros [_ Hall]. destruct (Hall 2%nat) as (? & ? & ?); [lia|congruence]. }
    destruct H as [-> Hev]. unfold Official.measure_speed_cli.
    destruct (cli_loop_events ["speedtest"; "speedtest.exe"]%string w0) as (evs & Hcli & Hfirst).
    destruct (Hfirst _ _ eq_refl) as [evs' ->].
    eexists. rewrite Hcli, Hev, <- app_assoc. split; [reflexivity|]. split; [|congruence].
    split.
    + intros _. split; [done|]. intros i Hi.
      destruct i as [|[|[|i]]]; [by eexists _, _ .. | lia].
    + intros _. exists "speedtest"%string. apply elem_of_app. right. constructor.
  - unfold Official.measure_speed_python. rewrite Hinst. cbn.
    exists []. rewrite app_nil_r. split; [done|]. split; [|done].
    split; [|by intros [? _]]. intros [exe Hin]. no_member Hin.
Qed.
End MeasurementFacts.

Example ranked_combos_official :
  ranked_combos Official.TEXT_MAPPING_TRIES Official.HIDDEN_CANDIDATES =
  [ (Official.mapping_of "X_A" "X_B" "X_C" "X_D", ∅);
    (Official.mapping_of "X_A" "X_B" "X_C" "X_D", {[ "fbzx" := "8122308104194036559" ]});
    (Official.mapping_of "X_A" "X_B" "X_D" "X_C", ∅);
    (Official.mapping_of "X_A" "X_B" "X_D" "X_C", {[ "fbzx" := "8122308104194036559" ]});
    (Official.mapping_of "X_B" "X_A" "X_C" "X_D", ∅);
    (Official.mapping_of "X_B" "X_A" "X_C" "X_D", {[ "fbzx" := "8122308104194036559" ]}) ].
Proof. reflexivity. Qed.

(** C2.  The same line, 100 Mbit/s in both directions, reported by the two
    executables: the download figure is 100.0 from both schemas, the
    upload figure is 100.0 from the flat schema and 800.0 from the nested
    one, whose upload bandwidth is multiplied by 8 twice. *)
Theorem ookla_upload_scaled_twice :
  let flat := (Official.measure_speed_cli plain_py (fallback_env flat_doc) (at_time day1 7 0 0)).1 in
  let nested := (Official.measure_speed_cli plain_py (fallback_env ookla_doc) (at_time day1 7 0 0)).1 in
  (∃ r, flat = Ok r ∧ download r = 100%Q ∧ upload r = Some 100%Q)
  ∧ (∃ r, nested = Ok r ∧ download r = 100%Q ∧ upload r = Some 800%Q).
Proof. split; eexists; (split; [vm_compute; reflexivity | split; reflexivity]). Qed.

(** C5.  The connection drops during the POST of the first combination
    and the endpoint would accept every later one: [submit_official]
    raises that error after this single POST, while [submit_form] of the
    sibling script, faced with the same endpoint, goes on to its second
    variant and succeeds. *)
Theorem submit_official_aborts_on_transport_error :
  let w := at_time day1 7 0 30 in
  let rw := Official.submit_official plain_py first_post_fails_env (prefilled "PC")
              some_results "2024-10-04 07:00:30" w in
  rw.1 = Raise (Exception "ConnectionError" "Connection aborted.")
  ∧ length (events_of rw.2) = 1%nat
  ∧ ∀ payload,
      (Experimental.submit_form first_post_fails_env payload w).1 = Ok (true, Some 200, "ok"%string).
Proof. split_and!; [vm_compute; reflexivity | vm_compute; reflexivity | done]. Qed.

(** * Facts on the payload *)

Section PayloadFacts.
Context (py : PyLib) (id : SiteIdentity).

(** The identity part of the payload does not depend on the
    measurement. *)
Lemma build_payload_base_inv results ts base notes :
  Official.build_payload_base py id results ts = Ok (base, notes) →
  notes = Official.notes_text_of py id results ts
  ∧ ∀ results' ts',
      Official.build_payload_base py id results' ts'
      = Ok (base, Official.notes_text_of py id results' ts').
Proof.
  unfold Official.build_payload_base.
  destruct (negb (list_in (SCHOOL_SECTOR id) Official.ALLOWED_SECTORS)); [done|].
  destruct (negb (list_in (SERVICE_PROVIDER id) Official.ALLOWED_PROVIDERS)); [done|].
  destruct (negb (list_in (SERVICE_TYPE id) Official.ALLOWED_SERVICE_TYPES)); [done|].
  destruct (getitem Official.ENTRY_TEXT_IDS "Q1_school_code"); [|done].
  cbn. intros [= <- <-]. done.
Qed.

(** The payload as a function of the four field identifiers. *)
Lemma payload_of_inv m h results ts payload :
  Official.payload_of py id m h results ts = Ok payload →
  ∃ base q3 q5 q7 q8,
    Official.build_payload_base py id results ts
      = Ok (base, Official.notes_text_of py id results ts)
    ∧ Official.text_id m "Q3_school_name" = Ok q3
    ∧ Official.text_id m "Q5_line_number" = Ok q5
    ∧ Official.text_id m "Q7_internet_speed" = Ok q7
    ∧ Official.text_id m "Q8_notes" = Ok q8
    ∧ payload =
        h ∪ (Official.HIDDEN_ALWAYS ∪
             <[q8 := Official.notes_text_of py id results ts]>
             (<[q7 := (str_float py (download results) ++ " Mbps")%string]>
             (<[q5 := LINE_NUMBER id]> (<[q3 := SCHOOL_NAME id]> base)))).
Proof.
  unfold Official.payload_of.
  destruct (Official.build_payload_base py id results ts) as [[base notes]|] eqn:Hb; [|done].
  apply build_payload_base_inv in Hb as [-> _]. cbn.
  destruct (Official.text_id m "Q3_school_name") as [q3|]; [|done].
  destruct (Official.text_id m "Q5_line_number") as [q5|]; [|done].
  destruct (Official.text_id m "Q7_internet_speed") as [q7|]; [|done].
  destruct (Official.text_id m "Q8_notes") as [q8|]; [|done].
  cbn. intros [= <-]. by eexists _, _, _, _, _.
Qed.

(** In each of the three mappings tried, the speed and the notes
    questions go to different fields, and no hidden parameter uses the
    name of either. *)
Lemma text_ids_of_tries m q7 q8 :
  m ∈ Official.TEXT_MAPPING_TRIES →
  Official.text_id m "Q7_internet_speed" = Ok q7 →
  Official.text_id m "Q8_notes" = Ok q8 →
  q8 ≠ q7
  ∧ Official.HIDDEN_ALWAYS !! q7 = None ∧ Official.HIDDEN_ALWAYS !! q8 = None
  ∧ ∀ h, h ∈ Official.HIDDEN_CANDIDATES → h !! q7 = None ∧ h !! q8 = None.
Proof.
  intros Hm H7 H8. unfold Official.TEXT_MAPPING_TRIES in Hm.
  repeat (apply elem_of_cons in Hm as [->|Hm]); [..|by apply elem_of_nil in Hm];
    vm_compute in H7, H8; injection H7 as <-; injection H8 as <-;
    (split_and!; [done | done | done |]);
    intros h Hh; unfold Official.HIDDEN_CANDIDATES in Hh;
    repeat (apply elem_of_cons in Hh as [->|Hh]); try (by apply elem_of_nil in Hh);
    by split.
Qed.

Ltac eval_getitem :=
  repeat match goal with
  | |- context [getitem ?d ?k] =>
      let v := eval vm_compute in (getitem d k) in
      change (getitem d k) with v; cbn [result_bind]
  end.

Lemma experimental_build_payload_inv results ts payload :
  Experimental.build_payload py id results ts = Ok payload →
  payload =
    Experimental.HIDDEN_BASE ∪
    <["entry.1576525453" := Experimental.notes_text_of py id results ts]>
    (<["entry.1693223006" := (str_float py (download results) ++ " Mbps")%string]>
    (<["entry.230321102" := SERVICE_TYPE id]>
    (<["entry.1211366125" := LINE_NUMBER id]>
    (<["entry.1818381540" := SERVICE_PROVIDER id]>
    (<["entry.256332732" := SCHOOL_NAME id]>
    (<["entry.2132382965" := SCHOOL_SECTOR id]>
    (<["entry.413551861" := SCHOOL_CODE id]> ∅))))))).
Proof.
  unfold Experimental.build_payload.
  destruct (negb (list_in (SCHOOL_SECTOR id) Experimental.ALLOWED_SECTORS)); [done|].
  destruct (negb (list_in (SERVICE_PROVIDER id) Experimental.ALLOWED_PROVIDERS)); [done|].
  destruct (negb (list_in (SERVICE_TYPE id) Experimental.ALLOWED_SERVICE_TYPES)); [done|].
  eval_getitem. by intros [= <-].
Qed.

End PayloadFacts.

(** * Frame facts: what a computation can touch *)

Section Frame.
Context {A B : Type} (P : event → Prop).

Lemma tame_ret (a : A) : tame P (ret a).
Proof. intros w. cbn. split_and!; [done | lia |]. exists []. by rewrite app_nil_r. Qed.

Lemma tame_raise e : tame P (raise e : M A).
Proof. intros w. cbn. split_and!; [done | lia |]. exists []. by rewrite app_nil_r. Qed.

Lemma tame_lift (r : result A) : tame P (lift r).
Proof. intros w. cbn. split_and!; [done | lia |]. exists []. by rewrite app_nil_r. Qed.

Lemma tame_bind (c : M A) (k : A → M B) :
  tame P c → (∀ a, tame P (k a)) → tame P (bind c k).
Proof.
  intros Hc Hk w. unfold bind. destruct (Hc w) as (Hl & Ht & tevs & Htr & Hf).
  destruct (c w) as [[a|e] w1]; cbn in *.
  - destruct (Hk a w1) as (Hl' & Ht' & tevs' & Htr' & Hf').
    split_and!; [congruence | lia |].
    exists (tevs ++ tevs'). rewrite Htr', Htr, <- app_assoc. split; [done|].
    by apply Forall_app.
  - split_and!; [done | done |]. by exists tevs.
Qed.

Lemma tame_try_except (c : M A) (h : string → string → M A) :
  tame P c → (∀ cls msg, tame P (h cls msg)) → tame P (try_except c h).
Proof.
  intros Hc Hh w. unfold try_except. destruct (Hc w) as (Hl & Ht & tevs & Htr & Hf).
  destruct (c w) as [[a|[cls msg|msg]] w1]; cbn in *;
    [split_and!; [done | done | by exists tevs] | | split_and!; [done | done | by exists tevs]].
  destruct (Hh cls msg w1) as (Hl' & Ht' & tevs' & Htr' & Hf').
  split_and!; [congruence | lia |].
  exists (tevs ++ tevs'). rewrite Htr', Htr, <- app_assoc. split; [done|].
  by apply Forall_app.
Qed.
End Frame.

Lemma tame_emit P ev : P ev → tame P (emit ev).
Proof.
  intros Hev w. cbn. split_and!; [done | lia |].
  exists [(clock w, ev)]. split; [done|]. by constructor.
Qed.

Lemma tame_interact P env us : 0 ≤ us → tame P (interact env us).
Proof.
  intros Hus w. cbn. split_and!; [done | lia |]. exists []. by rewrite app_nil_r.
Qed.

Lemma tame_datetime_now P : tame P datetime_now.
Proof. intros w. cbn. split_and!; [done | lia |]. exists []. by rewrite app_nil_r. Qed.

Lemma tame_date_today P : tame P date_today.
Proof. intros w. cbn. split_and!; [done | lia |]. exists []. by rewrite app_nil_r. Qed.

Lemma tame_time_sleep (P : event → Prop) env seconds :
  P (EvSleep seconds) → tame P (time_sleep env seconds).
Proof.
  intros HP. unfold time_sleep.
  destruct (Z.ltb_spec seconds 0) as [Hneg|Hs]; [apply tame_raise|].
  apply tame_bind; [by apply tame_emit|]. intros _.
  apply tame_bind; [apply tame_interact; unfold MICRO; lia|]. intros _.
  apply tame_ret.
Qed.

Lemma tame_weaken {A} (P Q : event → Prop) (c : M A) :
  (∀ ev, P ev → Q ev) → tame P c → tame Q c.
Proof.
  intros HPQ Hc w. destruct (Hc w) as (Hl & Ht & tevs & Htr & Hf).
  split_and!; [done | done |]. exists tevs. split; [done|].
  eapply Forall_impl; [exact Hf|]. intros te. apply HPQ.
Qed.

Section OfficialFrame.
Context (py : PyLib) (env : Env) (id : SiteIdentity).

Lemma tame_retry_loop backoff attempts last_err :
  tame is_measure_event (Official.retry_loop env backoff attempts last_err).
Proof.
  revert last_err. induction attempts as [|attempt rest IH]; intros last_err;
    cbn [Official.retry_loop].
  - destruct last_err as [[cls msg]|]; apply tame_raise.
  - apply tame_bind; [by apply tame_emit|]. intros _.
    apply tame_bind; [by apply tame_interact|]. intros k.
    destruct (speedtest_probe env k); [apply tame_ret|].
    apply tame_bind; [|intros _; apply IH].
    destruct (Official.is_transient msg); by apply tame_time_sleep.
Qed.

Lemma tame_cli_loop candidates :
  tame is_measure_event (Official.cli_loop py env candidates).
Proof.
  induction candidates as [|exe rest IH]; cbn [Official.cli_loop].
  - apply tame_raise.
  - apply tame_bind; [by apply tame_emit|]. intros _.
    apply tame_bind; [by apply tame_interact|]. intros k.
    destruct (subprocess_run env k exe) as [| |rc out]; try done.
    destruct (rc =? 0)%Z; [|done].
    destruct out as [| |data]; try done.
    destruct (Official.cli_results py data) as [[r|]|]; try done. apply tame_ret.
Qed.

Lemma tame_measure_speed : tame is_measure_event (Official.measure_speed py env).
Proof.
  unfold Official.measure_speed. apply tame_try_except.
  - unfold Official.measure_speed_python.
    destruct (speedtest_installed env); [apply tame_retry_loop | apply tame_raise].
  - intros _ _. apply tame_cli_loop.
Qed.

Lemma tame_try_submit_with_mapping m h results ts :
  tame is_post_event (Official.try_submit_with_mapping py env id m h results ts).
Proof.
  unfold Official.try_submit_with_mapping.
  apply tame_bind; [apply tame_lift|]. intros payload.
  apply tame_bind.
  - unfold requests_post_call.
    apply tame_bind; [intros w; cbn; split_and!; [done | lia |];
                      exists []; by rewrite app_nil_r|]. intros k.
    apply tame_bind; [by apply tame_emit|]. intros _.
    apply tame_bind; [by apply tame_interact|]. intros _. apply tame_ret.
  - intros [c text|cls msg]; [apply tame_ret | apply tame_raise].
Qed.

Lemma tame_hidden_loop m hiddens results ts ls :
  tame is_post_event (Official.hidden_loop py env id m hiddens results ts ls).
Proof.
  revert ls. induction hiddens as [|h rest IH]; intros ls; cbn [Official.hidden_loop].
  - apply tame_ret.
  - apply tame_bind; [apply tame_try_submit_with_mapping|].
    intros [[[] code] preview]; [apply tame_ret | apply IH].
Qed.

Lemma tame_submit_official results ts :
  tame is_post_event (Official.submit_official py env id results ts).
Proof.
  unfold Official.submit_official.
  generalize (false, @None Z, ""%string). generalize Official.TEXT_MAPPING_TRIES.
  intros mappings. induction mappings as [|m rest IH]; intros ls;
    cbn [Official.mapping_loop].
  - apply tame_ret.
  - apply tame_bind; [apply tame_hidden_loop|].
    intros [res|ls']; [apply tame_ret | apply IH].
Qed.
End OfficialFrame.

(** * Facts on one run *)

Section RunFacts.
Context (py : PyLib) (env : Env) (id : SiteIdentity).

Lemma run_once_cases label w :
  let w1 := (emit (EvRun label) w).2 in
  let m := Official.measure_speed py env w1 in
  let rw := Official.run_once py env id label w in
  ∃ ev_measure ev_submit,
    Forall is_measure_event ev_measure ∧ Forall is_post_event ev_submit
    ∧ let ev_header := match log_file w with Some _ => [] | None => [EvHeader] end in
      match m.1 with
      | Raise e =>
          rw = (Raise e, m.2)
          ∧ events_of rw.2 = events_of w ++ EvRun label :: ev_measure
          ∧ log_file rw.2 = log_file w
      | Ok results =>
          let ts := strftime py (clock m.2) in
          let s := Official.submit_official py env id results ts
                     (Official.ensure_log_header m.2).2 in
          match s.1 with
          | Raise e =>
              rw = (Raise e, s.2)
              ∧ events_of rw.2
                = events_of w ++ EvRun label :: ev_measure ++ ev_header ++ ev_submit
              ∧ log_file rw.2 = Some (default [Official.LOG_HEADER] (log_file w))
          | Ok (ok, code, preview, used_mapping, used_hidden) =>
              let row := Official.log_row py id ts results label ok code
                           used_mapping used_hidden in
              rw.1 = Ok ()
              ∧ events_of rw.2
                = events_of w ++ EvRun label :: ev_measure ++ ev_header ++ ev_submit
                  ++ [EvAppend row]
              ∧ log_file rw.2
                = Some (default [Official.LOG_HEADER] (log_file w) ++ [row])
              ∧ clock rw.2 = clock s.2
          end
      end.
Proof.
  cbn zeta. unfold Official.run_once, bind.
  cbn -[Official.measure_speed Official.submit_official Official.log_row
        Official.ensure_log_header].
  set (w1 := {| clock := clock w; ticks := ticks w; log_file := log_file w;
                trace := trace w ++ [(clock w, EvRun label)] |}).
  destruct (tame_measure_speed py env w1) as (Hlm & _ & tevm & Htrm & Hfm).
  destruct (Official.measure_speed py env w1) as [[results|e] wm]; cbn [fst snd] in *.
  - assert (Hhdr : ∃ w2, Official.ensure_log_header wm = (Ok (), w2)
        ∧ log_file w2 = Some (default [Official.LOG_HEADER] (log_file w))
        ∧ clock w2 = clock wm
        ∧ events_of w2 = events_of wm
            ++ match log_file w with Some _ => [] | None => [EvHeader] end).
    { unfold Official.ensure_log_header. rewrite Hlm. cbn.
      destruct (log_file w) as [rows|]; eexists; (split; [reflexivity|]); cbn.
      - rewrite Hlm. cbn. by rewrite app_nil_r.
      - split_and!; [done | done |]. unfold events_of. cbn. by rewrite fmap_app. }
    destruct Hhdr as (w2 & -> & Hl2 & Hc2 & Hev2). cbn [fst snd].
    destruct (tame_submit_official py env id results (strftime py (clock wm)) w2)
      as (Hls & _ & tevs & Htrs & Hfs).
    assert (Hevm : events_of wm = events_of w ++ EvRun label :: tevm.*2).
    { unfold events_of. rewrite Htrm. cbn. by rewrite !fmap_app, <- app_assoc. }
    exists (tevm.*2), (tevs.*2).
    split; [by apply Forall_fmap|]. split; [by apply Forall_fmap|].
    destruct (Official.submit_official py env id results (strftime py (clock wm)) w2)
      as [[[[[[ok code] preview] um] uh]|e] ws]; cbn [fst snd] in *.
    + split_and!; [done | | | done].
      * unfold events_of at 1. cbn. rewrite Htrs, !fmap_app. cbn.
        fold (events_of w2). rewrite Hev2, Hevm. cbn.
        by rewrite <- !app_assoc.
      * cbn. by rewrite Hls, Hl2.
    + split_and!; [done | | by rewrite Hls, Hl2].
      unfold events_of at 1. rewrite Htrs, fmap_app.
      fold (events_of w2). rewrite Hev2, Hevm. cbn.
      by rewrite <- !app_assoc.
  - exists (tevm.*2), []. split; [by apply Forall_fmap|]. split; [constructor|].
    split_and!; [done | | done].
    unfold events_of. rewrite Htrm. cbn. by rewrite !fmap_app, <- app_assoc.
Qed.
End RunFacts.

(** What one run adds to the trace: its own [EvRun], stamped with the
    clock at which it was entered, and then no other [EvRun]. *)
Section RunTrace.
Context (py : PyLib) (env : Env) (id : SiteIdentity).

Lemma tame_orderly {A} (P : event → Prop) (c : M A) : tame P c → orderly P c.
Proof. intros Hc w. destruct (Hc w) as (_ & Ht & Htr). by split. Qed.

Lemma orderly_bind {A B} (P : event → Prop) (c : M A) (k : A → M B) :
  orderly P c → (∀ a, orderly P (k a)) → orderly P (bind c k).
Proof.
  intros Hc Hk w. unfold bind. destruct (Hc w) as (Ht & tevs & Htr & Hf).
  destruct (c w) as [[a|e] w1]; cbn in *.
  - destruct (Hk a w1) as (Ht' & tevs' & Htr' & Hf').
    split; [lia|].
    exists (tevs ++ tevs'). rewrite Htr', Htr, <- app_assoc. split; [done|].
    by apply Forall_app.
  - split; [done|]. by exists tevs.
Qed.

Lemma orderly_after_measurement label results :
  orderly not_a_run
    (now <- datetime_now ;;
     let ts := strftime py now in
     Official.ensure_log_header ;;
     let* (ok, code, preview, used_mapping, used_hidden) :=
       Official.submit_official py env id results ts in
     Official.append_log
       (Official.log_row py id ts results label ok code used_mapping used_hidden))%py.
Proof.
  apply orderly_bind.
  { apply tame_orderly, tame_datetime_now. }
  intros now. apply orderly_bind.
  { intros w. unfold Official.ensure_log_header.
    destruct (log_file w); cbn; (split; [lia|]).
    - exists []. by rewrite app_nil_r.
    - eexists. split; [done|]. constructor; [|done]. cbn. by intros []. }
  intros _. apply orderly_bind.
  { apply tame_orderly. eapply tame_weaken; [|apply tame_submit_official].
    intros [] Hev; cbn in *; try done. by intros []. }
  intros [[[[ok code] preview] um] uh] w. cbn. split; [lia|].
  eexists. split; [done|]. constructor; [|done]. cbn. by intros [].
Qed.

Lemma run_once_trace label w :
  let rw := Official.run_once py env id label w in
  clock w ≤ clock rw.2
  ∧ ∃ tevs, trace rw.2 = trace w ++ (clock w, EvRun label) :: tevs
            ∧ Forall (λ te, not_a_run te.2) tevs.
Proof.
  cbn zeta.
  assert (Hrest : orderly not_a_run
            (results <- Official.measure_speed py env ;;
             now <- datetime_now ;;
             let ts := strftime py now in
             Official.ensure_log_header ;;
             let* (ok, code, preview, used_mapping, used_hidden) :=
               Official.submit_official py env id results ts in
             Official.append_log
               (Official.log_row py id ts results label ok code used_mapping used_hidden))%py).
  { apply orderly_bind; [|intros results; apply orderly_after_measurement].
    apply tame_orderly. eapply tame_weaken; [|apply tame_measure_speed].
    intros [] Hev; cbn in *; try done; by intros []. }
  destruct (Hrest (emit (EvRun label) w).2) as (Ht & tevs & Htr & Hf).
  split; [exact Ht|]. exists tevs. split; [|done].
  unfold Official.run_once. unfold bind at 1. cbn [emit fst snd] in Htr |- *.
  rewrite Htr. cbn. by rewrite <- app_assoc.
Qed.

Lemma firings_app w tevs w' :
  trace w' = trace w ++ tevs → firings w' = firings w ++ omap firing_of tevs.
Proof. intros Htr. unfold firings. by rewrite Htr, omap_app. Qed.

Lemma no_firing_of_others tevs :
  Forall (λ te, not_a_run te.2) tevs → omap firing_of tevs = [].
Proof.
  induction 1 as [|[t ev] tevs Hx _ IH]; [done|].
  cbn. unfold firing_of at 1. cbn. destruct ev; try done. by destruct Hx.
Qed.

Lemma run_once_firings label w :
  firings (Official.run_once py env id label w).2
  = firings w ++ [(clock w `div` DAY, label)].
Proof.
  destruct (run_once_trace label w) as (_ & tevs & Htr & Hf).
  rewrite (firings_app _ _ _ Htr). cbn. unfold firing_of at 1. cbn.
  by rewrite no_firing_of_others.
Qed.
End RunTrace.

(** * Facts on the scheduler *)

Section SchedulerFacts.
Context (py : PyLib) (env : Env) (id : SiteIdentity).

Lemma catch_up_skip label h m rest now last_run ran_any w :
  is_due last_run now (clock w `div` DAY) (label, h, m) = false →
  Official.catch_up py env id ((label, h, m) :: rest) now last_run ran_any w
  = Official.catch_up py env id rest now last_run ran_any w.
Proof.
  unfold is_due. intros Hdue. cbn [Official.catch_up]. unfold bind, date_today.
  by rewrite Hdue.
Qed.

Lemma catch_up_fire label h m rest now last_run ran_any w :
  is_due last_run now (clock w `div` DAY) (label, h, m) = true →
  Official.catch_up py env id ((label, h, m) :: rest) now last_run ran_any w
  = match Official.run_once py env id label w with
    | (Ok _, w') =>
        Official.catch_up py env id rest now
          (<[label := clock w' `div` DAY]> last_run) true w'
    | (Raise e, w') => (Raise e, w')
    end.
Proof.
  unfold is_due. intros Hdue. cbn [Official.catch_up]. unfold bind, date_today.
  rewrite Hdue. by destruct (Official.run_once py env id label w) as [[[]|e] w'].
Qed.


Lemma collect_upcoming_pure slots last_run w :
  Official.collect_upcoming slots last_run w
  = (Ok (upcoming_at slots last_run (clock w)), w).
Proof.
  induction slots as [|[[label h] m] rest IH]; [done|].
  cbn [Official.collect_upcoming]. unfold bind, date_today, datetime_now, Official.next_dt_for.
  unfold bind, datetime_now, ret.
  destruct (bool_decide (last_run !! label = Some (clock w `div` DAY))) eqn:Hran;
    rewrite IH; cbn; rewrite Hran; done.
Qed.

(** The chunked sleep always comes back, and does nothing but sleep. *)
Lemma sleep_chunks_spec fuel next_time wait_seconds w :
  ∃ w',
    Official.sleep_chunks env fuel next_time wait_seconds w = (Ok (), w')
    ∧ log_file w' = log_file w
    ∧ clock w ≤ clock w'
    ∧ ∃ tevs, trace w' = trace w ++ tevs ∧ Forall (λ te, is_sleep_event te.2) tevs.
Proof.
  revert wait_seconds w. induction fuel as [|fuel IH]; intros wait_seconds w;
    cbn [Official.sleep_chunks].
  - exists w. destruct (0 <? wait_seconds);
      (split_and!; [done | done | lia |]); exists []; by rewrite app_nil_r.
  - destruct (Z.ltb_spec 0 wait_seconds) as [Hpos|Hle].
    + unfold bind, time_sleep, datetime_now.
      destruct (Z.ltb_spec (wait_seconds `min` 300) 0) as [Hneg|_]; [lia|].
      cbn -[Z.min Official.sleep_chunks].
      match goal with |- context [Official.sleep_chunks env fuel next_time ?ws ?w1] =>
        destruct (IH ws w1) as (w' & -> & Hl & Hc & tevs & Htr & Hf) end.
      cbn in Hl, Hc, Htr. exists w'. split_and!; [done | done | unfold MICRO in *; lia |].
      eexists. rewrite Htr, <- app_assoc. split; [done|].
      constructor; [done|]. exact Hf.
    + exists w. split_and!; [done | done | lia |]. exists []. by rewrite app_nil_r.
Qed.

(** The bound on the rounds of the chunked sleep is never what ends it:
    when it comes back the instant has been reached to within a second. *)
Lemma sleep_chunks_reaches_instant fuel next_time wait_seconds w :
  wait_seconds ≤ Z.of_nat fuel →
  int_total_seconds (next_time - clock w) ≤ wait_seconds →
  int_total_seconds
    (next_time - clock (Official.sleep_chunks env fuel next_time wait_seconds w).2) ≤ 0.
Proof.
  unfold int_total_seconds.
  revert wait_seconds w. induction fuel as [|fuel IH]; intros wait_seconds w Hfuel Hwait;
    cbn [Official.sleep_chunks].
  - destruct (Z.ltb_spec 0 wait_seconds); cbn; lia.
  - destruct (Z.ltb_spec 0 wait_seconds) as [Hpos|Hle]; [|cbn; lia].
    unfold bind, time_sleep, datetime_now.
    destruct (Z.ltb_spec (wait_seconds `min` 300) 0) as [Hneg|_]; [lia|].
    cbn -[Z.min Official.sleep_chunks].
    apply IH; [|done]. unfold int_total_seconds.
    set (c1 := clock w + wait_seconds `min` 300 * MICRO + Z.of_N (elapsed env (ticks w))).
    assert (Hc1 : clock w + MICRO ≤ c1) by (unfold c1, MICRO; lia).
    destruct (Z.lt_ge_cases (next_time - c1) 0) as [Hneg|Hnn].
    + assert ((next_time - c1) `quot` MICRO ≤ 0); [|lia].
      rewrite <- (Z.quot_0_l MICRO) by done.
      apply Z.quot_le_mono; unfold MICRO; lia.
    + assert (0 ≤ next_time - clock w) by (unfold MICRO in *; lia).
      rewrite Z.quot_div_nonneg in Hwait by (unfold MICRO; lia).
      rewrite Z.quot_div_nonneg by (unfold MICRO; lia).
      assert ((next_time - c1) `div` MICRO ≤ (next_time - clock w - MICRO) `div` MICRO)
        by (apply Z.div_le_mono; unfold MICRO in *; lia).
      assert ((next_time - clock w - MICRO) `div` MICRO = (next_time - clock w) `div` MICRO - 1).
      { replace (next_time - clock w - MICRO) with (next_time - clock w + (-1) * MICRO) by lia.
        rewrite Z.div_add by done. lia. }
      lia.
Qed.

Lemma min_by_time_cons x upcoming : is_Some (Official.min_by_time (x :: upcoming)).
Proof.
  cbn. destruct (Official.min_by_time upcoming) as [y|]; [|done].
  by destruct (y.1 <? x.1)%Z.
Qed.

Lemma min_by_time_upcoming last_run now :
  is_Some (Official.min_by_time (upcoming_at Official.SCHEDULES last_run now)).
Proof.
  unfold upcoming_at, Official.SCHEDULES. rewrite fmap_cons. apply min_by_time_cons.
Qed.



Lemma appended_app w evs w' :
  events_of w' = events_of w ++ evs →
  appended w' = appended w
    ++ omap (λ ev, match ev with EvAppend row => Some row | _ => None end) evs.
Proof. intros Hev. unfold appended. by rewrite Hev, omap_app. Qed.

Lemma no_row_of_measure evs :
  Forall is_measure_event evs →
  omap (λ ev, match ev with EvAppend row => Some row | _ => None end) evs = [].
Proof. induction 1 as [|[] evs Hx _ IH]; done. Qed.

Lemma no_row_of_post evs :
  Forall is_post_event evs →
  omap (λ ev, match ev with EvAppend row => Some row | _ => None end) evs = [].
Proof. induction 1 as [|[] evs Hx _ IH]; done. Qed.


Lemma combine_next_day D h m : combine D h m + DAY = combine (D + 1) h m.
Proof. unfold combine. lia. Qed.

Lemma day_bounds c D : c `div` DAY = D ↔ D * DAY ≤ c < (D + 1) * DAY.
Proof.
  assert (0 < DAY) by done. split.
  - intros <-. pose proof (Z.div_mod c DAY ltac:(lia)).
    pose proof (Z.mod_pos_bound c DAY ltac:(lia)). lia.
  - intros Hb. symmetry. apply (Z.div_unique_pos c DAY D (c - D * DAY)); lia.
Qed.

Lemma is_due_early last_run now today label h m :
  now < combine today h m → is_due last_run now today (label, h, m) = false.
Proof. intros Hlt. unfold is_due. by destruct (Z.leb_spec (combine today h m) now); [lia|]. Qed.

Lemma is_due_done last_run now today label h m :
  last_run !! label = Some today → is_due last_run now today (label, h, m) = false.
Proof.
  intros Hrun. unfold is_due. rewrite bool_decide_eq_true_2 by done.
  by rewrite andb_false_r.
Qed.

Lemma is_due_overdue last_run now today label h m :
  combine today h m ≤ now → last_run !! label ≠ Some today →
  is_due last_run now today (label, h, m) = true.
Proof.
  intros Hle Hrun. unfold is_due. rewrite bool_decide_eq_false_2 by done.
  by destruct (Z.leb_spec (combine today h m) now); [|lia].
Qed.

(** C3 (amended).  [run_once] measures first.  When the measurement raises,
    the run raises the same error and has done nothing else: no row is
    appended and the log file is as it was.  When the measurement returns,
    the run creates the log file with its header if there is none, then
    submits; and when the submission returns, the run appends exactly one
    row, last of all, which carries the measurement and the outcome. *)
Theorem run_once_order label w :
  let w1 := (emit (EvRun label) w).2 in
  let m := Official.measure_speed py env w1 in
  let rw := Official.run_once py env id label w in
  ∃ ev_measure ev_submit,
    Forall is_measure_event ev_measure ∧ Forall is_post_event ev_submit
    ∧ (∀ e, m.1 = Raise e →
         rw = (Raise e, m.2)
         ∧ events_of rw.2 = events_of w ++ EvRun label :: ev_measure
         ∧ log_file rw.2 = log_file w
         ∧ appended rw.2 = appended w)
    ∧ (∀ results ok code preview used_mapping used_hidden,
         m.1 = Ok results →
         let ts := strftime py (clock m.2) in
         (Official.submit_official py env id results ts (Official.ensure_log_header m.2).2).1
         = Ok (ok, code, preview, used_mapping, used_hidden) →
         let ev_header := match log_file w with Some _ => [] | None => [EvHeader] end in
         let row := Official.log_row py id ts results label ok code used_mapping used_hidden in
         rw.1 = Ok ()
         ∧ events_of rw.2
           = events_of w ++ EvRun label :: ev_measure ++ ev_header ++ ev_submit
             ++ [EvAppend row]
         ∧ log_file rw.2 = Some (default [Official.LOG_HEADER] (log_file w) ++ [row])
         ∧ appended rw.2 = appended w ++ [row]).
Proof.
  cbn zeta. destruct (run_once_cases py env id label w) as (evm & evs & Hfm & Hfs & H).
  cbn zeta in H. exists evm, evs. split_and!; [done | done | |].
  - intros e He. rewrite He in H. destruct H as (Hrw & Hev & Hlog).
    split_and!; [exact Hrw | exact Hev | exact Hlog |].
    rewrite (appended_app _ _ _ Hev). cbn. by rewrite no_row_of_measure, app_nil_r.
  - intros results ok code preview um uh Hm Hs. rewrite Hm in H. rewrite Hs in H.
    destruct H as (Hrw & Hev & Hlog & _).
    split_and!; [exact Hrw | exact Hev | exact Hlog |].
    rewrite (appended_app _ _ _ Hev). cbn.
    rewrite !omap_app, (no_row_of_measure evm), (no_row_of_post evs) by done.
    by destruct (log_file w).
Qed.

End SchedulerFacts.

(** * The properties in concrete situations *)

(** C6.  The host is suspended from the early afternoon of 2024-10-04
    until 00:35 of 2024-10-05: the run of 13:30 that was missed takes place
    at 00:35:30 and is booked under 2024-10-05; the run of 07:00 follows in
    the morning, and at 13:30 of the same 2024-10-05 the slot 13:30 fires a
    second time.  The log holds two rows of that day for the label
    13:30. *)
Theorem slot_fires_twice_on_one_day :
  let rw := Official.loop_scheduler plain_py suspended_over_midnight_env (prefilled "PC")
              4 started_at_noon in
  is_ok rw.1 = true
  ∧ firings rw.2
    = [ (day1, "07:00"%string); (day2, "13:30"%string);
        (day2, "07:00"%string); (day2, "13:30"%string) ]
  ∧ logged_runs rw.2
    = [ (Some (CStr "2024-10-04 12:00:00"), Some (CStr "07:00"));
        (Some (CStr "2024-10-05 00:35:30"), Some (CStr "13:30"));
        (Some (CStr "2024-10-05 07:00:00"), Some (CStr "07:00"));
        (Some (CStr "2024-10-05 13:30:00"), Some (CStr "13:30")) ].
Proof. split_and!; vm_compute; reflexivity. Qed.

(** Against C3: without network the measurement fails after its fallback,
    the run raises, no row is appended (the log file is not even created),
    and the scheduler that fired this run is ended by the error. *)
Lemma failed_measurement_leaves_no_record :
  let rw := Official.run_once plain_py no_network_env (prefilled "PC") "07:00"
              (at_time day1 7 0 0) in
  is_ok rw.1 = false ∧ log_file rw.2 = None ∧ appended rw.2 = []
  ∧ is_ok (Official.loop_scheduler plain_py no_network_env (prefilled "PC") 1
             (at_time day1 7 0 0)).1 = false.
Proof. split_and!; vm_compute; reflexivity. Qed.


(** Against C7, twice.  The host sleeps from 06:05 to 14:05 and the
    network is not back when it wakes up: the run of 07:00 fails and ends
    the scheduler, and the slot 13:30, overdue too, is never fired.  Or
    the host wakes up at 23:59:50 and the run of 07:00 ends after
    midnight: the scheduler lives on, but the slot 13:30 of the day slept
    through is never fired; the next firing is that of 07:00 on the
    following morning. *)
Lemma overdue_slot_lost :
  (let rw := Official.loop_scheduler plain_py resume_without_network_env (prefilled "PC") 3
               started_at_six in
   is_ok rw.1 = false ∧ firings rw.2 = [(day1, "07:00"%string)])
  ∧ (let rw := Official.loop_scheduler plain_py late_resume_env (prefilled "PC") 2
                 started_at_six in
     is_ok rw.1 = true
     ∧ firings rw.2 = [(day1, "07:00"%string); (day2, "07:00"%string)]
     ∧ logged_runs rw.2
       = [ (Some (CStr "2024-10-05 00:00:10"), Some (CStr "07:00"));
           (Some (CStr "2024-10-05 07:00:00"), Some (CStr "07:00")) ]).
Proof. lazy zeta. split_and!; vm_compute; reflexivity. Qed.

(** * Further properties *)

(** X1. An identity outside the enumerations is refused before any POST:
    [submit_official] raises [ValueError] and the world is untouched, so
    nothing was sent and nothing was logged. *)
Theorem validation_precedes_network py env id results ts w :
  valid_identity id = false →
  ∃ msg, Official.submit_official py env id results ts w
         = (Raise (Exception "ValueError" msg), w).
Proof.
  unfold valid_identity. intros Hbad.
  assert (Hbase : ∃ msg, Official.build_payload_base py id results ts
                         = Raise (Exception "ValueError" msg)).
  { unfold Official.build_payload_base.
    destruct (list_in (SCHOOL_SECTOR id) Official.ALLOWED_SECTORS); [|by eexists].
    destruct (list_in (SERVICE_PROVIDER id) Official.ALLOWED_PROVIDERS); [|by eexists].
    destruct (list_in (SERVICE_TYPE id) Official.ALLOWED_SERVICE_TYPES); [done|by eexists]. }
  destruct Hbase as [msg Hbase]. exists msg.
  unfold Official.submit_official, Official.TEXT_MAPPING_TRIES, Official.HIDDEN_CANDIDATES.
  cbn [Official.mapping_loop Official.hidden_loop]. unfold bind at 1. unfold bind at 1.
  unfold Official.try_submit_with_mapping, bind at 1, lift, Official.payload_of.
  by rewrite Hbase.
Qed.

(** X2. The chunked sleep towards [next_time], started with the wait the
    scheduler computes, comes back; every nap lasts between one second and
    five minutes; and on its return less than a second is left to the
    instant. *)
Theorem chunked_sleep_reaches_instant env next_time w :
  let wait_seconds := Z.max 5 (int_total_seconds (next_time - clock w)) in
  let rw := Official.sleep_chunks env (Z.to_nat wait_seconds) next_time wait_seconds w in
  rw.1 = Ok ()
  ∧ (∃ tevs, trace rw.2 = trace w ++ tevs ∧ Forall (λ te, is_nap te.2) tevs)
  ∧ int_total_seconds (next_time - clock rw.2) ≤ 0.
Proof.
  cbn zeta. set (wait_seconds := Z.max 5 _). split_and!.
  - by destruct (sleep_chunks_spec env (Z.to_nat wait_seconds) next_time wait_seconds w)
      as (w' & -> & _).
  - generalize (Z.to_nat wait_seconds). generalize wait_seconds. clear wait_seconds.
    intros wait_seconds fuel. revert wait_seconds w.
    induction fuel as [|fuel IH]; intros wait_seconds w; cbn [Official.sleep_chunks].
    + destruct (0 <? wait_seconds); exists []; by rewrite app_nil_r.
    + destruct (Z.ltb_spec 0 wait_seconds) as [Hpos|Hle];
        [|exists []; by rewrite app_nil_r].
      unfold bind, time_sleep, datetime_now.
      destruct (Z.ltb_spec (wait_seconds `min` 300) 0) as [Hneg|_]; [lia|].
      cbn -[Z.min Official.sleep_chunks].
      match goal with |- context [Official.sleep_chunks env fuel next_time ?ws ?w1] =>
        destruct (IH ws w1) as (tevs & Htr & Hf) end.
      cbn in Htr. eexists. rewrite Htr, <- app_assoc. split; [done|].
      constructor; [cbn; lia|exact Hf].
  - apply sleep_chunks_reaches_instant; lia.
Qed.

(** * The hypotheses of the properties are met *)

(** C8 when the first attempt is refused with a 403 and the second goes
    through: one pause of 20 seconds between them. *)
Lemma measure_speed_python_retries_witness :
  let w := at_time day1 7 0 0 in
  let rw := Official.measure_speed_python flaky_env 3 20 w in
  rw.1 = Ok (Official.probe_results good_probe)
  ∧ events_of rw.2
    = events_of w ++ [EvProbe 1; EvSleep (backoff_wait 20 1 "HTTP Error 403: Forbidden");
                      EvProbe 2].
Proof.
  exact (measure_speed_python_retries flaky_env 20 (at_time day1 7 0 0)
           ltac:(discriminate) eq_refl).
Defined.

(** C9 in the same situation: the result is that of the second attempt. *)
Lemma fallback_iff_primary_exhausted_witness :
  (Official.measure_speed plain_py flaky_env (at_time day1 7 0 0)).1
  = Ok (Official.probe_results good_probe).
Proof.
  destruct (fallback_iff_primary_exhausted plain_py flaky_env (at_time day1 7 0 0))
    as (evs & _ & _ & Hretry).
  exact (proj1 (Hretry _ _ _ eq_refl eq_refl eq_refl)).
Defined.


(** C3 when everything works: the run appends one row, with the status
    [SUCCESS] of the first combination. *)
Lemma run_once_order_witness :
  let w := at_time day1 7 0 0 in
  let m := Official.measure_speed plain_py calm_env (emit (EvRun "07:00") w).2 in
  appended (Official.run_once plain_py calm_env (prefilled "PC") "07:00" w).2
  = appended w
    ++ [Official.log_row plain_py (prefilled "PC") (strftime plain_py (clock m.2))
          some_results "07:00" true (Some 200) (Some first_mapping) (Some ∅)].
Proof.
  cbn zeta.
  destruct (run_once_order plain_py calm_env (prefilled "PC") "07:00" (at_time day1 7 0 0))
    as (evm & evs & _ & _ & _ & Hok).
  refine (proj2 (proj2 (proj2
            (Hok some_results true (Some 200) "ok"%string (Some first_mapping) (Some ∅) _ _)))).
  - vm_compute; reflexivity.
  - vm_compute; reflexivity.
Defined.

(** A misconfigured sector is refused before anything is sent. *)
Lemma validation_precedes_network_witness :
  ∃ msg, Official.submit_official plain_py calm_env misconfigured some_results
           "2024-10-04 07:00:30" (at_time day1 7 0 30)
         = (Raise (Exception "ValueError" msg), at_time day1 7 0 30).
Proof.
  exact (validation_precedes_network plain_py calm_env misconfigured some_results
           "2024-10-04 07:00:30" (at_time day1 7 0 30) eq_refl).
Defined.
(** * Further properties of the scripts *)

(** ** The next occurrence of a time of day *)

Section NextOccurrence.

Lemma slot_offset_bounds h m :
  0 ≤ h ≤ 23 → 0 ≤ m ≤ 59 → 0 ≤ (h * 3600 + m * 60) * MICRO < DAY.
Proof. unfold DAY, MICRO. lia. Qed.

Lemma next_dt_for_value h m w :
  Official.next_dt_for h m (clock w `div` DAY) w
  = (Ok (if combine (clock w `div` DAY) h m <=? clock w
         then combine (clock w `div` DAY) h m + DAY
         else combine (clock w `div` DAY) h m), w).
Proof. done. Qed.

(** X3. [next_dt_for], called with today's date as the scheduler calls
    it, returns the one occurrence of [hour:minute] that lies after the
    present instant and at most a day after it. *)
Theorem next_dt_for_next_occurrence h m w :
  0 ≤ h ≤ 23 → 0 ≤ m ≤ 59 →
  ∃ t D,
    Official.next_dt_for h m (clock w `div` DAY) w = (Ok t, w)
    ∧ t = combine D h m
    ∧ clock w < t ≤ clock w + DAY
    ∧ ∀ D', clock w < combine D' h m ≤ clock w + DAY → D' = D.
Proof.
  intros Hh Hm. rewrite next_dt_for_value.
  pose proof (slot_offset_bounds h m Hh Hm) as Hoff.
  pose proof (proj1 (day_bounds (clock w) _) eq_refl) as Hday.
  set (D0 := clock w `div` DAY) in *.
  destruct (Z.leb_spec (combine D0 h m) (clock w)) as [Hle|Hlt].
  - exists (combine D0 h m + DAY), (D0 + 1).
    rewrite combine_next_day. split_and!; [done | done | | |].
    + unfold combine in *. lia.
    + unfold combine in *. lia.
    + intros D'. unfold combine in *. unfold DAY, MICRO in *. lia.
  - exists (combine D0 h m), D0. split_and!; [done | done | | |].
    + lia.
    + unfold combine in *. lia.
    + intros D'. unfold combine in *. unfold DAY, MICRO in *. lia.
Qed.

(** X4. The instant that the scheduler computes for a slot when it plans
    its sleep is [next_dt_for(h, m, today)] whether or not the slot is
    recorded as run today: the list of upcoming instants does not depend
    on [last_run]. *)
Theorem upcoming_ignores_last_run slots last_run w :
  Official.collect_upcoming slots last_run w = Official.collect_upcoming slots ∅ w
  ∧ ∃ upcoming,
      Official.collect_upcoming slots last_run w = (Ok upcoming, w)
      ∧ Forall2 (λ (slot : string * Z * Z) (x : Z * string),
                   x.2 = slot.1.1
                   ∧ Official.next_dt_for slot.1.2 slot.2 (clock w `div` DAY) w = (Ok x.1, w))
                slots upcoming.
Proof.
  assert (Hup : ∀ lr, Forall2 (λ (slot : string * Z * Z) (x : Z * string),
                   x.2 = slot.1.1
                   ∧ Official.next_dt_for slot.1.2 slot.2 (clock w `div` DAY) w = (Ok x.1, w))
                slots (upcoming_at slots lr (clock w))).
  { intros lr. unfold upcoming_at. apply Forall2_fmap_r, Forall_Forall2_diag, Forall_forall.
    intros [[label h] m] _. cbn [fst snd]. split; [done|].
    rewrite next_dt_for_value. do 2 f_equal.
    destruct (bool_decide (lr !! label = Some (clock w `div` DAY))); [done|].
    destruct (Z.leb_spec (combine (clock w `div` DAY) h m) (clock w)),
             (Z.ltb_spec (clock w) (combine (clock w `div` DAY) h m)); done || lia. }
  split.
  - rewrite !collect_upcoming_pure. do 2 f_equal.
    unfold upcoming_at. apply list_fmap_ext. intros _ [[label h] m] _.
    rewrite lookup_empty.
    destruct (bool_decide (last_run !! label = Some (clock w `div` DAY)));
      rewrite bool_decide_eq_false_2 by done; [|done].
    f_equal.
    destruct (Z.leb_spec (combine (clock w `div` DAY) h m) (clock w)),
             (Z.ltb_spec (clock w) (combine (clock w `div` DAY) h m)); done || lia.
  - exists (upcoming_at slots last_run (clock w)).
    split; [apply collect_upcoming_pure | apply Hup].
Qed.

End NextOccurrence.

Lemma next_dt_for_next_occurrence_witness :
  ∃ t D,
    Official.next_dt_for 13 30 (clock (at_time day1 14 0 0) `div` DAY) (at_time day1 14 0 0)
    = (Ok t, at_time day1 14 0 0)
    ∧ t = combine D 13 30
    ∧ clock (at_time day1 14 0 0) < t ≤ clock (at_time day1 14 0 0) + DAY
    ∧ ∀ D', clock (at_time day1 14 0 0) < combine D' 13 30
             ≤ clock (at_time day1 14 0 0) + DAY → D' = D.
Proof. apply (next_dt_for_next_occurrence 13 30 (at_time day1 14 0 0)); lia. Defined.

(** ** The command-line fallback *)

Section CliFacts.
Context (py : PyLib) (env : Env).

Lemma cli_loop_step exe rest w :
  let w1 := {| clock := clock w + 0 + Z.of_N (elapsed env (ticks w));
               ticks := S (ticks w); log_file := log_file w;
               trace := trace w ++ [(clock w, EvCli exe)] |} in
  Official.cli_loop py env (exe :: rest) w
  = match usable py (subprocess_run env (ticks w) exe) with
    | Some results => (Ok results, w1)
    | None => Official.cli_loop py env rest w1
    end.
Proof.
  cbn zeta. cbn [Official.cli_loop]. unfold bind, emit, interact.
  cbn [fst snd ticks clock log_file trace].
  unfold usable.
  destruct (subprocess_run env (ticks w) exe) as [| |rc out]; try done.
  destruct out as [| |data], (rc =? 0); try done.
  by destruct (Official.cli_results py data) as [[results|]|].
Qed.

(** X6. [measure_speed_cli] runs [speedtest] and, only if that run is of
    no use (not found, a time-out, a non-zero exit, no or unreadable
    output, a document of neither schema), [speedtest.exe]; it returns
    the results of the first run of use, and when neither is it raises
    [RuntimeError] and nothing else. *)
Theorem measure_speed_cli_first_usable w :
  let rw := Official.measure_speed_cli py env w in
  match usable py (subprocess_run env (ticks w) "speedtest") with
  | Some results =>
      rw.1 = Ok results ∧ events_of rw.2 = events_of w ++ [EvCli "speedtest"]
  | None =>
      events_of rw.2 = events_of w ++ [EvCli "speedtest"; EvCli "speedtest.exe"]
      ∧ match usable py (subprocess_run env (S (ticks w)) "speedtest.exe") with
        | Some results => rw.1 = Ok results
        | None => ∃ msg, rw.1 = Raise (Exception "RuntimeError" msg)
        end
  end.
Proof.
  cbn zeta. unfold Official.measure_speed_cli. rewrite cli_loop_step.
  destruct (usable py (subprocess_run env (ticks w) "speedtest")) as [results|].
  - split; [done|]. unfold events_of. cbn. by rewrite fmap_app.
  - rewrite cli_loop_step. cbn [ticks].
    destruct (usable py (subprocess_run env (S (ticks w)) "speedtest.exe")) as [results|].
    + split; [|done]. unfold events_of. cbn. by rewrite !fmap_app, <- app_assoc.
    + split; [|by eexists]. unfold events_of. cbn. by rewrite !fmap_app, <- app_assoc.
Qed.

End CliFacts.

(** ** A missing [speedtest] module *)

Section MissingModule.
Context (py : PyLib) (env : Env) (id : SiteIdentity).
Hypothesis Hmissing : speedtest_installed env = false.

Lemma measure_speed_missing w :
  Official.measure_speed py env w = (Raise MISSING_MODULE, w).
Proof.
  unfold Official.measure_speed, try_except, Official.measure_speed_python.
  by rewrite Hmissing.
Qed.

Lemma run_once_missing label w :
  Official.run_once py env id label w = (Raise MISSING_MODULE, (emit (EvRun label) w).2).
Proof.
  unfold Official.run_once. unfold bind at 1. cbn [emit fst snd].
  unfold bind at 1. by rewrite measure_speed_missing.
Qed.

Lemma catch_up_missing slots now last_run ran_any w :
  let rw := Official.catch_up py env id slots now last_run ran_any w in
  rw.1 = Raise MISSING_MODULE ∨ rw = (Ok (last_run, ran_any), w).
Proof.
  cbn zeta. induction slots as [|[[label h] m] rest IH]; [by right|].
  destruct (is_due last_run now (clock w `div` DAY) (label, h, m)) eqn:Hdue.
  - rewrite catch_up_fire by done. rewrite run_once_missing. by left.
  - by rewrite catch_up_skip.
Qed.

Lemma loop_iteration_missing last_run w :
  (Official.loop_iteration py env id last_run w).1 = Raise MISSING_MODULE.
Proof.
  unfold Official.loop_iteration, bind, datetime_now.
  destruct (catch_up_missing Official.SCHEDULES (clock w) last_run false w) as [H| ->].
  - destruct (Official.catch_up py env id Official.SCHEDULES (clock w) last_run false w)
      as [[[lr ra]|e] w1]; [done|]. cbn in H |- *. congruence.
  - rewrite collect_upcoming_pure.
    destruct (Official.min_by_time (upcoming_at Official.SCHEDULES last_run (clock w)))
      as [[next_time next_label]|] eqn:Hmin.
    2: { destruct (min_by_time_upcoming last_run (clock w)) as [? Hsome]. congruence. }
    match goal with |- context [Official.sleep_chunks env ?f ?n ?ws ?w0] =>
      destruct (sleep_chunks_spec env f n ws w0) as (w2 & -> & _) end.
    by rewrite run_once_missing.
Qed.

End MissingModule.

(** X7. Without the [speedtest] module nothing is measured at all:
    [measure_speed] ends with [SystemExit] and does not try the
    command-line fallback, a run ends with it before anything is logged or
    sent, and so does the first round of the scheduler. *)
Theorem missing_module_is_fatal py env id :
  speedtest_installed env = false →
  (∀ w, Official.measure_speed py env w = (Raise MISSING_MODULE, w))
  ∧ (∀ label w,
       let rw := Official.run_once py env id label w in
       rw.1 = Raise MISSING_MODULE
       ∧ events_of rw.2 = events_of w ++ [EvRun label]
       ∧ log_file rw.2 = log_file w)
  ∧ (∀ rounds last_run w,
       (Official.loop_from py env id (S rounds) last_run w).1 = Raise MISSING_MODULE).
Proof.
  intros Hmissing. split_and!.
  - by apply measure_speed_missing.
  - intros label w. cbn zeta. rewrite run_once_missing by done.
    split_and!; [done | | done]. unfold events_of. cbn. by rewrite fmap_app.
  - intros rounds last_run w. cbn [Official.loop_from]. unfold bind.
    pose proof (loop_iteration_missing py env id Hmissing last_run w) as H.
    by destruct (Official.loop_iteration py env id last_run w) as [[lr|e] w1]; cbn in H; subst.
Qed.

Lemma missing_module_is_fatal_witness :
  (Official.loop_from plain_py no_module_env (prefilled "PC") 1 ∅ (at_time day1 7 0 0)).1
  = Raise MISSING_MODULE.
Proof. apply (missing_module_is_fatal plain_py no_module_env (prefilled "PC") eq_refl). Defined.

(** ** The log file and the firings *)

Section Ledger.
Context (py : PyLib) (env : Env) (id : SiteIdentity).

Lemma grown_refl w : grown w w [] [].
Proof. unfold grown. rewrite !app_nil_r. split_and!; [done | done | by left]. Qed.

Lemma grown_trans w w1 w2 rows1 fired1 rows2 fired2 :
  grown w w1 rows1 fired1 → grown w1 w2 rows2 fired2 →
  grown w w2 (rows1 ++ rows2) (fired1 ++ fired2).
Proof.
  intros (Ha1 & Hf1 & Hl1) (Ha2 & Hf2 & Hl2). unfold grown.
  rewrite Ha2, Ha1, Hf2, Hf1, <- !app_assoc. split_and!; [done | done |].
  destruct Hl1 as [[Hl1 ->]|Hl1], Hl2 as [[Hl2 ->]|Hl2]; rewrite Hl2, Hl1; cbn.
  - by left.
  - by right.
  - right. by rewrite app_nil_r.
  - right. by rewrite <- app_assoc.
Qed.

Lemma no_row_of_quiet evs :
  Forall is_quiet evs →
  omap (λ ev, match ev with EvAppend row => Some row | _ => None end) evs = [].
Proof. induction 1 as [|[] evs Hx _ IH]; done. Qed.

Lemma grown_quiet w w' tevs :
  log_file w' = log_file w → trace w' = trace w ++ tevs →
  Forall (λ te, is_quiet te.2) tevs → grown w w' [] [].
Proof.
  intros Hl Htr Hq. unfold grown. rewrite !app_nil_r. split_and!; [| | by left].
  - unfold appended, events_of. rewrite Htr, fmap_app, omap_app.
    rewrite (no_row_of_quiet (tevs.*2)) by (by apply Forall_fmap). by rewrite app_nil_r.
  - rewrite (firings_app _ _ _ Htr), no_firing_of_others; [by rewrite app_nil_r|].
    eapply Forall_impl; [exact Hq|]. intros [t []]; cbn; try done; by intros _ [].
Qed.

Lemma grown_time_sleep seconds w : grown w (time_sleep env seconds w).2 [] [].
Proof.
  destruct (tame_time_sleep is_sleep_event env seconds I w) as (Hl & _ & tevs & Htr & Hf).
  apply (grown_quiet _ _ tevs); [done | done |].
  eapply Forall_impl; [exact Hf|]. by intros [t []].
Qed.

Lemma grown_sleep_chunks fuel next_time wait_seconds w :
  ∃ w', Official.sleep_chunks env fuel next_time wait_seconds w = (Ok (), w')
        ∧ grown w w' [] [].
Proof.
  destruct (sleep_chunks_spec env fuel next_time wait_seconds w)
    as (w' & Heq & Hl & _ & tevs & Htr & Hf).
  exists w'. split; [done|]. apply (grown_quiet _ _ tevs); [done | done |].
  eapply Forall_impl; [exact Hf|]. by intros [t []].
Qed.

Lemma accounted_app rows1 fired1 returned rows2 fired2 :
  accounted true rows1 fired1 → accounted returned rows2 fired2 →
  accounted returned (rows1 ++ rows2) (fired1 ++ fired2).
Proof.
  intros [Hw1 Hl1] [Hw2 Hl2]. split; [by apply Forall_app|].
  destruct returned.
  - by rewrite !fmap_app, Hl1, Hl2.
  - destruct Hl2 as (pre & f & -> & Hl2). exists (fired1 ++ pre), f.
    split; [by rewrite app_assoc|]. by rewrite !fmap_app, Hl1, Hl2.
Qed.

Lemma accounted_nil : accounted true [] [].
Proof. by split. Qed.

(** One run: one firing, and one row if and only if it returns. *)
Lemma run_once_ledger label w :
  let rw := Official.run_once py env id label w in
  let fired := [(clock w `div` DAY, label)] in
  ∃ rows, grown w rw.2 rows fired ∧ accounted (is_ok rw.1) rows fired
          ∧ length rows = if is_ok rw.1 then 1%nat else 0%nat.
Proof.
  cbn zeta. pose proof (run_once_firings py env id label w) as Hfired.
  destruct (run_once_cases py env id label w) as (evm & evs & Hfm & Hfs & H).
  cbn zeta in H.
  assert (Hhdr : omap (λ ev, match ev with EvAppend row => Some row | _ => None end)
                   (match log_file w with Some _ => [] | None => [EvHeader] end) = [])
    by (by destruct (log_file w)).
  destruct (Official.measure_speed py env (emit (EvRun label) w).2).1 as [results|e].
  - destruct (Official.submit_official py env id results _ _).1
      as [[[[[ok code] preview] um] uh]|e].
    + destruct H as (Hok & Hev & Hlog & _). rewrite Hok. cbn [is_ok].
      eexists [_]. split_and!; [split_and!; [|exact Hfired|right; exact Hlog] | |done].
      * rewrite (appended_app _ _ _ Hev). cbn.
        by rewrite !omap_app, no_row_of_measure, Hhdr, no_row_of_post.
      * split; [by repeat constructor|done].
    + destruct H as (Heq & Hev & Hlog). rewrite Heq in Hfired, Hev, Hlog |- *.
      cbn [fst snd is_ok] in *.
      exists []. split_and!; [split_and!; [|exact Hfired|right; by rewrite app_nil_r] | |done].
      * rewrite (appended_app _ _ _ Hev). cbn.
        by rewrite !omap_app, no_row_of_measure, Hhdr, no_row_of_post.
      * split; [done|]. by exists [], (clock w `div` DAY, label).
  - destruct H as (Heq & Hev & Hlog). rewrite Heq in Hfired, Hev, Hlog |- *.
      cbn [fst snd is_ok] in *.
    exists []. split_and!; [split_and!; [|exact Hfired|by left] | |done].
    + rewrite (appended_app _ _ _ Hev). cbn. by rewrite no_row_of_measure.
    + split; [done|]. by exists [], (clock w `div` DAY, label).
Qed.

Lemma sublist_skip_all {A} (l1 l2 : list A) : l1 `sublist_of` l2 → ∀ k, l1 `sublist_of` k ++ l2.
Proof. intros H k. induction k; [done|]. by apply sublist_cons. Qed.

(** The catch-up loop: each slot fires at most once, in the order of the
    list, and [ran_any] tells whether one has. *)
Lemma catch_up_ledger slots now last_run ran_any w :
  let rw := Official.catch_up py env id slots now last_run ran_any w in
  ∃ rows fired,
    grown w rw.2 rows fired ∧ accounted (is_ok rw.1) rows fired
    ∧ fired.*2 `sublist_of` slot_labels slots
    ∧ (length rows ≤ length fired)%nat
    ∧ ∀ last_run' ran_any', rw.1 = Ok (last_run', ran_any') →
        ran_any' = ran_any || bool_decide (fired ≠ []).
Proof.
  cbn zeta. revert last_run ran_any w.
  induction slots as [|[[label h] m] rest IH]; intros last_run ran_any w.
  - exists [], []. cbn. split_and!; [apply grown_refl | apply accounted_nil | done | done |].
    intros lr ra [= <- <-]. by rewrite orb_false_r.
  - destruct (is_due last_run now (clock w `div` DAY) (label, h, m)) eqn:Hdue.
    + rewrite catch_up_fire by done.
      destruct (run_once_ledger label w) as (rows1 & Hg1 & Ha1 & Hn1). cbn zeta in *.
      destruct (Official.run_once py env id label w) as [[[]|e] w1]; cbn [fst snd is_ok] in *.
      * destruct (IH (<[label := clock w1 `div` DAY]> last_run) true w1)
          as (rows2 & fired2 & Hg2 & Ha2 & Hs2 & Hn2 & Hr2).
        exists (rows1 ++ rows2), ([(clock w `div` DAY, label)] ++ fired2).
        split_and!; [by eapply grown_trans | by apply accounted_app | | |].
        -- cbn. by apply sublist_skip.
        -- rewrite !length_app, Hn1. cbn. lia.
        -- intros lr ra Heq. rewrite (Hr2 _ _ Heq). cbn. by rewrite orb_true_r.
      * exists rows1, [(clock w `div` DAY, label)].
        split_and!; [done | done | | rewrite Hn1; cbn; lia | done].
        cbn. apply sublist_skip, sublist_nil_l.
    + rewrite catch_up_skip by done.
      destruct (IH last_run ran_any w) as (rows2 & fired2 & Hg2 & Ha2 & Hs2 & Hn2 & Hr2).
      exists rows2, fired2. split_and!; [done | done | | done | done].
      cbn. by apply sublist_cons.
Qed.

Lemma min_by_time_elem upcoming x :
  Official.min_by_time upcoming = Some x → x ∈ upcoming.
Proof.
  revert x. induction upcoming as [|y rest IH]; intros x; [done|]. cbn.
  destruct (Official.min_by_time rest) as [z|].
  - destruct (z.1 <? y.1); intros [= <-]; [right; by apply IH | left].
  - intros [= <-]. left.
Qed.

Lemma upcoming_labels slots last_run now :
  (upcoming_at slots last_run now).*2 = slot_labels slots.
Proof.
  unfold upcoming_at, slot_labels. rewrite <- !list_fmap_compose.
  apply list_fmap_ext. by intros _ [[label h] m] _.
Qed.

Lemma singleton_sublist {A} (x : A) l : x ∈ l → [x] `sublist_of` l.
Proof.
  induction 1 as [x l|x y l _ IH]; [apply sublist_skip, sublist_nil_l | by apply sublist_cons].
Qed.

(** One round of the scheduler. *)
Lemma loop_iteration_ledger last_run w :
  let rw := Official.loop_iteration py env id last_run w in
  ∃ rows fired,
    grown w rw.2 rows fired ∧ accounted (is_ok rw.1) rows fired
    ∧ fired ≠ [] ∧ fired.*2 `sublist_of` slot_labels Official.SCHEDULES
    ∧ (length rows ≤ length fired)%nat.
Proof.
  cbn zeta. unfold Official.loop_iteration, bind, datetime_now.
  destruct (catch_up_ledger Official.SCHEDULES (clock w) last_run false w)
    as (rows1 & fired1 & Hg1 & Ha1 & Hs1 & Hn1 & Hr1). cbn zeta in *.
  destruct (Official.catch_up py env id Official.SCHEDULES (clock w) last_run false w)
    as [[[lr1 ran_any]|e] w1]; cbn [fst snd is_ok] in *.
  - specialize (Hr1 _ _ eq_refl). cbn in Hr1. destruct ran_any.
    + symmetry in Hr1. apply bool_decide_eq_true_1 in Hr1.
      pose proof (grown_time_sleep 30 w1) as Hg2.
      destruct (time_sleep env 30 w1) as [[[]|e] w2] eqn:Hsl.
      * exists rows1, fired1. cbn [fst snd is_ok] in *.
        split_and!; [|done..].
        rewrite <- (app_nil_r rows1), <- (app_nil_r fired1). by eapply grown_trans.
      * by exfalso.
    + symmetry in Hr1. apply bool_decide_eq_false_1 in Hr1.
      assert (fired1 = []) as -> by (by destruct fired1; [|exfalso; apply Hr1]).
      rewrite collect_upcoming_pure.
      destruct (Official.min_by_time (upcoming_at Official.SCHEDULES lr1 (clock w1)))
        as [[next_time next_label]|] eqn:Hmin.
      2: { destruct (min_by_time_upcoming lr1 (clock w1)) as [? Hsome]. congruence. }
      match goal with |- context [Official.sleep_chunks env ?f ?n ?ws ?w0] =>
        destruct (grown_sleep_chunks f n ws w0) as (w2 & -> & Hg2) end.
      destruct (run_once_ledger next_label w2) as (rows3 & Hg3 & Ha3 & Hn3). cbn zeta in *.
      assert (Hlab : [next_label] `sublist_of` slot_labels Official.SCHEDULES).
      { apply singleton_sublist. rewrite <- (upcoming_labels _ lr1 (clock w1)).
        apply min_by_time_elem in Hmin.
        by apply (list_elem_of_fmap_2 snd) in Hmin. }
      assert (Hg : grown w (Official.run_once py env id next_label w2).2
                     (rows1 ++ [] ++ rows3) ([] ++ [] ++ [(clock w2 `div` DAY, next_label)])).
      { eapply grown_trans; [exact Hg1|]. eapply grown_trans; [exact Hg2 | exact Hg3]. }
      assert (Ha : accounted (is_ok (Official.run_once py env id next_label w2).1)
                     (rows1 ++ rows3) ([] ++ [(clock w2 `div` DAY, next_label)])).
      { by apply accounted_app. }
      cbn [app] in Hg, Ha.
      destruct (Official.run_once py env id next_label w2) as [[[]|e] w3];
        cbn [fst snd is_ok date_today] in *;
        exists (rows1 ++ rows3), [(clock w2 `div` DAY, next_label)];
        (split_and!; [done | done | done | done |]);
        rewrite length_app, Hn3; cbn in *; lia.
  - exists rows1, fired1. split_and!; [done | done | | done | done].
    destruct Ha1 as (_ & pre & f & -> & _). by destruct pre.
Qed.

(** Any number of rounds. *)
Lemma loop_from_ledger rounds last_run w :
  let rw := Official.loop_from py env id rounds last_run w in
  ∃ rows fired,
    grown w rw.2 rows fired ∧ accounted (is_ok rw.1) rows fired
    ∧ (length rows ≤ length fired ≤ 2 * rounds)%nat
    ∧ (is_ok rw.1 = true → rounds ≤ length fired)%nat.
Proof.
  cbn zeta. revert last_run w. induction rounds as [|rounds IH]; intros last_run w.
  - exists [], []. cbn. split_and!; [apply grown_refl | apply accounted_nil | done..].
  - cbn [Official.loop_from]. unfold bind.
    destruct (loop_iteration_ledger last_run w)
      as (rows1 & fired1 & Hg1 & Ha1 & Hne1 & Hs1 & Hn1). cbn zeta in *.
    apply sublist_length in Hs1. rewrite length_fmap in Hs1. cbn in Hs1.
    assert (1 ≤ length fired1)%nat by (destruct fired1; [done | cbn; lia]).
    destruct (Official.loop_iteration py env id last_run w) as [[lr1|e] w1];
      cbn [fst snd is_ok] in *.
    + destruct (IH lr1 w1) as (rows2 & fired2 & Hg2 & Ha2 & Hn2 & Hr2).
      exists (rows1 ++ rows2), (fired1 ++ fired2).
      split_and!; [by eapply grown_trans | by apply accounted_app | | |];
        rewrite ?length_app; try lia.
      intros Hok. specialize (Hr2 Hok). lia.
    + exists rows1, fired1. split_and!; [done | done | lia | lia | done].
Qed.

End Ledger.

(** X8. Over any number of rounds of the scheduler the rows written to
    the log account for the firings: every row has the seventeen cells of
    the header and the rows carry, in order, the labels of the firings,
    one row for each firing while the scheduler runs and one for each but
    the last when an exception has ended it. *)
Theorem rows_match_firings py env id rounds last_run w :
  let rw := Official.loop_from py env id rounds last_run w in
  ∃ rows fired,
    appended rw.2 = appended w ++ rows
    ∧ firings rw.2 = firings w ++ fired
    ∧ Forall (λ row, length row = 17%nat) rows
    ∧ match rw.1 with
      | Ok _ => label_of_row <$> rows = Some <$> fired.*2
      | Raise _ => ∃ pre f, fired = pre ++ [f] ∧ label_of_row <$> rows = Some <$> pre.*2
      end.
Proof.
  cbn zeta.
  destruct (loop_from_ledger py env id rounds last_run w)
    as (rows & fired & (Ha & Hf & _) & [Hw Hl] & _). cbn zeta in *.
  exists rows, fired. split_and!; [done | done | done |].
  by destruct (Official.loop_from py env id rounds last_run w).1.
Qed.

(** X9. The scheduler only ever extends the log file: after any number
    of rounds the file is as it was, or it holds what it held (the header
    alone, if it did not exist) followed by the rows appended since, at
    most two for each round. *)
Theorem log_only_grows py env id rounds last_run w :
  let rw := Official.loop_from py env id rounds last_run w in
  ∃ rows,
    appended rw.2 = appended w ++ rows
    ∧ (log_file rw.2 = log_file w ∧ rows = []
       ∨ log_file rw.2 = Some (default [Official.LOG_HEADER] (log_file w) ++ rows))
    ∧ (length rows ≤ 2 * rounds)%nat.
Proof.
  cbn zeta.
  destruct (loop_from_ledger py env id rounds last_run w)
    as (rows & fired & (Ha & _ & Hlog) & _ & Hn & _). cbn zeta in *.
  exists rows. split_and!; [done | done | lia].
Qed.

(** X10. Every round of the scheduler fires at least one run and at most
    two, never the same slot twice, and [07:00] before [13:30] when it
    fires both. *)
Theorem round_fires_one_or_two py env id last_run w :
  let rw := Official.loop_iteration py env id last_run w in
  ∃ fired,
    firings rw.2 = firings w ++ fired
    ∧ fired ≠ []
    ∧ fired.*2 `sublist_of` ["07:00"%string; "13:30"%string].
Proof.
  cbn zeta.
  destruct (loop_iteration_ledger py env id last_run w)
    as (rows & fired & (_ & Hf & _) & _ & Hne & Hs & _). cbn zeta in *.
  by exists fired.
Qed.

(** ** What the payloads hold *)

Ltac eval_entry_ids :=
  repeat match goal with
  | |- context [getitem ?d ?k] =>
      let v := eval vm_compute in (getitem d k) in
      change (getitem d k) with v; cbn [result_bind]
  end.

Section PayloadCoverage.
Context (py : PyLib) (id : SiteIdentity).

Lemma build_payload_base_valid results ts :
  valid_identity id = true →
  Official.build_payload_base py id results ts
  = Ok (<[Official.ENTRY_SERVICE_TYPE_ID := SERVICE_TYPE id]>
        (<[Official.ENTRY_PROVIDER_ID := SERVICE_PROVIDER id]>
        (<[Official.ENTRY_SECTOR_ID := SCHOOL_SECTOR id]>
        (<["entry.899161738"%string := SCHOOL_CODE id]> ∅))),
        Official.notes_text_of py id results ts).
Proof.
  unfold valid_identity. intros [[H1 H2]%andb_prop H3]%andb_prop.
  unfold Official.build_payload_base. rewrite H1, H2, H3. cbn [negb].
  by eval_entry_ids.
Qed.

Lemma build_payload_base_invalid results ts :
  valid_identity id = false →
  ∃ msg, Official.build_payload_base py id results ts = Raise (Exception "ValueError" msg).
Proof.
  unfold valid_identity, Official.build_payload_base. intros H.
  destruct (list_in (SCHOOL_SECTOR id) Official.ALLOWED_SECTORS); [|by eexists].
  destruct (list_in (SERVICE_PROVIDER id) Official.ALLOWED_PROVIDERS); [|by eexists].
  destruct (list_in (SERVICE_TYPE id) Official.ALLOWED_SERVICE_TYPES); [done|by eexists].
Qed.

End PayloadCoverage.

Ltac eval_text_id :=
  repeat match goal with
  | |- context [Official.text_id ?m ?q] =>
      let v := eval vm_compute in (Official.text_id m q) in
      change (Official.text_id m q) with v; cbn [result_bind]
  end.

(** X11. With an identity inside the enumerations every combination that
    [submit_official] tries has a payload (no mapping names a field that
    does not exist), and whatever the combination the payload holds the
    school code, the sector, the provider and the service type under
    their fixed fields, the school name and the line number under the
    two fields the mapping gives them, [fvv] and [pageHistory], [fbzx]
    exactly when the hidden candidate has it, and nothing beyond the ten
    or eleven fields. *)
Theorem official_payload_covers_the_form py id m h results ts :
  valid_identity id = true →
  m ∈ Official.TEXT_MAPPING_TRIES → h ∈ Official.HIDDEN_CANDIDATES →
  ∃ payload q3_id q5_id,
    Official.payload_of py id m h results ts = Ok payload
    ∧ Official.text_id m "Q3_school_name" = Ok q3_id
    ∧ Official.text_id m "Q5_line_number" = Ok q5_id
    ∧ payload !! "entry.899161738"%string = Some (SCHOOL_CODE id)
    ∧ payload !! Official.ENTRY_SECTOR_ID = Some (SCHOOL_SECTOR id)
    ∧ payload !! Official.ENTRY_PROVIDER_ID = Some (SERVICE_PROVIDER id)
    ∧ payload !! Official.ENTRY_SERVICE_TYPE_ID = Some (SERVICE_TYPE id)
    ∧ payload !! q3_id = Some (SCHOOL_NAME id)
    ∧ payload !! q5_id = Some (LINE_NUMBER id)
    ∧ payload !! "fvv"%string = Some "1"%string
    ∧ payload !! "pageHistory"%string = Some "0"%string
    ∧ payload !! "fbzx"%string = h !! "fbzx"%string
    ∧ size payload = (10 + size h)%nat.
Proof.
  intros Hid Hm Hh. unfold Official.payload_of.
  rewrite (build_payload_base_valid py id results ts Hid). cbn [result_bind].
  unfold Official.TEXT_MAPPING_TRIES in Hm. unfold Official.HIDDEN_CANDIDATES in Hh.
  repeat (apply elem_of_cons in Hm as [->|Hm]); [..|by apply elem_of_nil in Hm];
    (repeat (apply elem_of_cons in Hh as [->|Hh]); [..|by apply elem_of_nil in Hh]);
    eval_text_id; eexists _, _, _;
    (split; [reflexivity|]); (split; [reflexivity|]); (split; [reflexivity|]);
    split_and!; vm_compute; reflexivity.
Qed.

Lemma official_payload_covers_the_form_witness :
  first_payload !! "entry.560537791"%string = Some "مدرسة ابو القاسم الزهراوي"%string.
Proof.
  destruct (official_payload_covers_the_form plain_py (prefilled "PC") first_mapping ∅
              some_results "2024-10-04 07:00:30" eq_refl)
    as (payload & q3 & q5 & Hp & H3 & _ & _ & _ & _ & _ & Hname & _).
  - unfold first_mapping, Official.TEXT_MAPPING_TRIES. apply list_elem_of_here.
  - unfold Official.HIDDEN_CANDIDATES. apply list_elem_of_here.
  - vm_compute in H3. injection H3 as <-.
    assert (Hfp : Official.payload_of plain_py (prefilled "PC") first_mapping ∅
                    some_results "2024-10-04 07:00:30" = Ok first_payload)
      by (vm_compute; reflexivity).
    rewrite Hfp in Hp. injection Hp as <-. exact Hname.
Defined.

(** ** The sibling script: submission and scheduler *)

Section ExperimentalFacts.
Context (py : PyLib) (env : Env) (id : SiteIdentity).

Lemma requests_post_call_spec payload w :
  requests_post_call env payload w
  = (Ok (requests_post env (ticks w) payload),
     {| clock := clock w + 0 + Z.of_N (elapsed env (ticks w));
        ticks := S (ticks w); log_file := log_file w;
        trace := trace w ++ [(clock w, EvPost payload (requests_post env (ticks w) payload))] |}).
Proof. done. Qed.

Lemma variants_loop_returns variants code preview w :
  ∃ r w', Experimental.variants_loop env variants code preview w = (Ok r, w')
          ∧ log_file w' = log_file w.
Proof.
  revert code preview w. induction variants as [|variant rest IH]; intros code preview w;
    cbn [Experimental.variants_loop].
  - by eexists _, _.
  - unfold bind. rewrite requests_post_call_spec.
    destruct (requests_post env (ticks w) variant) as [c text|cls msg].
    + destruct (accepted c); [by eexists _, _|].
      match goal with |- context [Experimental.variants_loop env rest ?c0 ?p0 ?w0] =>
        destruct (IH c0 p0 w0) as (r & w' & -> & Hl) end.
      by eexists _, _.
    + match goal with |- context [Experimental.variants_loop env rest ?c0 ?p0 ?w0] =>
        destruct (IH c0 p0 w0) as (r & w' & -> & Hl) end.
      by eexists _, _.
Qed.

Lemma submit_form_returns payload w :
  ∃ r w', Experimental.submit_form env payload w = (Ok r, w') ∧ log_file w' = log_file w.
Proof. apply variants_loop_returns. Qed.

Section Working.
Hypothesis Hinstalled : speedtest_installed env = true.
Hypothesis Hprobe : ∀ k, ∃ r, speedtest_probe env k = ProbeOk r.
Hypothesis Hvalid : experimental_valid id = true.

Lemma exp_measure_speed_ok w :
  ∃ results w', Experimental.measure_speed env w = (Ok results, w')
                ∧ log_file w' = log_file w.
Proof.
  unfold Experimental.measure_speed. rewrite Hinstalled. unfold bind, emit, interact.
  cbn [fst snd ticks]. destruct (Hprobe (ticks w)) as [r ->]. by eexists _, _.
Qed.

Lemma exp_build_payload_ok results ts :
  ∃ payload, Experimental.build_payload py id results ts = Ok payload.
Proof.
  revert Hvalid. unfold experimental_valid. intros [[H1 H2]%andb_prop H3]%andb_prop.
  unfold Experimental.build_payload. rewrite H1, H2, H3. cbn [negb].
  eval_entry_ids. by eexists.
Qed.

Lemma exp_run_once_ok label w :
  ∃ w' row ok code,
    Experimental.run_once py env id label w = (Ok (), w')
    ∧ log_file w' = Some (default [Experimental.LOG_HEADER] (log_file w) ++ [row])
    ∧ row !! 13%nat = Some (CStr label)
    ∧ row !! 14%nat = Some (CStr (Official.status_txt ok code)).
Proof.
  unfold Experimental.run_once. unfold bind at 1. cbn [emit fst snd].
  unfold bind at 1.
  match goal with |- context [Experimental.measure_speed env ?w0] =>
    destruct (exp_measure_speed_ok w0) as (results & w1 & -> & Hl1) end.
  cbn [log_file] in Hl1.
  unfold bind at 1. cbn [datetime_now]. unfold bind at 1.
  assert (Hhdr : ∃ w2, Experimental.ensure_log_header w1 = (Ok (), w2)
            ∧ log_file w2 = Some (default [Experimental.LOG_HEADER] (log_file w))).
  { unfold Experimental.ensure_log_header. rewrite Hl1.
    destruct (log_file w) as [rows|] eqn:Hlog; eexists; (split; [reflexivity|]); [|done].
    by rewrite Hl1. }
  destruct Hhdr as (w2 & -> & Hl2).
  destruct (exp_build_payload_ok results (strftime py (clock w1))) as [payload Hp].
  unfold bind at 1, lift. rewrite Hp. unfold bind.
  destruct (submit_form_returns payload w2) as ([[ok code] preview] & w3 & -> & Hl3).
  eexists _, _, ok, code. split; [reflexivity|]. cbn. by rewrite Hl3, Hl2.
Qed.

Lemma exp_catch_up_ok slots now last_run ran_any w :
  is_ok (Experimental.catch_up py env id slots now last_run ran_any w).1 = true.
Proof.
  revert last_run ran_any w. induction slots as [|[[label h] m] rest IH];
    intros last_run ran_any w; [done|].
  cbn [Experimental.catch_up]. unfold bind, date_today.
  destruct (_ && _); [|apply IH].
  destruct (exp_run_once_ok label w) as (w' & _ & _ & _ & -> & _). apply IH.
Qed.

Lemma exp_loop_iteration_ok last_run w :
  is_ok (Experimental.loop_iteration py env id last_run w).1 = true.
Proof.
  unfold Experimental.loop_iteration, bind, datetime_now.
  pose proof (exp_catch_up_ok Official.SCHEDULES (clock w) last_run false w) as Hcu.
  destruct (Experimental.catch_up py env id Official.SCHEDULES (clock w) last_run false w)
    as [[[lr1 ran_any]|e] w1]; [|done].
  destruct ran_any.
  - done.
  - rewrite collect_upcoming_pure.
    destruct (Official.min_by_time (upcoming_at Official.SCHEDULES lr1 (clock w1)))
      as [[next_time next_label]|] eqn:Hmin.
    2: { destruct (min_by_time_upcoming lr1 (clock w1)) as [? Hsome]. congruence. }
    match goal with |- context [Official.sleep_chunks env ?f ?n ?ws ?w0] =>
      destruct (sleep_chunks_spec env f n ws w0) as (w2 & -> & _) end.
    by destruct (exp_run_once_ok next_label w2) as (w' & _ & _ & _ & -> & _).
Qed.

Lemma exp_loop_from_ok rounds last_run w :
  is_ok (Experimental.loop_from py env id rounds last_run w).1 = true.
Proof.
  revert last_run w. induction rounds as [|rounds IH]; intros last_run w; [done|].
  cbn [Experimental.loop_from]. unfold bind.
  pose proof (exp_loop_iteration_ok last_run w) as Hit.
  destruct (Experimental.loop_iteration py env id last_run w) as [[lr1|e] w1]; [apply IH|done].
Qed.

End Working.
End ExperimentalFacts.

(** X12. [submit_form] of the sibling script never raises.  It posts the
    payload and, only if that POST is not answered with 200 or 302, the
    payload without [fbzx]; it reports success exactly when the last POST
    it made was so answered, together with the status of the last POST
    that was answered at all. *)
Theorem submit_form_never_raises env payload w :
  let rw := Experimental.submit_form env payload w in
  let a1 := requests_post env (ticks w) payload in
  let a2 := requests_post env (S (ticks w)) (delete "fbzx"%string payload) in
  log_file rw.2 = log_file w
  ∧ if accepted_answer a1
    then events_of rw.2 = events_of w ++ [EvPost payload a1]
         ∧ ∃ preview, rw.1 = Ok (true, last_answered [a1], preview)
    else events_of rw.2
         = events_of w ++ [EvPost payload a1; EvPost (delete "fbzx"%string payload) a2]
         ∧ ∃ preview, rw.1 = Ok (accepted_answer a2, last_answered [a1; a2], preview).
Proof.
  cbn zeta. unfold Experimental.submit_form. cbn [Experimental.variants_loop].
  unfold bind. rewrite requests_post_call_spec.
  destruct (requests_post env (ticks w) payload) as [c1 text1|cls1 msg1] eqn:Ha1;
    cbn [accepted_answer].
  1: destruct (accepted c1) eqn:Hacc1.
  1: { cbn. split; [done|]. split; [|by eexists].
       unfold events_of. cbn. by rewrite fmap_app. }
  all: rewrite requests_post_call_spec; cbn [ticks];
    destruct (requests_post env (S (ticks w)) (delete "fbzx"%string payload))
      as [c2 text2|cls2 msg2] eqn:Ha2; cbn [accepted_answer].
  all: try destruct (accepted c2) eqn:Hacc2.
  all: cbn; (split; [done|]); (split; [|by eexists]).
  all: unfold events_of; cbn; by rewrite !fmap_app, <- app_assoc.
Qed.

(** X13. Nothing the form endpoint does ends the scheduler of the sibling
    script: with the module installed, a probe that works and an identity
    inside the enumerations, every run returns and leaves one row with
    its label and the outcome of the submission, and the scheduler is
    still running after any number of rounds. *)
Theorem experimental_scheduler_outlives_the_endpoint py env id :
  speedtest_installed env = true →
  (∀ k, ∃ r, speedtest_probe env k = ProbeOk r) →
  experimental_valid id = true →
  (∀ label w, ∃ w' row ok code,
     Experimental.run_once py env id label w = (Ok (), w')
     ∧ log_file w' = Some (default [Experimental.LOG_HEADER] (log_file w) ++ [row])
     ∧ row !! 13%nat = Some (CStr label)
     ∧ row !! 14%nat = Some (CStr (Official.status_txt ok code)))
  ∧ ∀ rounds last_run w,
      is_ok (Experimental.loop_from py env id rounds last_run w).1 = true.
Proof.
  intros Hinstalled Hprobe Hvalid. split.
  - intros label w. by apply exp_run_once_ok.
  - intros rounds last_run w. by apply exp_loop_from_ok.
Qed.

Lemma experimental_scheduler_outlives_the_endpoint_witness :
  is_ok (Experimental.loop_from plain_py endpoint_down_env (prefilled "PC") 3 ∅
           (at_time day1 6 0 0)).1 = true.
Proof.
  apply (experimental_scheduler_outlives_the_endpoint plain_py endpoint_down_env
           (prefilled "PC") eq_refl).
  - intros k. by exists good_probe.
  - vm_compute. reflexivity.
Defined.

(** ** The one-shot script *)

Section OneShotFacts.
Context (py : PyLib) (env : Env) (id : SiteIdentity).

Lemma oneshot_variants_loop_spec mapping variants last w :
  let rw := OneShot.variants_loop env mapping variants last w in
  ∃ posts,
    events_of rw.2 = events_of w ++ posts ∧ log_file rw.2 = log_file w
    ∧ (length posts ≤ length variants)%nat
    ∧ Forall (λ ev, ∃ p a, ev = EvPost p a ∧ p ∈ variants) posts.
Proof.
  cbn zeta. revert last w. induction variants as [|variant rest IH]; intros last w;
    cbn [OneShot.variants_loop].
  - exists []. rewrite app_nil_r.
    destruct last as [[c text]|]; (split_and!; [done | done | cbn; lia | done]).
  - unfold bind. rewrite requests_post_call_spec.
    set (a := requests_post env (ticks w) variant).
    set (w1 := {| clock := _; ticks := _; log_file := _; trace := _ |}).
    assert (Hev1 : events_of w1 = events_of w ++ [EvPost variant a])
      by (unfold events_of; cbn; by rewrite fmap_app).
    assert (Hhere : ∃ p a0, EvPost variant a = EvPost p a0 ∧ p ∈ variant :: rest)
      by (eexists _, _; split; [done | left]).
    assert (Hone : ∃ posts, events_of w1 = events_of w ++ posts ∧ log_file w1 = log_file w
              ∧ (length posts ≤ length (variant :: rest))%nat
              ∧ Forall (λ ev, ∃ p a, ev = EvPost p a ∧ p ∈ variant :: rest) posts).
    { exists [EvPost variant a]. split_and!; [done | done | cbn; lia | by constructor]. }
    destruct a as [c text|cls msg]; [|exact Hone].
    destruct (accepted c); [exact Hone|].
    destruct (IH (Some (c, text)) w1) as (posts & Hev & Hl & Hn & Hf).
    exists (EvPost variant (HttpResponse c text) :: posts).
    split_and!; [by rewrite Hev, Hev1, <- app_assoc | by rewrite Hl | cbn; lia |].
    constructor; [done|]. eapply Forall_impl; [exact Hf|].
    intros ev (p & a0 & -> & Hp). eexists _, _. split; [done | by right].
Qed.

Lemma oneshot_try_submit_spec mapping results ts w :
  let rw := OneShot.try_submit_with_mapping py env id mapping results ts w in
  ∃ posts,
    events_of rw.2 = events_of w ++ posts ∧ log_file rw.2 = log_file w
    ∧ (length posts ≤ 2)%nat
    ∧ Forall (oneshot_post py id results ts [mapping]) posts.
Proof.
  cbn zeta. unfold OneShot.try_submit_with_mapping, bind, lift.
  destruct (OneShot.payload_of py id mapping results ts) as [p0|e] eqn:Hp.
  - destruct (oneshot_variants_loop_spec mapping
                [p0; <["fbzx"%string := "8122308104194036559"%string]> p0] None w)
      as (posts & Hev & Hl & Hn & Hf). cbn zeta in *.
    exists posts. split_and!; [done | done | done |].
    eapply Forall_impl; [exact Hf|]. intros ev (p & a & -> & Hin).
    exists mapping, p0, a. split; [left|]. split; [done|].
    apply elem_of_cons in Hin as [->|Hin]; [by left|].
    apply elem_of_cons in Hin as [->|Hin]; [by right|]. by apply elem_of_nil in Hin.
  - exists []. rewrite app_nil_r. split_and!; [done | done | cbn; lia | done].
Qed.

Lemma oneshot_post_weaken results ts mappings mappings' ev :
  mappings ⊆ mappings' →
  oneshot_post py id results ts mappings ev → oneshot_post py id results ts mappings' ev.
Proof. intros Hsub (m & p0 & a & Hm & H). exists m, p0, a. split; [by apply Hsub | done]. Qed.

Lemma oneshot_mapping_loop_spec mappings results ts last_preview w :
  let rw := OneShot.mapping_loop py env id mappings results ts last_preview w in
  ∃ posts,
    events_of rw.2 = events_of w ++ posts ∧ log_file rw.2 = log_file w
    ∧ (length posts ≤ 2 * length mappings)%nat
    ∧ Forall (oneshot_post py id results ts mappings) posts.
Proof.
  cbn zeta. revert last_preview w. induction mappings as [|m rest IH]; intros last_preview w;
    cbn [OneShot.mapping_loop].
  - exists []. rewrite app_nil_r. split_and!; [done | done | cbn; lia | done].
  - unfold bind.
    destruct (oneshot_try_submit_spec m results ts w) as (posts1 & Hev1 & Hl1 & Hn1 & Hf1).
    cbn zeta in *.
    assert (Hf1' : Forall (oneshot_post py id results ts (m :: rest)) posts1).
    { eapply Forall_impl; [exact Hf1|]. intros ev. apply oneshot_post_weaken.
      intros x Hx. apply elem_of_cons. left. by apply list_elem_of_singleton in Hx. }
    destruct (OneShot.try_submit_with_mapping py env id m results ts w)
      as [[[[[ok code] preview] used]|e] w1]; cbn [fst snd] in *.
    + destruct ok.
      * exists posts1. split_and!; [done | done | cbn; lia | done].
      * destruct (IH preview w1) as (posts2 & Hev2 & Hl2 & Hn2 & Hf2).
        exists (posts1 ++ posts2).
        split_and!; [by rewrite Hev2, Hev1, <- app_assoc | by rewrite Hl2
                    | rewrite length_app; cbn; lia |].
        apply Forall_app. split; [done|].
        eapply Forall_impl; [exact Hf2|]. intros ev. apply oneshot_post_weaken.
        intros x Hx. by right.
    + exists posts1. split_and!; [done | done | cbn; lia | done].
Qed.

Lemma exp_measure_speed_frame w :
  let rw := Experimental.measure_speed env w in
  log_file rw.2 = log_file w
  ∧ ∃ evm, events_of rw.2 = events_of w ++ evm ∧ Forall is_measure_event evm.
Proof.
  cbn zeta. unfold Experimental.measure_speed.
  destruct (speedtest_installed env).
  - unfold bind, emit, interact. cbn [fst snd].
    assert (∀ w' : World, trace w' = trace w ++ [(clock w, EvProbe 1)] →
              ∃ evm, events_of w' = events_of w ++ evm ∧ Forall is_measure_event evm) as Hev.
    { intros w' Htr. exists [EvProbe 1]. split; [|by repeat constructor].
      unfold events_of. by rewrite Htr, fmap_app. }
    destruct (speedtest_probe env _); (split; [done|]); by apply Hev.
  - split; [done|]. exists []. by rewrite app_nil_r.
Qed.

(** What [main] does once the measurement has returned. *)
Lemma oneshot_main_after_measurement w results w1 :
  Experimental.measure_speed env w = (Ok results, w1) →
  let rw := OneShot.main py env id w in
  let ts := strftime py (clock w1) in
  let row := OneShot.log_row id ts results in
  ∃ posts,
    Forall (oneshot_post py id results ts Official.TEXT_MAPPING_TRIES) posts
    ∧ (length posts ≤ 6)%nat
    ∧ events_of rw.2
      = events_of w1 ++ match log_file w1 with Some _ => [] | None => [EvHeader] end
        ++ EvAppend row :: posts
    ∧ log_file rw.2 = Some (default [OneShot.LOG_HEADER] (log_file w1) ++ [row]).
Proof.
  intros Hm. cbn zeta.
  set (ts := strftime py (clock w1)). set (row := OneShot.log_row id ts results).
  assert (Hhdr : ∃ w2, OneShot.ensure_log_header w1 = (Ok (), w2)
            ∧ log_file w2 = Some (default [OneShot.LOG_HEADER] (log_file w1))
            ∧ events_of w2 = events_of w1
                ++ match log_file w1 with Some _ => [] | None => [EvHeader] end).
  { unfold OneShot.ensure_log_header.
    destruct (log_file w1) as [rows|] eqn:Hlog; eexists; (split; [reflexivity|]).
    - by rewrite app_nil_r.
    - split; [done|]. unfold events_of. cbn. by rewrite fmap_app. }
  destruct Hhdr as (w2 & Hh & Hl2 & Hev2).
  set (w3 := (OneShot.append_log row w2).2).
  assert (Hmain : OneShot.main py env id w
            = OneShot.mapping_loop py env id Official.TEXT_MAPPING_TRIES results ts "" w3).
  { unfold OneShot.main, bind. rewrite Hm. unfold datetime_now. fold ts. by rewrite Hh. }
  rewrite Hmain.
  assert (Hev3 : events_of w3 = events_of w2 ++ [EvAppend row])
    by (unfold events_of; cbn; by rewrite fmap_app).
  destruct (oneshot_mapping_loop_spec Official.TEXT_MAPPING_TRIES results ts "" w3)
    as (posts & Hev & Hl & Hn & Hf). cbn zeta in *.
  exists posts. split_and!; [done | done | |].
  - rewrite Hev, Hev3, Hev2. by rewrite <- !app_assoc.
  - rewrite Hl. cbn. by rewrite Hl2.
Qed.

Lemma oneshot_payload_keys m results ts p0 :
  m ∈ Official.TEXT_MAPPING_TRIES →
  OneShot.payload_of py id m results ts = Ok p0 →
  p0 !! "fvv"%string = None ∧ p0 !! "pageHistory"%string = None
  ∧ p0 !! "fbzx"%string = None ∧ size p0 = 8%nat.
Proof.
  intros Hm. unfold OneShot.payload_of.
  destruct (valid_identity id) eqn:Hid.
  - rewrite (build_payload_base_valid py id results ts Hid). cbn [result_bind].
    unfold Official.TEXT_MAPPING_TRIES in Hm.
    repeat (apply elem_of_cons in Hm as [->|Hm]); [..|by apply elem_of_nil in Hm];
      eval_text_id; intros [= <-]; split_and!; vm_compute; reflexivity.
  - destruct (build_payload_base_invalid py id results ts Hid) as [msg ->]. done.
Qed.

End OneShotFacts.

(** X14. The one-shot script writes the measurement to the log before it
    sends anything: once the measurement has returned, whatever the
    submission does (rejections, a transport error that ends the script,
    an identity that is refused), the file ends with the row of this
    measurement, and in the trace the row precedes every POST, of which
    there are at most six. *)
Theorem oneshot_logs_before_submitting py env id w results w1 :
  Experimental.measure_speed env w = (Ok results, w1) →
  let rw := OneShot.main py env id w in
  let row := OneShot.log_row id (strftime py (clock w1)) results in
  ∃ posts,
    Forall is_post_event posts ∧ (length posts ≤ 6)%nat
    ∧ events_of rw.2
      = events_of w1 ++ match log_file w with Some _ => [] | None => [EvHeader] end
        ++ EvAppend row :: posts
    ∧ log_file rw.2 = Some (default [OneShot.LOG_HEADER] (log_file w) ++ [row])
    ∧ length row = length OneShot.LOG_HEADER.
Proof.
  intros Hm. cbn zeta.
  destruct (oneshot_main_after_measurement py env id w results w1 Hm)
    as (posts & Hf & Hn & Hev & Hl). cbn zeta in *.
  assert (Hl1 : log_file w1 = log_file w).
  { pose proof (proj1 (exp_measure_speed_frame env w)) as H. by rewrite Hm in H. }
  rewrite Hl1 in Hev, Hl.
  exists posts. split_and!; [| done | done | done | done].
  eapply Forall_impl; [exact Hf|]. by intros ev (m & p0 & a & _ & _ & [-> | ->]).
Qed.

(** X15. The one-shot script defines [HIDDEN_BASE] and never sends it:
    every payload it posts is the eight answers of one of the three
    mappings, alone or with [fbzx] added, and none holds [fvv] or
    [pageHistory]. *)
Theorem oneshot_never_sends_hidden_base py env id w :
  let rw := OneShot.main py env id w in
  ∃ evs,
    events_of rw.2 = events_of w ++ evs
    ∧ ∀ p a, EvPost p a ∈ evs →
        OneShot.HIDDEN_BASE ##ₘ p
        ∧ p !! "fvv"%string = None ∧ p !! "pageHistory"%string = None
        ∧ (size p = 8%nat ∧ p !! "fbzx"%string = None
           ∨ size p = 9%nat ∧ p !! "fbzx"%string = Some "8122308104194036559"%string).
Proof.
  cbn zeta.
  destruct (exp_measure_speed_frame env w) as (_ & evm & Hev1 & Hfm). cbn zeta in Hev1.
  destruct (Experimental.measure_speed env w) as [[results|e] w1] eqn:Hm; cbn [snd] in Hev1.
  - destruct (oneshot_main_after_measurement py env id w results w1 Hm)
      as (posts & Hf & _ & Hev & _). cbn zeta in *.
    eexists. split; [rewrite Hev, Hev1, <- app_assoc; reflexivity|].
    intros p a Hin.
    apply elem_of_app in Hin as [Hin|Hin].
    { rewrite Forall_forall in Hfm. by apply Hfm in Hin. }
    apply elem_of_app in Hin as [Hin|Hin].
    { destruct (log_file w1); [by apply elem_of_nil in Hin|].
      by apply list_elem_of_singleton in Hin. }
    apply elem_of_cons in Hin as [Hin|Hin]; [done|].
    rewrite Forall_forall in Hf. apply Hf in Hin as (m & p0 & a0 & Hm0 & Hp0 & Hcase).
    destruct (oneshot_payload_keys py id m _ _ p0 Hm0 Hp0) as (Hfvv & Hph & Hfb & Hsz).
    assert (Hdis : ∀ q : gmap string string,
              q !! "fvv"%string = None → q !! "pageHistory"%string = None →
              OneShot.HIDDEN_BASE ##ₘ q).
    { intros q H1 H2. apply map_disjoint_spec. intros k x y Hx Hy.
      unfold OneShot.HIDDEN_BASE in Hx. cbn in Hx.
      apply lookup_insert_Some in Hx as [[<- _]|[_ Hx]]; [congruence|].
      apply lookup_insert_Some in Hx as [[<- _]|[_ Hx]]; [congruence|].
      by rewrite lookup_empty in Hx. }
    destruct Hcase as [[= -> ->]|[= -> ->]].
    + split_and!; [by apply Hdis | done | done | by left].
    + assert (H1 : (<["fbzx"%string := "8122308104194036559"%string]> p0) !! "fvv"%string = None)
        by (by rewrite lookup_insert_ne).
      assert (H2 : (<["fbzx"%string := "8122308104194036559"%string]> p0) !! "pageHistory"%string
                   = None) by (by rewrite lookup_insert_ne).
      split_and!; [by apply Hdis | done | done | right].
      split; [|by rewrite lookup_insert_eq].
      rewrite map_size_insert_None by done. by rewrite Hsz.
  - exists evm. unfold OneShot.main, bind. rewrite Hm.
    split; [done|]. intros p a Hin.
    rewrite Forall_forall in Hfm. by apply Hfm in Hin.
Qed.

Lemma oneshot_logs_before_submitting_witness :
  let w := at_time day1 7 0 0 in
  let w1 := (Experimental.measure_speed endpoint_down_env w).2 in
  log_file (OneShot.main plain_py endpoint_down_env (prefilled "PC") w).2
  = Some (default [OneShot.LOG_HEADER] (log_file w)
          ++ [OneShot.log_row (prefilled "PC") (strftime plain_py (clock w1)) some_results]).
Proof.
  cbn zeta.
  destruct (oneshot_logs_before_submitting plain_py endpoint_down_env (prefilled "PC")
              (at_time day1 7 0 0) some_results
              (Experimental.measure_speed endpoint_down_env (at_time day1 7 0 0)).2 eq_refl)
    as (posts & _ & _ & _ & Hl & _).
  exact Hl.
Defined.

(** ** The first script: submission with retries *)

Section FirstGenFacts.
Context (env : Env) (is_request_exception : string → bool).
Context (payload : gmap string string) (backoff_sec : Q).

Lemma sleep_float_spec seconds w :
  (0 <= seconds)%Q →
  FirstGen.sleep_float env seconds w
  = (Ok (), {| clock := clock w + Qfloor (seconds * 1000000) + Z.of_N (elapsed env (ticks w));
               ticks := S (ticks w); log_file := log_file w; trace := trace w |}).
Proof.
  intros Hs. unfold FirstGen.sleep_float.
  by rewrite (proj2 (Qle_bool_iff 0 seconds) Hs).
Qed.

Lemma nap_nonneg attempt :
  (0 <= backoff_sec)%Q → 0 ≤ attempt →
  (0 <= backoff_sec * inject_Z attempt)%Q ∧ 0 ≤ Qfloor (backoff_sec * inject_Z attempt * 1000000).
Proof.
  intros Hb Ha.
  assert (0 <= inject_Z attempt)%Q as Hq
    by (change (inject_Z 0 <= inject_Z attempt)%Q; by rewrite <- Zle_Qle).
  assert (0 <= backoff_sec * inject_Z attempt)%Q as Hn by (by apply Qmult_le_0_compat).
  split; [done|].
  change 0 with (Qfloor 0). apply Qfloor_resp_le.
  by apply Qmult_le_0_compat.
Qed.

(** The loop over the attempts, from a world in which [ticks w] is the
    number of the next interaction: the POST of the attempt [i] is the
    interaction [ticks w + 2 * i], the nap after it the next one. *)
Lemma attempts_loop_spec attempts w :
  (0 <= backoff_sec)%Q → Forall (λ attempt, 0 ≤ attempt) attempts →
  let rw := FirstGen.attempts_loop env is_request_exception payload backoff_sec attempts w in
  ∃ n,
    (n ≤ length attempts)%nat
    ∧ let answers := (λ i, requests_post env (ticks w + 2 * i) payload) <$> seq 0 n in
      events_of rw.2 = events_of w ++ (EvPost payload <$> answers)
      ∧ log_file rw.2 = log_file w
      ∧ match rw.1 with
        | Ok true =>
            ∃ pre text, answers = pre ++ [HttpResponse 200 text]
                        ∧ Forall (λ a, answered_200 a = false) pre
        | Ok false =>
            n = length attempts
            ∧ Forall (λ a, answered_200 a = false) answers
            ∧ clock w + backoff_total backoff_sec attempts ≤ clock rw.2
        | Raise e =>
            ∃ pre cls msg, answers = pre ++ [HttpRaise cls msg]
                           ∧ Forall (λ a, answered_200 a = false) pre
                           ∧ is_request_exception cls = false
                           ∧ e = Exception cls msg
        end.
Proof.
  intros Hb Hatt. cbn zeta. revert w.
  induction Hatt as [|attempt rest Ha _ IH]; intros w; cbn [FirstGen.attempts_loop].
  - exists 0%nat. cbn. rewrite app_nil_r. split_and!; [done | done | done | done | done | lia].
  - unfold bind. rewrite requests_post_call_spec.
    set (a := requests_post env (ticks w) payload).
    set (w1 := {| clock := _; ticks := _; log_file := _; trace := _ |}).
    assert (Hev1 : events_of w1 = events_of w ++ [EvPost payload a])
      by (unfold events_of; cbn; by rewrite fmap_app).
    assert (Ha0 : requests_post env (ticks w + 2 * 0) payload = a)
      by (by rewrite Nat.mul_0_r, Nat.add_0_r).
    destruct (nap_nonneg attempt Hb Ha) as [Hnap Hfl].
    (* what follows a failed attempt *)
    assert (Hnext : answered_200 a = false →
      let rw := (FirstGen.sleep_float env (backoff_sec * inject_Z attempt) ;;
                 FirstGen.attempts_loop env is_request_exception payload backoff_sec rest)%py w1 in
      ∃ n, (n ≤ length (attempt :: rest))%nat
        ∧ let answers := (λ i, requests_post env (ticks w + 2 * i) payload) <$> seq 0 n in
          events_of rw.2 = events_of w ++ (EvPost payload <$> answers)
          ∧ log_file rw.2 = log_file w
          ∧ match rw.1 with
            | Ok true =>
                ∃ pre text, answers = pre ++ [HttpResponse 200 text]
                            ∧ Forall (λ a, answered_200 a = false) pre
            | Ok false =>
                n = length (attempt :: rest)
                ∧ Forall (λ a, answered_200 a = false) answers
                ∧ clock w + backoff_total backoff_sec (attempt :: rest) ≤ clock rw.2
            | Raise e =>
                ∃ pre cls msg, answers = pre ++ [HttpRaise cls msg]
                               ∧ Forall (λ a, answered_200 a = false) pre
                               ∧ is_request_exception cls = false
                               ∧ e = Exception cls msg
            end).
    { intros Hrej. cbn zeta. unfold bind. rewrite sleep_float_spec by done.
      set (w2 := {| clock := _; ticks := _; log_file := _; trace := _ |}).
      destruct (IH w2) as (n & Hn & Hev & Hl & Hres). cbn zeta in *.
      exists (S n). split; [cbn; lia|].
      assert (Hans : (λ i, requests_post env (ticks w + 2 * i) payload) <$> seq 0 (S n)
                     = a :: ((λ i, requests_post env (ticks w2 + 2 * i) payload) <$> seq 0 n)).
      { cbn [seq fmap list_fmap]. rewrite Ha0. f_equal.
        rewrite <- fmap_S_seq, <- list_fmap_compose. apply list_fmap_ext.
        intros _ i _. cbn. f_equal. lia. }
      rewrite Hans. split_and!.
      - rewrite Hev. unfold w2, events_of at 1. cbn [trace]. fold (events_of w1).
        rewrite Hev1, <- app_assoc. done.
      - by rewrite Hl.
      - destruct (FirstGen.attempts_loop env is_request_exception payload backoff_sec rest w2).1
          as [[]|e].
        + destruct Hres as (pre & text & -> & Hpre). exists (a :: pre), text.
          split; [done | by constructor].
        + destruct Hres as (-> & Hall & Hclock). split_and!; [done | by constructor |].
          change (backoff_total backoff_sec (attempt :: rest))
            with (Qfloor (backoff_sec * inject_Z attempt * 1000000)
                  + backoff_total backoff_sec rest).
          assert (clock w + Qfloor (backoff_sec * inject_Z attempt * 1000000) ≤ clock w2)
            by (unfold w2, w1; cbn [clock]; lia).
          lia.
        + destruct Hres as (pre & cls & msg & -> & Hpre & Hcls & ->).
          exists (a :: pre), cls, msg. split_and!; [done | by constructor | done | done]. }
    destruct a as [c text|cls msg] eqn:Hans.
    + destruct (Z.eqb_spec c 200) as [->|Hne].
      * exists 1%nat. cbn [seq fmap list_fmap]. rewrite Ha0.
        split_and!; [cbn; lia | done | done |].
        exists [], text. by split.
      * apply Hnext. cbn. by apply Z.eqb_neq.
    + destruct (is_request_exception cls) eqn:Hcls; [by apply Hnext|].
      exists 1%nat. cbn [seq fmap list_fmap]. rewrite Ha0.
      split_and!; [cbn; lia | done | done |].
      exists [], cls, msg. by split_and!.
Qed.

End FirstGenFacts.

(** X16. [submit_to_form] posts the same payload at most [retries]
    times.  It returns [True] exactly when a POST is answered with status
    200, which ends it (a 302 is a failure for it); every other answer
    and every exception of [requests] is followed by a nap of
    [backoff_sec * attempt] seconds, also after the last attempt, so that
    [False] comes after [retries] POSTs and no sooner than the sum of the
    naps; an exception that is not one of [requests] ends it at once. *)
Theorem submit_to_form_retries env is_request_exception payload retries backoff_sec w :
  (0 <= backoff_sec)%Q →
  let rw := FirstGen.submit_to_form env is_request_exception payload retries backoff_sec w in
  ∃ n,
    (n ≤ Z.to_nat retries)%nat
    ∧ let answers := (λ i, requests_post env (ticks w + 2 * i) payload) <$> seq 0 n in
      events_of rw.2 = events_of w ++ (EvPost payload <$> answers)
      ∧ log_file rw.2 = log_file w
      ∧ match rw.1 with
        | Ok true =>
            ∃ pre text, answers = pre ++ [HttpResponse 200 text]
                        ∧ Forall (λ a, answered_200 a = false) pre
        | Ok false =>
            n = Z.to_nat retries
            ∧ Forall (λ a, answered_200 a = false) answers
            ∧ clock w + backoff_total backoff_sec (seqZ 1 retries) ≤ clock rw.2
        | Raise e =>
            ∃ pre cls msg, answers = pre ++ [HttpRaise cls msg]
                           ∧ Forall (λ a, answered_200 a = false) pre
                           ∧ is_request_exception cls = false
                           ∧ e = Exception cls msg
        end.
Proof.
  intros Hb. cbn zeta. unfold FirstGen.submit_to_form.
  assert (Hatt : Forall (λ attempt, 0 ≤ attempt) (seqZ 1 retries)).
  { apply Forall_forall. intros x Hx. apply elem_of_seqZ in Hx. lia. }
  destruct (attempts_loop_spec env is_request_exception payload backoff_sec
              (seqZ 1 retries) w Hb Hatt) as (n & Hn & H). cbn zeta in H.
  rewrite length_seqZ in Hn, H. by exists n.
Qed.

Lemma submit_to_form_retries_witness :
  let w := at_time day1 7 0 0 in
  let rw := FirstGen.submit_to_form redirecting_env raised_by_requests first_payload 3 2 w in
  rw.1 = Ok false ∧ clock w + 12 * MICRO ≤ clock rw.2.
Proof.
  cbn zeta.
  destruct (submit_to_form_retries redirecting_env raised_by_requests first_payload 3 2
              (at_time day1 7 0 0)) as (n & _ & _ & _ & H).
  - done.
  - assert (Hr : (FirstGen.submit_to_form redirecting_env raised_by_requests first_payload
                    3 2 (at_time day1 7 0 0)).1 = Ok false) by (vm_compute; reflexivity).
    rewrite Hr in H |- *. destruct H as (_ & _ & Hclock). split; [done|].
    exact Hclock.
Defined.

(** X17. A negative back-off makes the first nap fail: after one POST
    that is not answered with 200 (or that raises an exception of
    [requests]) [submit_to_form] ends with the [ValueError] of
    [time.sleep] instead of trying again. *)
Theorem negative_backoff_raises env is_request_exception payload retries backoff_sec w :
  (backoff_sec < 0)%Q → 1 ≤ retries →
  answered_200 (requests_post env (ticks w) payload) = false →
  (∀ cls msg, requests_post env (ticks w) payload = HttpRaise cls msg →
              is_request_exception cls = true) →
  let rw := FirstGen.submit_to_form env is_request_exception payload retries backoff_sec w in
  rw.1 = Raise (Exception "ValueError" "sleep length must be non-negative")
  ∧ events_of rw.2
    = events_of w ++ [EvPost payload (requests_post env (ticks w) payload)].
Proof.
  intros Hb Hr Hrej Hreq. cbn zeta. unfold FirstGen.submit_to_form.
  rewrite (seqZ_cons 1 retries) by lia. cbn [FirstGen.attempts_loop].
  unfold bind. rewrite requests_post_call_spec.
  assert (Hnap : ∀ w0, FirstGen.sleep_float env (backoff_sec * inject_Z 1) w0
            = (Raise (Exception "ValueError" "sleep length must be non-negative"), w0)).
  { intros w0. unfold FirstGen.sleep_float.
    destruct (Qle_bool 0 (backoff_sec * inject_Z 1)) eqn:Hle; [|done].
    apply Qle_bool_iff in Hle. change (inject_Z 1) with 1%Q in Hle. lra. }
  assert (Hev : ∀ a, events_of {| clock := clock w + 0 + Z.of_N (elapsed env (ticks w));
                                  ticks := S (ticks w); log_file := log_file w;
                                  trace := trace w ++ [(clock w, EvPost payload a)] |}
                     = events_of w ++ [EvPost payload a])
    by (intros a; unfold events_of; cbn; by rewrite fmap_app).
  destruct (requests_post env (ticks w) payload) as [c text|cls msg] eqn:Ha.
  - cbn in Hrej. rewrite Hrej, Hnap. split; [done | apply Hev].
  - rewrite (Hreq cls msg eq_refl), Hnap. split; [done | apply Hev].
Qed.

Lemma negative_backoff_raises_witness :
  (FirstGen.submit_to_form redirecting_env raised_by_requests first_payload 3 (-1)
     (at_time day1 7 0 0)).1
  = Raise (Exception "ValueError" "sleep length must be non-negative").
Proof.
  apply (negative_backoff_raises redirecting_env raised_by_requests first_payload 3 (-1)
           (at_time day1 7 0 0)); [done | lia | done | done].
Defined.

(** ** The guard of the catch-up loop *)

Section CatchUpGuard.
Context (py : PyLib) (env : Env) (id : SiteIdentity).


End CatchUpGuard.


(** ** The sibling script has no second attempt *)

(** X19. In the sibling script a single failure of the probe ends the
    run: [run_once] raises what the probe raised after its first print and
    one attempt, with no retry, no command-line fallback, nothing logged
    and nothing sent, and the catch-up loop that made the run ends with
    it. *)
Theorem experimental_probe_failure_is_fatal py env id label w cls msg :
  speedtest_installed env = true →
  speedtest_probe env (ticks w) = ProbeRaise cls msg →
  let rw := Experimental.run_once py env id label w in
  rw.1 = Raise (Exception cls msg)
  ∧ events_of rw.2 = events_of w ++ [EvRun label; EvProbe 1]
  ∧ log_file rw.2 = log_file w
  ∧ ∀ h m rest now last_run ran_any,
      is_due last_run now (clock w `div` DAY) (label, h, m) = true →
      (Experimental.catch_up py env id ((label, h, m) :: rest) now last_run ran_any w).1
      = Raise (Exception cls msg).
Proof.
  intros Hinstalled Hprobe. cbn zeta.
  assert (Hrun : Experimental.run_once py env id label w
            = (Raise (Exception cls msg),
               {| clock := clock w + 0 + Z.of_N (elapsed env (ticks w));
                  ticks := S (ticks w); log_file := log_file w;
                  trace := (trace w ++ [(clock w, EvRun label)]) ++ [(clock w, EvProbe 1)] |})).
  { unfold Experimental.run_once, bind, Experimental.measure_speed. rewrite Hinstalled.
    unfold bind, emit, interact. cbn [fst snd ticks clock log_file trace].
    by rewrite Hprobe. }
  rewrite Hrun. split_and!; [done | | done |].
  - unfold events_of. cbn. by rewrite !fmap_app, <- app_assoc.
  - intros h m rest now last_run ran_any Hdue. unfold is_due in Hdue.
    cbn [Experimental.catch_up]. unfold bind, date_today. by rewrite Hdue, Hrun.
Qed.

Lemma experimental_probe_failure_is_fatal_witness :
  (Experimental.run_once plain_py flaky_env (prefilled "PC") "07:00" (at_time day1 7 0 0)).1
  = Raise (Exception "ConfigRetrievalError" "HTTP Error 403: Forbidden").
Proof.
  apply (experimental_probe_failure_is_fatal plain_py flaky_env (prefilled "PC") "07:00"
           (at_time day1 7 0 0) "ConfigRetrievalError" "HTTP Error 403: Forbidden"
           eq_refl eq_refl).
Defined.
(** * The submission engine against its plan *)

Section SubmissionPlan.
Context (py : PyLib) (env : Env) (id : SiteIdentity).
Context (results : Results) (ts : string).

Local Abbreviation plan_of k combos := (planned py env id results ts k combos).
Local Abbreviation has_payload combo :=
  (is_ok (Official.payload_of py id combo.1 combo.2 results ts) = true).

Lemma planned_app k combos1 combos2 :
  plan_of k (combos1 ++ combos2)
  = plan_of k combos1 ++ plan_of (k + length combos1) combos2.
Proof.
  revert k. induction combos1 as [|c rest IH]; intros k; cbn.
  - by rewrite Nat.add_0_r.
  - rewrite IH. do 3 f_equal. lia.
Qed.

Lemma planned_length k combos : length (plan_of k combos) = length combos.
Proof. revert k. induction combos as [|c rest IH]; intros k; cbn; by rewrite ?IH. Qed.



(** One attempt whose payload exists: one POST, answered as planned. *)
Lemma try_submit_as_planned m h w :
  has_payload (m, h) →
  let a := attempt_at py env id results ts (ticks w) (m, h) in
  ∃ w1,
    Official.try_submit_with_mapping py env id m h results ts w
    = (match att_answer a with
       | HttpResponse c text => Ok (accepted c, c, preview_of text)
       | HttpRaise cls msg => Raise (Exception cls msg)
       end, w1)
    ∧ events_of w1 = events_of w ++ [att_event a]
    ∧ ticks w1 = S (ticks w).
Proof.
  cbn zeta. unfold attempt_at, att_event. cbn [fst snd att_answer att_payload].
  intros Hp. unfold Official.try_submit_with_mapping, bind, lift.
  destruct (Official.payload_of py id m h results ts) as [p|e]; [|done].
  rewrite requests_post_call_spec.
  exists {| clock := clock w + 0 + Z.of_N (elapsed env (ticks w));
            ticks := S (ticks w); log_file := log_file w;
            trace := trace w ++ [(clock w, EvPost p (requests_post env (ticks w) p))] |}.
  split_and!; [| |done].
  - by destruct (requests_post env (ticks w) p).
  - unfold events_of. cbn. by rewrite fmap_app.
Qed.

(** The inner loop follows the plan up to the first decisive attempt. *)
Lemma hidden_loop_plan m hiddens ls w :
  Forall (λ combo, has_payload combo) (pair m <$> hiddens) →
  let plan := plan_of (ticks w) (pair m <$> hiddens) in
  let rw := Official.hidden_loop py env id m hiddens results ts ls w in
  match list_find (λ a, att_decisive a = true) plan with
  | Some (i, a) =>
      events_of rw.2 = events_of w ++ (att_event <$> take (S i) plan)
      ∧ rw.1 = match att_answer a with
               | HttpResponse c text =>
                   Ok (inl (true, Some c, preview_of text,
                            Some (att_mapping a), Some (att_hidden a)))
               | HttpRaise cls msg => Raise (Exception cls msg)
               end
  | None =>
      events_of rw.2 = events_of w ++ (att_event <$> plan)
      ∧ rw.1 = Ok (inr (last_status_of ls plan))
      ∧ ticks rw.2 = (ticks w + length hiddens)%nat
  end.
Proof.
  cbn zeta. revert ls w. induction hiddens as [|h rest IH]; intros ls w Hall.
  - cbn. rewrite app_nil_r, Nat.add_0_r. by split_and!.
  - rewrite fmap_cons in Hall. apply Forall_cons in Hall as [Hp Hall].
    destruct (try_submit_as_planned m h w Hp) as (w1 & Heq & Hev1 & Hticks). cbn zeta in *.
    set (a := attempt_at py env id results ts (ticks w) (m, h)) in *.
    assert (Hm : att_mapping a = m ∧ att_hidden a = h) by done. destruct Hm as [Hm Hh].
    assert (Hdef : attempt_at py env id results ts (ticks w) (m, h) = a) by done.
    clearbody a.
    destruct (att_answer a) as [c text|cls msg] eqn:Ha.
    + destruct (accepted c) eqn:Hacc.
      * assert (Hdec : att_decisive a = true) by (unfold att_decisive; by rewrite Ha).
        cbn [fmap list_fmap planned Official.hidden_loop list_find]. unfold bind.
        rewrite Hdef, Heq, decide_True by done. cbn. by rewrite Ha, Hev1, Hm, Hh.
      * assert (Hdec : att_decisive a ≠ true) by (unfold att_decisive; by rewrite Ha, Hacc).
        cbn [fmap list_fmap planned Official.hidden_loop list_find]. unfold bind.
        rewrite Hdef, Heq, decide_False by done.
        specialize (IH (false, Some c, preview_of text) w1 Hall). rewrite Hticks in IH.
        destruct (list_find (λ a0, att_decisive a0 = true)
                    (plan_of (S (ticks w)) (pair m <$> rest))) as [[i b]|];
          cbn [fmap option_fmap option_map prod_map fst snd Datatypes.id].
        -- destruct IH as [Hev Hres]. split; [|done].
           by rewrite Hev, Hev1, <- app_assoc.
        -- destruct IH as (Hev & Hres & Ht). split_and!.
           ++ by rewrite Hev, Hev1, <- app_assoc.
           ++ rewrite Hres. do 2 f_equal. rewrite <- Hacc. by apply last_status_of_cons.
           ++ rewrite Ht. cbn. lia.
    + assert (Hdec : att_decisive a = true) by (unfold att_decisive; by rewrite Ha).
      cbn [fmap list_fmap planned Official.hidden_loop list_find]. unfold bind.
      rewrite Hdef, Heq, decide_True by done. cbn. by rewrite Ha, Hev1.
Qed.

(** So does the outer loop. *)
Lemma mapping_loop_plan mappings hiddens ls w :
  Forall (λ combo, has_payload combo) (ranked_combos mappings hiddens) →
  let plan := plan_of (ticks w) (ranked_combos mappings hiddens) in
  let rw := Official.mapping_loop py env id mappings hiddens results ts ls w in
  match list_find (λ a, att_decisive a = true) plan with
  | Some (i, a) =>
      events_of rw.2 = events_of w ++ (att_event <$> take (S i) plan)
      ∧ rw.1 = match att_answer a with
               | HttpResponse c text =>
                   Ok (true, Some c, preview_of text,
                       Some (att_mapping a), Some (att_hidden a))
               | HttpRaise cls msg => Raise (Exception cls msg)
               end
  | None =>
      events_of rw.2 = events_of w ++ (att_event <$> plan)
      ∧ rw.1 = Ok (false, (last_status_of ls plan).1.2, (last_status_of ls plan).2,
                   None, None)
  end.
Proof.
  cbn zeta. revert ls w. induction mappings as [|m rest IH]; intros ls w Hall.
  - cbn. by rewrite app_nil_r.
  - change (ranked_combos (m :: rest) hiddens)
      with ((pair m <$> hiddens) ++ ranked_combos rest hiddens) in *.
    apply Forall_app in Hall as [Hall1 Hall2].
    rewrite planned_app, length_fmap.
    cbn [Official.mapping_loop]. unfold bind.
    pose proof (hidden_loop_plan m hiddens ls w Hall1) as H1. cbn zeta in H1.
    set (plan1 := plan_of (ticks w) (pair m <$> hiddens)) in *.
    destruct (list_find (λ a, att_decisive a = true) plan1) as [[i a]|] eqn:Hfind.
    + rewrite (list_find_app_l _ _ _ _ _ Hfind).
      destruct H1 as [Hev Hres].
      assert (Hi : (S i ≤ length plan1)%nat).
      { apply list_find_Some in Hfind as (Hl & _). apply lookup_lt_Some in Hl. lia. }
      rewrite take_app_le by done.
      destruct (Official.hidden_loop py env id m hiddens results ts ls w) as [r1 w1].
      cbn [fst snd] in *. subst r1. by destruct (att_answer a).
    + rewrite (list_find_app_r _ _ _ Hfind).
      destruct H1 as (Hev1 & Hres1 & Hticks).
      destruct (Official.hidden_loop py env id m hiddens results ts ls w) as [r1 w1].
      cbn [fst snd] in *. subst r1.
      specialize (IH (last_status_of ls plan1) w1 Hall2). rewrite Hticks in IH.
      set (plan2 := plan_of (ticks w + length hiddens) (ranked_combos rest hiddens)) in *.
      destruct (list_find (λ a, att_decisive a = true) plan2) as [[i a]|];
        cbn [fmap option_fmap option_map prod_map fst snd Datatypes.id].
      * destruct IH as [Hev Hres]. split; [|done].
        replace (S (i + length plan1)) with (length plan1 + S i)%nat by lia.
        rewrite take_app_add, fmap_app, Hev, Hev1, <- app_assoc. done.
      * destruct IH as [Hev Hres]. split.
        -- rewrite fmap_app, Hev, Hev1, <- app_assoc. done.
        -- rewrite Hres. unfold last_status_of. by rewrite foldl_app.
Qed.

Lemma official_combos_have_payloads :
  valid_identity id = true →
  Forall (λ combo, has_payload combo)
         (ranked_combos Official.TEXT_MAPPING_TRIES Official.HIDDEN_CANDIDATES).
Proof.
  intros Hid. rewrite ranked_combos_official.
  repeat constructor; cbn [fst snd]; unfold Official.payload_of;
    rewrite (build_payload_base_valid py id results ts Hid); cbn [result_bind];
    by eval_text_id.
Qed.


End SubmissionPlan.



(** * The wake cycle *)

Section WakeCycle.
Context (py : PyLib) (env : Env) (id : SiteIdentity).

Lemma due_slots_schedules last_run now D :
  due_slots last_run now D Official.SCHEDULES
  = (if is_due last_run now D ("07:00"%string, 7, 0) then [("07:00"%string, 7, 0)] else [])
    ++ (if is_due last_run now D ("13:30"%string, 13, 30)
        then [("13:30"%string, 13, 30)] else []).
Proof.
  unfold due_slots, Official.SCHEDULES. rewrite !filter_cons, filter_nil.
  destruct (is_due last_run now D ("07:00"%string, 7, 0)),
           (is_due last_run now D ("13:30"%string, 13, 30)); done.
Qed.

Lemma nothing_due_inv last_run now D :
  due_slots last_run now D Official.SCHEDULES = [] →
  is_due last_run now D ("07:00"%string, 7, 0) = false
  ∧ is_due last_run now D ("13:30"%string, 13, 30) = false.
Proof.
  rewrite due_slots_schedules.
  destruct (is_due last_run now D ("07:00"%string, 7, 0)),
           (is_due last_run now D ("13:30"%string, 13, 30)); done.
Qed.

Lemma is_due_insert_ne last_run now today label h m label' D :
  label ≠ label' →
  is_due (<[label' := D]> last_run) now today (label, h, m)
  = is_due last_run now today (label, h, m).
Proof. intros Hne. unfold is_due. by rewrite lookup_insert_ne. Qed.

Lemma sleep_chunks_no_firing fuel next_time wait_seconds w w1 :
  Official.sleep_chunks env fuel next_time wait_seconds w = (Ok (), w1) →
  firings w1 = firings w.
Proof.
  intros Hs. destruct (grown_sleep_chunks env fuel next_time wait_seconds w)
    as (w' & Heq & _ & Hf & _).
  rewrite Hs in Heq. injection Heq as <-. by rewrite Hf, app_nil_r.
Qed.

(** The round that sleeps towards a slot and then runs it. *)
Lemma sleep_round last_run w w1 w2 next_time next_label :
  due_slots last_run (clock w) (clock w `div` DAY) Official.SCHEDULES = [] →
  Official.min_by_time (upcoming_at Official.SCHEDULES last_run (clock w))
  = Some (next_time, next_label) →
  Official.sleep_chunks env (Z.to_nat (Z.max 5 (int_total_seconds (next_time - clock w))))
    next_time (Z.max 5 (int_total_seconds (next_time - clock w))) w = (Ok (), w1) →
  Official.run_once py env id next_label w1 = (Ok (), w2) →
  Official.loop_iteration py env id last_run w
  = (Ok (<[next_label := clock w2 `div` DAY]> last_run), w2)
  ∧ firings w2 = firings w ++ [(clock w1 `div` DAY, next_label)].
Proof.
  intros Hnone Hnext Hsleep Hrun. apply nothing_due_inv in Hnone as [H7 H13]. split.
  - unfold Official.loop_iteration, bind, datetime_now, Official.SCHEDULES.
    rewrite !catch_up_skip by done.
    cbn [Official.catch_up ret]. rewrite collect_upcoming_pure.
    fold Official.SCHEDULES. rewrite Hnext, Hsleep, Hrun. by unfold date_today, ret.
  - pose proof (run_once_firings py env id next_label w1) as Hf. rewrite Hrun in Hf.
    cbn [snd] in Hf. by rewrite Hf, (sleep_chunks_no_firing _ _ _ _ _ Hsleep).
Qed.

(** The catch-up loop when the slot that comes first, if it is due, runs
    and returns on the day of the round. *)
Lemma catch_up_fires_due last_run w :
  (is_due last_run (clock w) (clock w `div` DAY) ("07:00"%string, 7, 0) = true →
   ∃ w', Official.run_once py env id "07:00" w = (Ok (), w')
         ∧ clock w' `div` DAY = clock w `div` DAY) →
  firings (Official.catch_up py env id Official.SCHEDULES (clock w) last_run false w).2
  = firings w
    ++ fired_on (clock w `div` DAY)
         (due_slots last_run (clock w) (clock w `div` DAY) Official.SCHEDULES).
Proof.
  intros Hfirst. rewrite due_slots_schedules. unfold Official.SCHEDULES.
  set (D := clock w `div` DAY) in *.
  assert (Hlast : ∀ lr ra w0,
            clock w0 `div` DAY = D →
            firings (Official.catch_up py env id [("13:30"%string, 13, 30)] (clock w)
                       lr ra w0).2
            = firings w0 ++ fired_on D
                (if is_due lr (clock w) D ("13:30"%string, 13, 30)
                 then [("13:30"%string, 13, 30)] else [])).
  { intros lr ra w0 Hd0.
    destruct (is_due lr (clock w) D ("13:30"%string, 13, 30)) eqn:Hdue.
    - rewrite catch_up_fire by (by rewrite Hd0).
      pose proof (run_once_firings py env id "13:30" w0) as Hf.
      destruct (Official.run_once py env id "13:30" w0) as [[[]|e] w3];
        cbn [snd Official.catch_up ret] in *; by rewrite Hf, Hd0.
    - rewrite catch_up_skip by (by rewrite Hd0). cbn. by rewrite app_nil_r. }
  destruct (is_due last_run (clock w) D ("07:00"%string, 7, 0)) eqn:H7.
  - destruct (Hfirst eq_refl) as (w' & Hrun & Hd').
    rewrite catch_up_fire by done. rewrite Hrun, Hd'.
    pose proof (run_once_firings py env id "07:00" w) as Hf. rewrite Hrun in Hf.
    cbn [snd] in Hf. rewrite (Hlast _ _ _ Hd'), Hf, is_due_insert_ne by done.
    fold D. rewrite <- app_assoc.
    by destruct (is_due last_run (clock w) D ("13:30"%string, 13, 30)).
  - rewrite catch_up_skip by done. by rewrite (Hlast _ _ _ eq_refl).
Qed.

(** The instant a round sleeps towards is after the present one. *)
Lemma sleep_target_future last_run now next_time next_label :
  Official.min_by_time (upcoming_at Official.SCHEDULES last_run now)
  = Some (next_time, next_label) →
  now < next_time.
Proof.
  intros Hnext. apply min_by_time_elem in Hnext.
  pose proof (proj1 (day_bounds now _) eq_refl) as Hb.
  unfold upcoming_at, Official.SCHEDULES in Hnext. cbn [fmap list_fmap] in Hnext.
  apply elem_of_cons in Hnext as [Heq|Hnext];
    [|apply list_elem_of_singleton in Hnext as Heq];
    injection Heq as -> _;
    repeat case_bool_decide; repeat case_match;
    unfold combine, DAY, MICRO in *; lia.
Qed.

(** C7 (amended).  Upon resume the scheduler goes on where it was.
    First: a round that, with nothing due, has slept towards a slot runs
    that slot as soon as the sleep comes back, however late and whatever
    [last_run] records, and books it under the day on which the run ends.
    Second: at the top of a round the catch-up loop fires exactly the
    slots that are due then (the instant of the slot on the current day
    is not after the present one, and [last_run] does not record the slot
    for the current day), each once and in the order of the slots,
    provided the run of 07:00, if that slot is due, returns and ends on
    that day.  Third, hence: when the scheduler comes back, on a day [D],
    from the sleep towards one slot, the run of that slot returns on [D],
    the other slot is due then (its instant on [D] has passed and
    [last_run] does not record it for [D]) and its run returns, two
    rounds fire both slots, each once, the slot slept for first, and
    leave the scheduler running after the pause of 30 seconds.  Fourth:
    the instant a round sleeps towards is after the present one. *)
Theorem both_overdue_slots_fire :
  (∀ last_run w w1 w2 next_time next_label,
     due_slots last_run (clock w) (clock w `div` DAY) Official.SCHEDULES = [] →
     Official.min_by_time (upcoming_at Official.SCHEDULES last_run (clock w))
     = Some (next_time, next_label) →
     Official.sleep_chunks env (Z.to_nat (Z.max 5 (int_total_seconds (next_time - clock w))))
       next_time (Z.max 5 (int_total_seconds (next_time - clock w))) w = (Ok (), w1) →
     Official.run_once py env id next_label w1 = (Ok (), w2) →
     Official.loop_iteration py env id last_run w
     = (Ok (<[next_label := clock w2 `div` DAY]> last_run), w2)
     ∧ firings w2 = firings w ++ [(clock w1 `div` DAY, next_label)])
  ∧ (∀ last_run w,
       (is_due last_run (clock w) (clock w `div` DAY) ("07:00"%string, 7, 0) = true →
        ∃ w', Official.run_once py env id "07:00" w = (Ok (), w')
              ∧ clock w' `div` DAY = clock w `div` DAY) →
       firings (Official.catch_up py env id Official.SCHEDULES (clock w) last_run false w).2
       = firings w
         ++ fired_on (clock w `div` DAY)
              (due_slots last_run (clock w) (clock w `div` DAY) Official.SCHEDULES))
  ∧ (∀ D last_run w w1 w2 w3 next_time next_label olabel oh om,
       due_slots last_run (clock w) (clock w `div` DAY) Official.SCHEDULES = [] →
       Official.min_by_time (upcoming_at Official.SCHEDULES last_run (clock w))
       = Some (next_time, next_label) →
       Official.sleep_chunks env
         (Z.to_nat (Z.max 5 (int_total_seconds (next_time - clock w))))
         next_time (Z.max 5 (int_total_seconds (next_time - clock w))) w = (Ok (), w1) →
       Official.run_once py env id next_label w1 = (Ok (), w2) →
       clock w1 `div` DAY = D → clock w2 `div` DAY = D →
       (olabel, oh, om) ∈ Official.SCHEDULES → olabel ≠ next_label →
       is_due last_run (clock w2) D (olabel, oh, om) = true →
       Official.run_once py env id olabel w2 = (Ok (), w3) →
       let w4 := (time_sleep env 30 w3).2 in
       Official.loop_from py env id 2 last_run w
       = (Ok (<[olabel := clock w3 `div` DAY]> (<[next_label := D]> last_run)), w4)
       ∧ firings w4 = firings w ++ [(D, next_label); (D, olabel)])
  ∧ (∀ last_run now next_time next_label,
       Official.min_by_time (upcoming_at Official.SCHEDULES last_run now)
       = Some (next_time, next_label) →
       now < next_time).
Proof.
  split; [apply sleep_round|].
  split; [apply catch_up_fires_due|].
  split; [|apply sleep_target_future].
  - intros D last_run w w1 w2 w3 next_time next_label olabel oh om
      Hnone Hnext Hsleep Hrun1 Hd1 Hd2 Hother Hne Hdue Hrun2 w4.
    destruct (sleep_round last_run w w1 w2 next_time next_label Hnone Hnext Hsleep Hrun1)
      as [Hround1 Hf1]. rewrite Hd2 in Hround1. rewrite Hd1 in Hf1.
    assert (Hlabel : next_label ∈ slot_labels Official.SCHEDULES).
    { rewrite <- (upcoming_labels _ last_run (clock w)).
      apply min_by_time_elem in Hnext. by apply (list_elem_of_fmap_2 snd) in Hnext. }
    assert (Hc23 : clock w2 ≤ clock w3).
    { pose proof (run_once_trace py env id olabel w2) as [Hc _]. by rewrite Hrun2 in Hc. }
    pose proof (run_once_firings py env id olabel w2) as Hf2. rewrite Hrun2 in Hf2.
    cbn [snd] in Hf2. rewrite Hd2 in Hf2.
    assert (Hf4 : firings w4 = firings w3).
    { pose proof (grown_time_sleep env 30 w3) as (_ & Hf & _). by rewrite app_nil_r in Hf. }
    assert (Hround2 : Official.loop_iteration py env id (<[next_label := D]> last_run) w2
              = (Ok (<[olabel := clock w3 `div` DAY]> (<[next_label := D]> last_run)), w4)).
    { unfold Official.loop_iteration, bind, datetime_now, Official.SCHEDULES.
      unfold slot_labels, Official.SCHEDULES in Hlabel. cbn in Hlabel. unfold Official.SCHEDULES in Hother.
      apply elem_of_cons in Hlabel as [->|Hlabel];
        [|apply list_elem_of_singleton in Hlabel as ->];
        (apply elem_of_cons in Hother as [[= -> -> ->]|Hother];
         [|apply list_elem_of_singleton in Hother as [= -> -> ->]]); try done.
      - (* slept for 07:00, 13:30 is due *)
        rewrite catch_up_skip by (rewrite Hd2; apply is_due_done, lookup_insert_eq).
        rewrite catch_up_fire by (by rewrite Hd2, is_due_insert_ne).
        rewrite Hrun2. by cbn [Official.catch_up ret].
      - (* slept for 13:30, 07:00 is due *)
        rewrite catch_up_fire by (by rewrite Hd2, is_due_insert_ne).
        rewrite Hrun2.
        rewrite catch_up_skip; [by cbn [Official.catch_up ret]|].
        destruct (decide (clock w3 `div` DAY = D)) as [Hd3|Hd3].
        + rewrite Hd3. apply is_due_done.
          rewrite lookup_insert_ne by done. apply lookup_insert_eq.
        + apply is_due_early.
          pose proof (proj1 (day_bounds (clock w2) D) Hd2) as Hb2.
          pose proof (proj1 (day_bounds (clock w3) _) eq_refl) as Hb3.
          assert (D < clock w3 `div` DAY).
          { assert (D ≤ clock w3 `div` DAY); [|lia].
            rewrite <- Hd2. apply Z.div_le_mono; [done | lia]. }
          unfold combine, DAY, MICRO in *. nia. }
    split.
    + cbn [Official.loop_from]. unfold bind. by rewrite Hround1, Hround2.
    + by rewrite Hf4, Hf2, Hf1, <- app_assoc.
Qed.

End WakeCycle.

(** C7 after a night and a day asleep: the scheduler that went to sleep at
    13:31 wakes up at 14:05 of the next day and fires 07:00, then 13:30. *)
Lemma both_overdue_slots_fire_witness :
  firings (time_sleep overnight_env 30 overnight_w3).2
  = firings overnight_w0 ++ [(day2, "07:00"%string); (day2, "13:30"%string)].
Proof.
  refine (proj2 (proj1 (proj2 (proj2 (both_overdue_slots_fire plain_py overnight_env
                                         (prefilled "PC"))))
            day2 both_ran_on_day1 overnight_w0 overnight_w1 overnight_w2 overnight_w3
            (combine day2 7 0) "07:00"%string "13:30"%string 13 30
            _ _ _ _ _ _ _ _ _ _)).
  - vm_compute; reflexivity.
  - vm_compute; reflexivity.
  - vm_compute; reflexivity.
  - vm_compute; reflexivity.
  - vm_compute; reflexivity.
  - vm_compute; reflexivity.
  - apply list_elem_of_further, list_elem_of_here.
  - discriminate.
  - vm_compute; reflexivity.
  - vm_compute; reflexivity.
Defined.

(** * The speed field of the payloads that are posted *)

Section PostedPayloads.
Context (py : PyLib) (id : SiteIdentity).

Local Abbreviation is_not_post := (λ ev : event, ¬ is_post_event ev).

Lemma measure_events_not_posts evs :
  Forall is_measure_event evs → Forall is_not_post evs.
Proof.
  intros H. eapply Forall_impl; [exact H|].
  intros ev Hm Hp. by destruct ev.
Qed.

Lemma header_not_post (log : option (list (list cell))) :
  Forall is_not_post (match log with Some _ => [] | None => [EvHeader] end).
Proof. destruct log; repeat constructor. by intros []. Qed.

(** The events of a run of the main script whose measurement has
    returned: what precedes the POSTs, the POSTs, which are those of
    [submit_official], and what follows them. *)
Lemma run_once_posts env label w results w1 :
  Official.measure_speed py env (emit (EvRun label) w).2 = (Ok results, w1) →
  let ts := strftime py (clock w1) in
  let w2 := (Official.ensure_log_header w1).2 in
  ∃ before posts after,
    events_of (Official.run_once py env id label w).2
    = events_of w ++ before ++ posts ++ after
    ∧ events_of (Official.submit_official py env id results ts w2).2 = events_of w2 ++ posts
    ∧ Forall is_not_post before ∧ Forall is_not_post after.
Proof.
  intros Hm. cbn zeta.
  destruct (tame_measure_speed py env (emit (EvRun label) w).2) as (Hlm & _ & tevm & Htrm & Hfm).
  rewrite Hm in Hlm, Htrm. cbn [snd] in Hlm, Htrm.
  assert (Hev1 : events_of w1 = events_of w ++ EvRun label :: tevm.*2).
  { unfold events_of. rewrite Htrm. cbn. by rewrite !fmap_app, <- app_assoc. }
  set (hdr := match log_file w1 with Some _ => [] | None => [EvHeader] end).
  assert (Hhdr : ∃ w2, Official.ensure_log_header w1 = (Ok (), w2)
            ∧ events_of w2 = events_of w1 ++ hdr).
  { unfold Official.ensure_log_header, hdr.
    destruct (log_file w1); eexists; (split; [reflexivity|]).
    - by rewrite app_nil_r.
    - unfold events_of. cbn. by rewrite fmap_app. }
  destruct Hhdr as (w2 & Hh & Hev2). rewrite Hh. cbn [snd].
  destruct (tame_submit_official py env id results (strftime py (clock w1)) w2)
    as (_ & _ & tevs & Htrs & Hfs).
  assert (Hev3 : events_of (Official.submit_official py env id results
                              (strftime py (clock w1)) w2).2 = events_of w2 ++ tevs.*2).
  { unfold events_of. by rewrite Htrs, fmap_app. }
  assert (Hrun : Official.run_once py env id label w
            = match Official.submit_official py env id results (strftime py (clock w1)) w2 with
              | (Ok (ok, code, preview, um, uh), w3) =>
                  Official.append_log
                    (Official.log_row py id (strftime py (clock w1)) results label
                       ok code um uh) w3
              | (Raise e, w3) => (Raise e, w3)
              end).
  { unfold Official.run_once, bind. cbn [emit fst snd] in Hm |- *. rewrite Hm.
    unfold datetime_now. rewrite Hh.
    by destruct (Official.submit_official py env id results (strftime py (clock w1)) w2)
      as [[[[[[ok code] preview] um] uh]|e] w3]. }
  assert (Hbefore : Forall is_not_post (EvRun label :: tevm.*2 ++ hdr)).
  { constructor; [by intros []|]. apply Forall_app. split.
    - apply measure_events_not_posts. by apply Forall_fmap.
    - apply header_not_post. }
  rewrite Hrun.
  destruct (Official.submit_official py env id results (strftime py (clock w1)) w2)
    as [[[[[[ok code] preview] um] uh]|e] w3]; cbn [snd] in Hev3.
  - exists (EvRun label :: tevm.*2 ++ hdr), (tevs.*2),
      [EvAppend (Official.log_row py id (strftime py (clock w1)) results label
                   ok code um uh)].
    split; [|split; [exact Hev3|split; [exact Hbefore|]]].
    + unfold Official.append_log, events_of at 1. cbn. rewrite fmap_app.
      fold (events_of w3).
      rewrite Hev3, Hev2, Hev1. cbn. by rewrite <- !app_assoc.
    + constructor; [by intros []|constructor].
  - exists (EvRun label :: tevm.*2 ++ hdr), (tevs.*2), [].
    split; [|split; [exact Hev3|split; [exact Hbefore|constructor]]].
    cbn [snd]. rewrite Hev3, Hev2, Hev1, app_nil_r. cbn. by rewrite <- !app_assoc.
Qed.

(** The POSTs of [submit_form]: the payload and, at most, the payload
    without [fbzx] after it. *)
Lemma submit_form_posts env payload w :
  ∃ r w' a1 a2,
    Experimental.submit_form env payload w = (Ok r, w')
    ∧ (events_of w' = events_of w ++ [EvPost payload a1]
       ∨ events_of w' = events_of w
                        ++ [EvPost payload a1; EvPost (delete "fbzx"%string payload) a2]).
Proof.
  set (a1 := requests_post env (ticks w) payload).
  set (a2 := requests_post env (S (ticks w)) (delete "fbzx"%string payload)).
  assert (Hone : ∀ r w', trace w' = trace w ++ [(clock w, EvPost payload a1)] →
            ∃ (r0 : bool * option Z * string) w0 b1 b2,
              (Ok r, w') = (Ok r0, w0)
              ∧ (events_of w0 = events_of w ++ [EvPost payload b1]
                 ∨ events_of w0 = events_of w
                      ++ [EvPost payload b1; EvPost (delete "fbzx"%string payload) b2])).
  { intros r w' Htr. exists r, w', a1, a2. split; [done|]. left.
    unfold events_of. by rewrite Htr, fmap_app. }
  assert (Htwo : ∀ r w' t, trace w' = (trace w ++ [(clock w, EvPost payload a1)])
                                   ++ [(t, EvPost (delete "fbzx"%string payload) a2)] →
            ∃ (r0 : bool * option Z * string) w0 b1 b2,
              (Ok r, w') = (Ok r0, w0)
              ∧ (events_of w0 = events_of w ++ [EvPost payload b1]
                 ∨ events_of w0 = events_of w
                      ++ [EvPost payload b1; EvPost (delete "fbzx"%string payload) b2])).
  { intros r w' t Htr. exists r, w', a1, a2. split; [done|]. right.
    unfold events_of. by rewrite Htr, !fmap_app, <- app_assoc. }
  unfold Experimental.submit_form. cbn [Experimental.variants_loop].
  unfold bind. rewrite requests_post_call_spec. fold a1.
  destruct a1 as [c1 text1|cls1 msg1].
  1: destruct (accepted c1); [by apply Hone|].
  all: rewrite requests_post_call_spec; cbn [ticks clock trace]; fold a2;
    destruct a2 as [c2 text2|cls2 msg2]; try destruct (accepted c2);
    by eapply Htwo.
Qed.

Lemma exp_build_payload_valid results ts :
  experimental_valid id = true →
  is_ok (Experimental.build_payload py id results ts) = true.
Proof.
  unfold experimental_valid. intros [[H1 H2]%andb_prop H3]%andb_prop.
  unfold Experimental.build_payload. rewrite H1, H2, H3. cbn [negb].
  by eval_entry_ids.
Qed.

(** The events of a run of the sibling script whose measurement has
    returned. *)
Lemma exp_run_once_posts env label w results w1 :
  Experimental.measure_speed env (emit (EvRun label) w).2 = (Ok results, w1) →
  ∃ before posts after,
    events_of (Experimental.run_once py env id label w).2
    = events_of w ++ before ++ posts ++ after
    ∧ Forall is_not_post before ∧ Forall is_not_post after
    ∧ match Experimental.build_payload py id results (strftime py (clock w1)) with
      | Ok payload =>
          ∃ a1 a2, posts = [EvPost payload a1]
                   ∨ posts = [EvPost payload a1; EvPost (delete "fbzx"%string payload) a2]
      | Raise _ => posts = []
      end.
Proof.
  intros Hm.
  destruct (exp_measure_speed_frame env (emit (EvRun label) w).2) as (_ & evm & Hevm & Hfm).
  cbn zeta in Hevm. rewrite Hm in Hevm. cbn [snd] in Hevm.
  assert (Hev1 : events_of w1 = events_of w ++ EvRun label :: evm).
  { rewrite Hevm. unfold events_of. cbn. by rewrite !fmap_app, <- app_assoc. }
  set (hdr := match log_file w1 with Some _ => [] | None => [EvHeader] end).
  assert (Hhdr : ∃ w2, Experimental.ensure_log_header w1 = (Ok (), w2)
            ∧ events_of w2 = events_of w1 ++ hdr).
  { unfold Experimental.ensure_log_header, hdr.
    destruct (log_file w1); eexists; (split; [reflexivity|]).
    - by rewrite app_nil_r.
    - unfold events_of. cbn. by rewrite fmap_app. }
  destruct Hhdr as (w2 & Hh & Hev2).
  assert (Hbefore : Forall is_not_post (EvRun label :: evm ++ hdr)).
  { constructor; [by intros []|]. apply Forall_app. split.
    - by apply measure_events_not_posts.
    - apply header_not_post. }
  assert (Hrun : Experimental.run_once py env id label w
            = match Experimental.build_payload py id results (strftime py (clock w1)) with
              | Ok payload =>
                  match Experimental.submit_form env payload w2 with
                  | (Ok (ok, code, preview), w3) =>
                      Experimental.append_log
                        (Experimental.log_row id (strftime py (clock w1)) results label
                           ok code) w3
                  | (Raise e, w3) => (Raise e, w3)
                  end
              | Raise e => (Raise e, w2)
              end).
  { unfold Experimental.run_once, bind. cbn [emit fst snd] in Hm |- *. rewrite Hm.
    unfold datetime_now. rewrite Hh. unfold lift.
    destruct (Experimental.build_payload py id results (strftime py (clock w1))); [|done].
    by destruct (Experimental.submit_form env a w2) as [[[[ok code] preview]|e] w3]. }
  rewrite Hrun.
  destruct (Experimental.build_payload py id results (strftime py (clock w1)))
    as [payload|e].
  - destruct (submit_form_posts env payload w2) as ([[ok code] preview] & w3 & a1 & a2 & -> & Hev3).
    assert (Hposts : ∃ posts, events_of w3 = events_of w2 ++ posts
              ∧ (posts = [EvPost payload a1]
                 ∨ posts = [EvPost payload a1; EvPost (delete "fbzx"%string payload) a2])).
    { destruct Hev3 as [Hev3|Hev3]; eexists; (split; [exact Hev3|]); [by left | by right]. }
    destruct Hposts as (posts & Hev3' & Hcase).
    exists (EvRun label :: evm ++ hdr), posts,
      [EvAppend (Experimental.log_row id (strftime py (clock w1)) results label ok code)].
    split; [|split; [exact Hbefore|split; [|by exists a1, a2]]].
    + unfold Experimental.append_log, events_of at 1. cbn. rewrite fmap_app.
      fold (events_of w3).
      rewrite Hev3', Hev2, Hev1. cbn. by rewrite <- !app_assoc.
    + constructor; [by intros []|constructor].
  - exists (EvRun label :: evm ++ hdr), [], [].
    split; [|split; [exact Hbefore|split; [constructor|done]]].
    cbn [snd]. rewrite Hev2, Hev1, !app_nil_r. cbn. by rewrite <- !app_assoc.
Qed.

Lemma post_among before posts after p a :
  Forall is_not_post before → Forall is_not_post after →
  EvPost p a ∈ before ++ posts ++ after → EvPost p a ∈ posts.
Proof.
  intros Hb Ha Hin. rewrite Forall_forall in Hb, Ha.
  apply elem_of_app in Hin as [Hin|Hin]; [by destruct (Hb _ Hin)|].
  apply elem_of_app in Hin as [Hin|Hin]; [done | by destruct (Ha _ Hin)].
Qed.

(** C10.  The payloads exist: with an identity inside the enumerations
    every combination of the main script has a payload, and so has the
    sibling script.  In every payload that is built, the field of the
    internet-speed question holds the download figure followed by
    [" Mbps"] and the field of the notes question holds the notes text,
    and two measurements with the same download figure give payloads that
    differ in no field but the notes: upload and ping show nowhere else.
    And these are the payloads that are sent: in a run of either script
    whose measurement has returned, every POST carries, under the speed
    field, the download figure of that measurement followed by [" Mbps"]
    and, under the notes field, its notes text; with an identity inside
    the enumerations the run makes at least one POST. *)
Theorem speed_field_is_download :
  (∀ results ts m h payload,
     m ∈ Official.TEXT_MAPPING_TRIES → h ∈ Official.HIDDEN_CANDIDATES →
     Official.payload_of py id m h results ts = Ok payload →
     ∃ q7_id q8_id,
       Official.text_id m "Q7_internet_speed" = Ok q7_id
       ∧ Official.text_id m "Q8_notes" = Ok q8_id
       ∧ payload !! q7_id = Some (str_float py (download results) ++ " Mbps")%string
       ∧ payload !! q8_id = Some (Official.notes_text_of py id results ts)
       ∧ ∀ results' ts' payload',
           download results' = download results →
           Official.payload_of py id m h results' ts' = Ok payload' →
           ∀ k, k ≠ q8_id → payload' !! k = payload !! k)
  ∧ (∀ results ts payload,
       Experimental.build_payload py id results ts = Ok payload →
       payload !! "entry.1693223006"%string
         = Some (str_float py (download results) ++ " Mbps")%string
       ∧ payload !! "entry.1576525453"%string
         = Some (Experimental.notes_text_of py id results ts)
       ∧ ∀ results' ts' payload',
           download results' = download results →
           Experimental.build_payload py id results' ts' = Ok payload' →
           ∀ k, k ≠ "entry.1576525453"%string → payload' !! k = payload !! k)
  ∧ (valid_identity id = true →
     ∀ results ts m h,
       m ∈ Official.TEXT_MAPPING_TRIES → h ∈ Official.HIDDEN_CANDIDATES →
       is_ok (Official.payload_of py id m h results ts) = true)
  ∧ (experimental_valid id = true →
     ∀ results ts, is_ok (Experimental.build_payload py id results ts) = true)
  ∧ (∀ env label w results w1,
       Official.measure_speed py env (emit (EvRun label) w).2 = (Ok results, w1) →
       ∃ evs,
         events_of (Official.run_once py env id label w).2 = events_of w ++ evs
         ∧ (valid_identity id = true → Exists is_post_event evs)
         ∧ ∀ p a, EvPost p a ∈ evs →
             ∃ m q7_id q8_id,
               m ∈ Official.TEXT_MAPPING_TRIES
               ∧ Official.text_id m "Q7_internet_speed" = Ok q7_id
               ∧ Official.text_id m "Q8_notes" = Ok q8_id
               ∧ p !! q7_id = Some (str_float py (download results) ++ " Mbps")%string
               ∧ p !! q8_id
                 = Some (Official.notes_text_of py id results (strftime py (clock w1))))
  ∧ (∀ env label w results w1,
       Experimental.measure_speed env (emit (EvRun label) w).2 = (Ok results, w1) →
       ∃ evs,
         events_of (Experimental.run_once py env id label w).2 = events_of w ++ evs
         ∧ (experimental_valid id = true → Exists is_post_event evs)
         ∧ ∀ p a, EvPost p a ∈ evs →
             p !! "entry.1693223006"%string
               = Some (str_float py (download results) ++ " Mbps")%string
             ∧ p !! "entry.1576525453"%string
               = Some (Experimental.notes_text_of py id results (strftime py (clock w1)))).
Proof.
  assert (Hofficial : ∀ results ts m h payload,
     m ∈ Official.TEXT_MAPPING_TRIES → h ∈ Official.HIDDEN_CANDIDATES →
     Official.payload_of py id m h results ts = Ok payload →
     ∃ q7_id q8_id,
       Official.text_id m "Q7_internet_speed" = Ok q7_id
       ∧ Official.text_id m "Q8_notes" = Ok q8_id
       ∧ payload !! q7_id = Some (str_float py (download results) ++ " Mbps")%string
       ∧ payload !! q8_id = Some (Official.notes_text_of py id results ts)
       ∧ ∀ results' ts' payload',
           download results' = download results →
           Official.payload_of py id m h results' ts' = Ok payload' →
           ∀ k, k ≠ q8_id → payload' !! k = payload !! k).
  { intros results ts m h payload Hm Hh Hp.
    apply payload_of_inv in Hp as (base & q3 & q5 & q7 & q8 & Hb & H3 & H5 & H7 & H8 & ->).
    destruct (text_ids_of_tries m q7 q8 Hm H7 H8) as (Hne & Ha7 & Ha8 & Hhid).
    destruct (Hhid h Hh) as [Hh7 Hh8].
    exists q7, q8. split_and!; [done | done | | |].
    + rewrite !lookup_union_r by done.
      rewrite lookup_insert_ne by done. by rewrite lookup_insert_eq.
    + rewrite !lookup_union_r by done. by rewrite lookup_insert_eq.
    + intros results' ts' payload' Hd Hp' k Hk.
      apply payload_of_inv in Hp'
        as (base' & q3' & q5' & q7' & q8' & Hb' & H3' & H5' & H7' & H8' & ->).
      apply build_payload_base_inv in Hb as [_ Hb]. rewrite Hb in Hb'.
      injection Hb' as <-.
      rewrite H3 in H3'. rewrite H5 in H5'. rewrite H7 in H7'. rewrite H8 in H8'.
      injection H3' as <-. injection H5' as <-. injection H7' as <-. injection H8' as <-.
      rewrite !lookup_union, !(lookup_insert_ne _ q8) by done. by rewrite Hd. }
  assert (Hsibling : ∀ results ts payload,
       Experimental.build_payload py id results ts = Ok payload →
       payload !! "entry.1693223006"%string
         = Some (str_float py (download results) ++ " Mbps")%string
       ∧ payload !! "entry.1576525453"%string
         = Some (Experimental.notes_text_of py id results ts)
       ∧ ∀ results' ts' payload',
           download results' = download results →
           Experimental.build_payload py id results' ts' = Ok payload' →
           ∀ k, k ≠ "entry.1576525453"%string → payload' !! k = payload !! k).
  { intros results ts payload Hp.
    apply experimental_build_payload_inv in Hp as ->.
    split_and!.
    + rewrite lookup_union_r by done.
      rewrite lookup_insert_ne by done. by rewrite lookup_insert_eq.
    + rewrite lookup_union_r by done. by rewrite lookup_insert_eq.
    + intros results' ts' payload' Hd Hp' k Hk.
      apply experimental_build_payload_inv in Hp' as ->.
      rewrite !lookup_union, !(lookup_insert_ne _ "entry.1576525453"%string) by done.
      by rewrite Hd. }
  assert (Hexists : valid_identity id = true →
     ∀ results ts m h,
       m ∈ Official.TEXT_MAPPING_TRIES → h ∈ Official.HIDDEN_CANDIDATES →
       is_ok (Official.payload_of py id m h results ts) = true).
  { intros Hid results ts m h Hm Hh.
    pose proof (official_combos_have_payloads py id results ts Hid) as Hall.
    rewrite Forall_forall in Hall. apply (Hall (m, h)).
    unfold ranked_combos. apply list_elem_of_bind. exists m. split; [|done].
    by apply list_elem_of_fmap_2. }
  split_and!; [exact Hofficial | exact Hsibling | exact Hexists
              | intros Hid results ts; by apply exp_build_payload_valid | |].
  - intros env label w results w1 Hm.
    destruct (run_once_posts env label w results w1 Hm)
      as (before & posts & after & Hev & Hsub & Hb & Ha). cbn zeta in Hsub.
    set (ts := strftime py (clock w1)) in *.
    set (w2 := (Official.ensure_log_header w1).2) in *.
    destruct (mapping_loop_spec py env id results ts Official.TEXT_MAPPING_TRIES
                Official.HIDDEN_CANDIDATES (false, None, ""%string) w2)
      as (tried & Hevt & Hpre & Hpay & _). cbn zeta in Hevt.
    fold (Official.submit_official py env id results ts) in Hevt.
    rewrite Hsub in Hevt. apply app_inv_head in Hevt. subst posts.
    exists (before ++ (att_event <$> tried) ++ after). split_and!; [done | |].
    + intros Hid.
      pose proof (mapping_loop_plan py env id results ts Official.TEXT_MAPPING_TRIES
                    Official.HIDDEN_CANDIDATES (false, None, ""%string) w2
                    (official_combos_have_payloads py id results ts Hid)) as Hplan.
      cbn zeta in Hplan. fold (Official.submit_official py env id results ts) in Hplan.
      assert (Hne : tried ≠ []).
      { intros ->. rewrite Hsub in Hplan. rewrite ranked_combos_official in Hplan.
        cbn [planned] in Hplan.
        destruct (list_find _ _) as [[i a]|]; destruct Hplan as [Hp _];
          apply app_inv_head in Hp; discriminate Hp. }
      destruct tried as [|a0 tried']; [done|].
      apply Exists_app. right. apply Exists_app. left. by apply Exists_cons_hd.
    + intros p a Hin. apply (post_among _ _ _ _ _ Hb Ha) in Hin.
      apply list_elem_of_fmap in Hin as (att & Hatt & Hin).
      rewrite Forall_forall in Hpay. specialize (Hpay att Hin).
      assert (Hcombo : att_combo att ∈ ranked_combos Official.TEXT_MAPPING_TRIES
                                          Official.HIDDEN_CANDIDATES).
      { destruct Hpre as [rest Hrest]. rewrite Hrest. apply elem_of_app. left.
        by apply list_elem_of_fmap_2. }
      unfold ranked_combos in Hcombo.
      apply list_elem_of_bind in Hcombo as (m & Hmh & Hmin).
      apply list_elem_of_fmap in Hmh as (h & Heq & Hhin).
      unfold att_combo in Heq. injection Heq as Hm' Hh'.
      rewrite Hm', Hh' in Hpay.
      unfold att_event in Hatt. injection Hatt as -> ->.
      destruct (Hofficial results ts m h _ Hmin Hhin Hpay)
        as (q7 & q8 & H7 & H8 & Hs & Hn & _).
      by exists m, q7, q8.
  - intros env label w results w1 Hm.
    destruct (exp_run_once_posts env label w results w1 Hm)
      as (before & posts & after & Hev & Hb & Ha & Hcase).
    exists (before ++ posts ++ after). split_and!; [done | |].
    + intros Hid.
      pose proof (exp_build_payload_valid results (strftime py (clock w1)) Hid) as Hok.
      destruct (Experimental.build_payload py id results (strftime py (clock w1)));
        [|done].
      apply Exists_app. right. apply Exists_app. left.
      destruct Hcase as (a1 & a2 & [-> | ->]); by apply Exists_cons_hd.
    + intros p a Hin. apply (post_among _ _ _ _ _ Hb Ha) in Hin.
      destruct (Experimental.build_payload py id results (strftime py (clock w1)))
        as [payload|e] eqn:Hp; [|subst posts; by apply elem_of_nil in Hin].
      destruct (Hsibling _ _ _ Hp) as (Hs & Hn & _).
      assert (Hp' : p = payload ∨ p = delete "fbzx"%string payload).
      { destruct Hcase as (a1 & a2 & [-> | ->]).
        - apply list_elem_of_singleton in Hin as [= -> _]. by left.
        - apply elem_of_cons in Hin as [[= -> _]|Hin]; [by left|].
          apply list_elem_of_singleton in Hin as [= -> _]. by right. }
      destruct Hp' as [-> | ->]; [done|].
      by rewrite !lookup_delete_ne.
Qed.

End PostedPayloads.

(** C10 for the prefilled identity and a download of 94.37 Mbit/s: both
    scripts build a payload, and the speed field of the first mapping of
    the main script holds the download figure. *)
Lemma speed_field_is_download_witness :
  is_ok (Official.payload_of plain_py (prefilled "PC") first_mapping ∅ some_results
           "2024-10-04 07:00:30") = true
  ∧ is_ok (Experimental.build_payload plain_py (prefilled "PC") some_results
             "2024-10-04 07:00:30") = true
  ∧ first_payload !! "entry.181224386"%string
    = Some (str_float plain_py (download some_results) ++ " Mbps")%string.
Proof.
  destruct (speed_field_is_download plain_py (prefilled "PC"))
    as (Hfields & _ & Hofficial & Hsibling & _).
  split_and!.
  - apply (Hofficial eq_refl); [apply list_elem_of_here | apply list_elem_of_here].
  - apply (Hsibling eq_refl).
  - assert (Hp : Official.payload_of plain_py (prefilled "PC") first_mapping ∅ some_results
                   "2024-10-04 07:00:30" = Ok first_payload)
      by (vm_compute; reflexivity).
    destruct (Hfields some_results "2024-10-04 07:00:30"%string first_mapping ∅ first_payload
                (list_elem_of_here _ _) (list_elem_of_here _ _) Hp)
      as (q7 & q8 & H7 & _ & Hspeed & _).
    vm_compute in H7. injection H7 as <-. exact Hspeed.
Defined.
